(** * CCSeva: the z.ai usage service, the settings service and the poller

    A shallow embedding of [src/services/zaiService.ts],
    [src/services/settingsService.ts], [src/types/usage.ts] and of the
    service-selection part of [main.ts].

    Modelling conventions
    - A JavaScript [number] is an exact rational ([Q]): a finite value,
      computed without rounding; an invalid [Date], whose time value is
      [NaN], is written [None].  The code computes in IEEE 754 doubles.
      The two agree on comparisons, on constants and on sums, differences
      and floors of quotients of whole numbers up to 2^53 ([wholeNumber]);
      a statement that needs more than that carries the restriction as a
      hypothesis.  Where [Infinity], [NaN] or the rounding of a quotient
      decides what a function returns, the function is embedded over
      doubles as well (module [Double]).
    - A [Date] is [option Z]: [Some t] is the time value [t] in
      milliseconds, [None] is the Invalid Date.
    - An [async] method is a computation in a state-and-exception monad
      over the service object and the world (clock reads, random draws and
      the trace of network events).  A [throw] keeps the state reached.
    - [Promise.all] sees its promises settle in the order the network
      chooses ([settlesFirst]) and rejects at the first rejection: the call
      then goes on with the other request still in flight, and the trace
      of the call ends there.  A call is also given in two parts, up to
      the [await] and from it, so that a timer tick can fire in between
      ([Poller]).
    - What the platform provides (clock, [Math.random], calendar
      formatting, collation, the network, the reset-time service) is a
      field of the record [Env]. *)

From Stdlib Require Import QArith Qround Qabs Qminmax Qpower ZArith Lia Lqa
  Ascii OrderedTypeEx Sorting.Sorted.
From Stdlib Require SpecFloat.
From stdpp Require Import base strings list gmap pretty.

Set Default Proof Using "Type".
Local Open Scope Z_scope.

(** ** JavaScript numbers, strings and dates *)

Module JS.

Definition number := Q.
Bind Scope Q_scope with number.

(** [a < b], [a <= b], [a > b], [a >= b] on numbers. *)
Definition lt (a b : number) : bool := negb (Qle_bool b a).
Definition le (a b : number) : bool := Qle_bool a b.
Definition gt (a b : number) : bool := lt b a.
Definition ge (a b : number) : bool := le b a.

(** Truthiness of a number: every number but zero. *)
Definition truthy (a : number) : bool := negb (Qeq_bool a 0%Q).

(** [a || b] on numbers. *)
Definition or_else (a b : number) : number := if truthy a then a else b.

Definition Math_floor (a : number) : number := inject_Z (Qfloor a).
Definition Math_round (a : number) : number := inject_Z (Qfloor (a + (1 # 2))%Q).
Definition Math_max (a b : number) : number := Qmax a b.
Definition Math_min (a b : number) : number := Qmin a b.
Definition Math_abs (a : number) : number := Qabs a.

(** Rounding toward zero, as [ToIntegerOrInfinity] does. *)
Definition truncate (a : number) : Z :=
  if Qle_bool 0%Q a then Qfloor a else Qceiling a.

(** [a % b]: the remainder has the sign of the dividend. *)
Definition rem (a b : number) : number :=
  (a - b * inject_Z (truncate (a / b)))%Q.

(** [s.split(sep)[0]]: the text before the first separator. *)
Fixpoint split0 (sep : Ascii.ascii) (s : string) : string :=
  match s with
  | EmptyString => EmptyString
  | String c rest =>
      if Ascii.eqb c sep then EmptyString else String c (split0 sep rest)
  end.

(** Truthiness of a string: every string but the empty one. *)
Definition nonempty (s : string) : bool :=
  match s with EmptyString => false | String _ _ => true end.

(** [n.toString().padStart(2, '0')] for an integer [n]. *)
Definition padStart2 (n : Z) : string :=
  let s := pretty n in
  match s with
  | EmptyString => "00"
  | String _ EmptyString => "0" +:+ s
  | _ => s
  end.

(** Dates.  The time value of a valid date lies within 8.64e15 ms of the
    epoch ([TimeClip]); anything else is the Invalid Date. *)
Definition Date := option Z.

Definition TIME_MAX : Z := 8640000000000000.

Definition Date_ofNumber (a : number) : Date :=
  if Qle_bool (Qabs a) (inject_Z TIME_MAX) then Some (truncate a) else None.

Definition Date_ofTime (t : Z) : Date := Date_ofNumber (inject_Z t).

(** [d1 >= d2] on dates compares the time values; a comparison with the
    Invalid Date is false. *)
Definition Date_ge (d1 d2 : Date) : bool :=
  match d1, d2 with
  | Some a, Some b => b <=? a
  | _, _ => false
  end.

(** Calendar fields of a date in the local time zone. *)
Record LocalFields := {
  getFullYear : Z;
  getMonth : Z;
  getDate : Z;
  getHours : Z;
  getMinutes : Z;
  getSeconds : Z
}.

End JS.

(** ** The data model ([src/types/usage.ts]) *)

Module DailyUsage.
Record t := mk {
  date : string;
  totalTokens : JS.number;
  totalCost : JS.number;
  models : list (string * (JS.number * JS.number))
}.
End DailyUsage.

Module ResetTimeInfo.
Record t := mk {
  nextResetTime : string;
  timeUntilReset : JS.number;
  resetHour : JS.number;
  timezone : string;
  percentUntilReset : JS.number;
  daysInCycle : JS.number;
  daysSinceReset : JS.number
}.
End ResetTimeInfo.

Inductive Trend := increasing | decreasing | stable.

Module VelocityInfo.
Record t := mk {
  current : JS.number;
  average24h : JS.number;
  average7d : JS.number;
  trend : Trend;
  trendPercent : JS.number;
  peakHour : JS.number;
  isAccelerating : bool
}.
End VelocityInfo.

Module PredictionInfo.
Record t := mk {
  depletionTime : option string;
  confidence : JS.number;
  daysRemaining : JS.number;
  recommendedDailyLimit : JS.number;
  onTrackForReset : bool
}.
End PredictionInfo.

Module ActualResetInfo.
(** [timeUntilReset] is [None] when it is [NaN], which happens exactly
    when [nextResetTime] is the Invalid Date. *)
Record t := mk {
  nextResetTime : JS.Date;
  timeUntilReset : option JS.number;
  formattedTimeRemaining : string
}.
End ActualResetInfo.

Inductive Plan := Pro | Max5 | Max20 | Custom.

Module UsageStats.
Record t := mk {
  today : DailyUsage.t;
  thisWeek : list DailyUsage.t;
  thisMonth : list DailyUsage.t;
  burnRate : JS.number;
  velocity : VelocityInfo.t;
  prediction : PredictionInfo.t;
  resetInfo : ResetTimeInfo.t;
  actualResetInfo : option ActualResetInfo.t;
  predictedDepleted : option string;
  currentPlan : Plan;
  tokenLimit : JS.number;
  tokensUsed : JS.number;
  tokensRemaining : JS.number;
  percentageUsed : JS.number
}.
End UsageStats.

Inductive UsageStatus := safe | warning | critical.

Module MenuBarData.
Record t := mk {
  tokensUsed : JS.number;
  tokenLimit : JS.number;
  percentageUsed : JS.number;
  status : UsageStatus;
  cost : JS.number;
  timeUntilReset : option string
}.
End MenuBarData.

Module ZaiQuotaLimit.
Record t := mk {
  type : string;
  unit : JS.number;
  number : JS.number;
  usage : JS.number;
  currentValue : JS.number;
  remaining : JS.number;
  percentage : JS.number;
  nextResetTime : option JS.number
}.
End ZaiQuotaLimit.

(** The body of the quota endpoint as it arrives: [data] and [limits] may be
    missing, which [fetchQuotaLimit] checks. *)
Module ZaiQuotaResponse.
Record t := mk {
  code : JS.number;
  msg : string;
  data : option (option (list ZaiQuotaLimit.t));
  success : bool
}.
(** [data.data?.limits] *)
Definition limits (r : t) : option (list ZaiQuotaLimit.t) :=
  match data r with Some l => l | None => None end.
End ZaiQuotaResponse.

Module ZaiModelUsageData.
(** [totalUsage] and [x_time] may be missing: the code reads them with
    [?.] and [|| []]. *)
Record t := mk {
  totalUsage : option (JS.number * JS.number);
  x_time : option (list string)
}.
(** [data.totalUsage?.totalTokensUsage || 0] *)
Definition totalTokensUsage_or_0 (d : t) : JS.number :=
  match totalUsage d with
  | Some (_, tokens) => JS.or_else tokens 0%Q
  | None => 0%Q
  end.
(** [data.x_time || []] *)
Definition x_time_or_empty (d : t) : list string :=
  match x_time d with Some l => l | None => [] end.
End ZaiModelUsageData.

Module ZaiModelUsageResponse.
Record t := mk {
  code : JS.number;
  data : ZaiModelUsageData.t;
  success : bool
}.
End ZaiModelUsageResponse.

(** The body of the model-usage endpoint as it arrives: [data] may be
    missing, which [fetchModelUsage] checks before it returns the body as a
    [ZaiModelUsageResponse]. *)
Module ZaiModelUsageBody.
Record t := mk {
  code : JS.number;
  data : option ZaiModelUsageData.t;
  success : bool
}.
End ZaiModelUsageBody.

(** ** The platform: errors, requests, responses and the environment *)

Inductive Error :=
| AuthenticationFailed            (* 'Authentication failed - check API key' *)
| RateLimitExceeded               (* 'Rate limit exceeded' *)
| RequestFailed (status : Z)      (* 'API request failed with status ...' *)
| InvalidQuotaResponse            (* 'Invalid response from quota endpoint' *)
| TokensLimitNotFound             (* 'TOKENS_LIMIT not found in quota response' *)
| InvalidModelUsageResponse       (* 'Invalid response from model usage endpoint' *)
| FetchRejected (reason : string) (* [fetch] itself rejects: no response *)
| BodyNotJSON                     (* [response.json()] rejects *)
| InvalidTimeValue.               (* RangeError of [toISOString] *)

Inductive Endpoint := QuotaLimit | ModelUsage.

Record Request := {
  endpoint : Endpoint;
  authorization : string;
  searchParams : list (string * string)
}.

(** What a [fetch] settles to: a rejection, or a response with its status
    and its body ([None] when the body is not JSON). *)
Inductive FetchOutcome (B : Type) :=
| Rejected (reason : string)
| Responded (status : Z) (body : option B).
Arguments Rejected {B} reason.
Arguments Responded {B} status body.

(** [response.ok]: the status is in the range 200-299 (Fetch standard). *)
Definition ok (status : Z) : bool := (200 <=? status) && (status <=? 299).

(** A network event of the trace: a request is sent, or the promise of a
    request settles. *)
Inductive Event :=
| Send (r : Request)
| Settle (e : Endpoint).

Record Env := {
  (** the successive readings of the system clock, in milliseconds *)
  clock : nat -> Z;
  (** the successive results of [Math.random()] *)
  random : nat -> JS.number;
  (** [Date.prototype.toISOString] on a valid time value *)
  toISOString : Z -> string;
  (** the calendar fields of a time value in the local time zone *)
  localFields : Z -> JS.LocalFields;
  (** [new Date(s)] for a string [s] *)
  Date_parse : string -> JS.Date;
  (** [d.setDate(d.getDate() - n)]: the time value [n] calendar days before *)
  minusDays : Z -> Z -> Z;
  (** [a.localeCompare(b)] *)
  localeCompare : string -> string -> Z;
  (** [ResetTimeService.calculateResetInfo()] at a reading of the clock *)
  calculateResetInfo : Z -> ResetTimeInfo.t;
  (** what the two endpoints answer to the request sent as the [n]-th event *)
  quotaEndpoint : nat -> Request -> FetchOutcome ZaiQuotaResponse.t;
  modelUsageEndpoint : nat -> Request -> FetchOutcome ZaiModelUsageBody.t;
  (** of two requests in flight after [n] events, the one whose promise
      settles first: the order is the network's *)
  settlesFirst : nat -> Endpoint
}.

(** ** The service object and the machine state *)

Record ZAIService := mkZAIService {
  apiKey : string;
  cachedStats : option UsageStats.t;
  lastUpdate : Z;
  lastQuotaData : option ZaiQuotaLimit.t;
  lastModelUsageData : option ZaiModelUsageResponse.t
}.

Definition CACHE_DURATION : Z := 30000.

(** [new ZAIService()] with the value of [ANTHROPIC_AUTH_TOKEN] (the empty
    string when the variable is not set). *)
Definition constructor (token : string) : ZAIService :=
  mkZAIService token None 0 None None.

Record Machine := mkMachine {
  this : ZAIService;
  reads : nat;            (* readings of the clock taken so far *)
  draws : nat;            (* random numbers drawn so far *)
  trace : list Event      (* network events so far, oldest first *)
}.

(** ** The monad of methods: state and exceptions *)

Definition M (A : Type) : Type := Machine -> (Error + A) * Machine.

Definition ret {A} (a : A) : M A := fun m => (inr a, m).

Definition throw {A} (e : Error) : M A := fun m => (inl e, m).

Definition bind {A B} (c : M A) (k : A -> M B) : M B :=
  fun m =>
    match c m with
    | (inr a, m') => k a m'
    | (inl e, m') => (inl e, m')
    end.

(** [try { c } catch (error) { h error }] *)
Definition try_catch {A} (c : M A) (h : Error -> M A) : M A :=
  fun m =>
    match c m with
    | (inr a, m') => (inr a, m')
    | (inl e, m') => h e m'
    end.

Definition lift {A} (r : Error + A) : M A := fun m => (r, m).

Declare Scope js_scope.
Delimit Scope js_scope with js.
Notation "x <- c ;; k" := (bind c (fun x => k))
  (at level 100, c at next level, right associativity) : js_scope.
Notation "c ;;; k" := (bind c (fun _ => k))
  (at level 100, right associativity) : js_scope.
Local Open Scope js_scope.

Definition getThis : M ZAIService := fun m => (inr (this m), m).

Definition setThis (f : ZAIService -> ZAIService) : M unit :=
  fun m => (inr tt, mkMachine (f (this m)) (reads m) (draws m) (trace m)).

Definition set_cachedStats (c : option UsageStats.t) (s : ZAIService) :=
  mkZAIService (apiKey s) c (lastUpdate s) (lastQuotaData s)
    (lastModelUsageData s).

Definition set_lastUpdate (t : Z) (s : ZAIService) :=
  mkZAIService (apiKey s) (cachedStats s) t (lastQuotaData s)
    (lastModelUsageData s).

Definition set_lastQuotaData (q : option ZaiQuotaLimit.t) (s : ZAIService) :=
  mkZAIService (apiKey s) (cachedStats s) (lastUpdate s) q
    (lastModelUsageData s).

Definition set_lastModelUsageData (u : option ZaiModelUsageResponse.t)
    (s : ZAIService) :=
  mkZAIService (apiKey s) (cachedStats s) (lastUpdate s) (lastQuotaData s) u.

(** A computation that leaves the service object and the network alone. *)
Definition quiet {A} (c : M A) : Prop :=
  forall m, this (snd (c m)) = this m /\ trace (snd (c m)) = trace m.

(** A computation that returns, with a value that satisfies [P]. *)
Definition succeeds {A} (P : A -> Prop) (c : M A) : Prop :=
  forall m, exists a m', c m = (inr a, m') /\ P a.

(** The two identities of the data model, on stats and on a quota record. *)
Definition identitiesHold (s : UsageStats.t) : Prop :=
  (UsageStats.percentageUsed s ==
   UsageStats.tokensUsed s / UsageStats.tokenLimit s * 100)%Q /\
  (UsageStats.tokensRemaining s ==
   UsageStats.tokenLimit s - UsageStats.tokensUsed s)%Q.

Definition quotaIdentitiesHold (q : ZaiQuotaLimit.t) : Prop :=
  (ZaiQuotaLimit.percentage q ==
   ZaiQuotaLimit.currentValue q / ZaiQuotaLimit.usage q * 100)%Q /\
  (ZaiQuotaLimit.remaining q ==
   ZaiQuotaLimit.usage q - ZaiQuotaLimit.currentValue q)%Q.

(** The mock stats: the four fields are constants of the code. *)
Definition isMock (s : UsageStats.t) : Prop :=
  UsageStats.tokensUsed s = 25000%Q /\
  UsageStats.tokenLimit s = 40000000%Q /\
  UsageStats.tokensRemaining s = (40000000 - 25000)%Q /\
  UsageStats.percentageUsed s = (25000 / 40000000 * 100)%Q.

(** The four fields of stats mapped from a quota record are copies. *)
Definition copiedFrom (q : ZaiQuotaLimit.t) (s : UsageStats.t) : Prop :=
  UsageStats.tokensUsed s = ZaiQuotaLimit.currentValue q /\
  UsageStats.tokenLimit s = ZaiQuotaLimit.usage q /\
  UsageStats.tokensRemaining s = ZaiQuotaLimit.remaining q /\
  UsageStats.percentageUsed s = ZaiQuotaLimit.percentage q.

(** The number of requests in flight after each event of a trace, when
    [n] are in flight before it: a call can start with requests of an
    earlier call still in flight.  [inFlight] is for a trace that starts
    with none. *)
Fixpoint inFlight_from (n : Z) (tr : list Event) : list Z :=
  match tr with
  | [] => []
  | Send _ :: tr' => (n + 1) :: inFlight_from (n + 1) tr'
  | Settle _ :: tr' => (n - 1) :: inFlight_from (n - 1) tr'
  end.

Definition inFlight (tr : list Event) : list Z := inFlight_from 0 tr.

Definition isSendTo (e : Endpoint) (ev : Event) : bool :=
  match ev with
  | Send r =>
      match endpoint r, e with
      | QuotaLimit, QuotaLimit | ModelUsage, ModelUsage => true
      | _, _ => false
      end
  | Settle _ => false
  end.

(** The requests sent to an endpoint in a trace. *)
Definition requestsTo (e : Endpoint) (tr : list Event) : nat :=
  length (filter (fun ev => isSendTo e ev = true) tr).

(** A promise in flight: the endpoint it waits for and what it settles to. *)
Record Pending (A : Type) := mkPending {
  waitsFor : Endpoint;
  settlesTo : Error + A
}.
Arguments mkPending {A} waitsFor settlesTo.
Arguments waitsFor {A} p.
Arguments settlesTo {A} p.

Definition Endpoint_eqb (a b : Endpoint) : bool :=
  match a, b with
  | QuotaLimit, QuotaLimit | ModelUsage, ModelUsage => true
  | _, _ => false
  end.

(** What [Promise.all] of two promises settles to, the second settling first
    or not: the pair of values, or the rejection that comes first. *)
Definition settleBoth {A B} (secondFirst : bool) (r1 : Error + A)
    (r2 : Error + B) : Error + A * B :=
  if secondFirst then
    match r2 with
    | inl e => inl e
    | inr b => match r1 with inl e => inl e | inr a => inr (a, b) end
    end
  else
    match r1 with
    | inl e => inl e
    | inr a => match r2 with inl e => inl e | inr b => inr (a, b) end
    end.

Section Service.

Variable env : Env.

(** [Date.now()], and the time value of [new Date()]. *)
Definition Date_now : M Z :=
  fun m =>
    (inr (clock env (reads m)),
     mkMachine (this m) (S (reads m)) (draws m) (trace m)).

Definition Math_random : M JS.number :=
  fun m =>
    (inr (random env (draws m)),
     mkMachine (this m) (reads m) (S (draws m)) (trace m)).

(** [d.toISOString()]: a RangeError on the Invalid Date. *)
Definition Date_toISOString (d : JS.Date) : M string :=
  match d with
  | Some t => ret (toISOString env t)
  | None => throw InvalidTimeValue
  end.

(** [new Date().toISOString().split('T')[0]] *)
Definition todayString : M string :=
  t <- Date_now ;;
  ret (JS.split0 "T"%char (toISOString env t)).

Definition logEvent (ev : Event) : M unit :=
  fun m => (inr tt, mkMachine (this m) (reads m) (draws m) (trace m ++ [ev])).

(** [await Promise.all([p1, p2])]: both promises are already in flight and
    settle in the order of the network.  When both fulfil, the result is
    the pair of values.  The first rejection rejects the whole at once: the
    caller goes on while the other promise, if it has not settled yet, is
    still in flight (nobody waits for it any more). *)
Definition Promise_all2 {A B} (p1 : Pending A) (p2 : Pending B) : M (A * B) :=
  fun m =>
    if Endpoint_eqb (settlesFirst env (length (trace m))) (waitsFor p2) then
      (logEvent (Settle (waitsFor p2)) ;;;
       b <- lift (settlesTo p2) ;;
       logEvent (Settle (waitsFor p1)) ;;;
       a <- lift (settlesTo p1) ;;
       ret (a, b)) m
    else
      (logEvent (Settle (waitsFor p1)) ;;;
       a <- lift (settlesTo p1) ;;
       logEvent (Settle (waitsFor p2)) ;;;
       b <- lift (settlesTo p2) ;;
       ret (a, b)) m.


(** *** Fetching *)

(** [fetch(url, ...)] on the quota endpoint: the request goes out and its
    outcome is the one the environment gives to this request. *)
Definition fetch_quota (r : Request) : M (FetchOutcome ZaiQuotaResponse.t) :=
  fun m =>
    (inr (quotaEndpoint env (length (trace m)) r),
     mkMachine (this m) (reads m) (draws m) (trace m ++ [Send r])).

Definition fetch_modelUsage (r : Request)
    : M (FetchOutcome ZaiModelUsageBody.t) :=
  fun m =>
    (inr (modelUsageEndpoint env (length (trace m)) r),
     mkMachine (this m) (reads m) (draws m) (trace m ++ [Send r])).

Definition isTokensLimit (limit : ZaiQuotaLimit.t) : bool :=
  String.eqb (ZaiQuotaLimit.type limit) "TOKENS_LIMIT".

(** The part of [fetchQuotaLimit] that runs once the [fetch] has settled. *)
Definition fetchQuotaLimit_response (o : FetchOutcome ZaiQuotaResponse.t)
    : Error + ZaiQuotaLimit.t :=
  match o with
  | Rejected reason => inl (FetchRejected reason)
  | Responded status body =>
      if negb (ok status) then
        if (status =? 401) || (status =? 403) then inl AuthenticationFailed
        else if status =? 429 then inl RateLimitExceeded
        else inl (RequestFailed status)
      else
        match body with
        | None => inl BodyNotJSON
        | Some data =>
            if negb (ZaiQuotaResponse.success data) then inl InvalidQuotaResponse
            else
              match ZaiQuotaResponse.limits data with
              | None => inl InvalidQuotaResponse
              | Some limits =>
                  match List.find isTokensLimit limits with
                  | None => inl TokensLimitNotFound
                  | Some tokensLimit => inr tokensLimit
                  end
              end
        end
  end.

(** [this.fetchQuotaLimit()]: the call sends the request and returns the
    promise. *)
Definition quotaRequest (s : ZAIService) : Request :=
  {| endpoint := QuotaLimit;
     authorization := "Bearer " +:+ apiKey s;
     searchParams := [] |}.

Definition fetchQuotaLimit : M (Pending ZaiQuotaLimit.t) :=
  s <- getThis ;;
  o <- fetch_quota (quotaRequest s) ;;
  ret (mkPending QuotaLimit (fetchQuotaLimit_response o)).

Definition formatDateTime (d : JS.Date) : string :=
  match d with
  | None => "NaN-NaN-NaN NaN:NaN:NaN"
  | Some t =>
      let f := localFields env t in
      let year := pretty (JS.getFullYear f) in
      let month := JS.padStart2 (JS.getMonth f + 1) in
      let day := JS.padStart2 (JS.getDate f) in
      let hours := JS.padStart2 (JS.getHours f) in
      let minutes := JS.padStart2 (JS.getMinutes f) in
      let seconds := JS.padStart2 (JS.getSeconds f) in
      year +:+ "-" +:+ month +:+ "-" +:+ day +:+ " " +:+
      hours +:+ ":" +:+ minutes +:+ ":" +:+ seconds
  end.

(** [a || b] on an optional string argument. *)
Definition string_or (a : option string) (b : string) : string :=
  match a with
  | Some s => if JS.nonempty s then s else b
  | None => b
  end.

Definition fetchModelUsage_response (o : FetchOutcome ZaiModelUsageBody.t)
    : Error + ZaiModelUsageResponse.t :=
  match o with
  | Rejected reason => inl (FetchRejected reason)
  | Responded status body =>
      if negb (ok status) then
        if (status =? 401) || (status =? 403) then inl AuthenticationFailed
        else if status =? 429 then inl RateLimitExceeded
        else inl (RequestFailed status)
      else
        match body with
        | None => inl BodyNotJSON
        | Some data =>
            if negb (ZaiModelUsageBody.success data)
            then inl InvalidModelUsageResponse
            else
              match ZaiModelUsageBody.data data with
              | None => inl InvalidModelUsageResponse
              | Some d =>
                  inr (ZaiModelUsageResponse.mk (ZaiModelUsageBody.code data)
                         d (ZaiModelUsageBody.success data))
              end
        end
  end.

(** The request of [fetchModelUsage] when the clock reads [now]: by default
    the last seven days. *)
Definition modelUsageRequest (s : ZAIService) (now : Z)
    (startTime endTime : option string) : Request :=
  let defaultEndTime := formatDateTime (Some now) in
  let defaultStartTime :=
    formatDateTime (JS.Date_ofTime (now - 7 * 24 * 60 * 60 * 1000)) in
  {| endpoint := ModelUsage;
     authorization := "Bearer " +:+ apiKey s;
     searchParams :=
       [("startTime", string_or startTime defaultStartTime);
        ("endTime", string_or endTime defaultEndTime)] |}.

Definition fetchModelUsage (startTime endTime : option string)
    : M (Pending ZaiModelUsageResponse.t) :=
  now <- Date_now ;;
  s <- getThis ;;
  o <- fetch_modelUsage (modelUsageRequest s now startTime endTime) ;;
  ret (mkPending ModelUsage (fetchModelUsage_response o)).

(** *** Velocity *)

(** In exact arithmetic; [Double.calculateVelocityFromModelUsage] is the
    same function over doubles. *)
Definition calculateVelocityFromModelUsage (modelUsage : ZaiModelUsageResponse.t)
    : VelocityInfo.t :=
  let hourlyData :=
    ZaiModelUsageData.x_time_or_empty (ZaiModelUsageResponse.data modelUsage) in
  let len : JS.number := inject_Z (Z.of_nat (length hourlyData)) in
  let totalTokens :=
    ZaiModelUsageData.totalTokensUsage_or_0
      (ZaiModelUsageResponse.data modelUsage) in
  let hit := JS.gt len 0 && (JS.gt totalTokens 0 && JS.gt len 0) in
  let current : JS.number :=
    if hit then (totalTokens / JS.Math_max 1 (len / 24))%Q else 0%Q in
  let total24h : JS.number := if hit then current else 0%Q in
  let total7d : JS.number := if hit then (current * (8 # 10))%Q else 0%Q in
  let trendPercent : JS.number :=
    if JS.gt total24h 0 then ((current - total24h) / total24h * 100)%Q
    else 0%Q in
  let trend :=
    if JS.gt (JS.Math_abs trendPercent) 15
    then (if JS.gt trendPercent 0 then increasing else decreasing)
    else stable in
  VelocityInfo.mk
    (JS.Math_round current)
    (JS.Math_round total24h)
    (JS.Math_round total7d)
    trend
    (JS.Math_round (trendPercent * 10) / 10)%Q
    14%Q
    (match trend with increasing => JS.gt trendPercent 20 | _ => false end).

(** *** Daily usage *)

(** A [Map<string, DailyUsage>]: the entries in insertion order, with
    distinct keys. *)
Definition DailyMap := list (string * DailyUsage.t).

Definition Map_has (k : string) (dm : DailyMap) : bool :=
  existsb (fun e => String.eqb (fst e) k) dm.

Definition Map_get (k : string) (dm : DailyMap) : option DailyUsage.t :=
  option_map snd (List.find (fun e => String.eqb (fst e) k) dm).

Fixpoint Map_replace (k : string) (v : DailyUsage.t) (dm : DailyMap)
    : DailyMap :=
  match dm with
  | [] => []
  | e :: rest =>
      if String.eqb (fst e) k then (k, v) :: rest
      else e :: Map_replace k v rest
  end.

Definition Map_set (k : string) (v : DailyUsage.t) (dm : DailyMap) : DailyMap :=
  if Map_has k dm then Map_replace k v dm else dm ++ [(k, v)].

Definition Map_values (dm : DailyMap) : list DailyUsage.t := map snd dm.

Definition set_totalTokens (n : JS.number) (d : DailyUsage.t) : DailyUsage.t :=
  DailyUsage.mk (DailyUsage.date d) n (DailyUsage.totalCost d)
    (DailyUsage.models d).

(** [{ date: datePart, totalTokens: 0, totalCost: 0, models: {} }] *)
Definition newDay (datePart : string) : DailyUsage.t :=
  DailyUsage.mk datePart 0%Q 0%Q [].

(** One turn of the loop over [hourlyData]. *)
Definition addHour (dm : DailyMap) (hourStr : string) : DailyMap :=
  let datePart := JS.split0 " "%char hourStr in
  if negb (JS.nonempty datePart) then dm
  else
    let dm1 :=
      if negb (Map_has datePart dm)
      then Map_set datePart (newDay datePart) dm
      else dm in
    match Map_get datePart dm1 with
    | Some daily =>
        Map_replace datePart
          (set_totalTokens (DailyUsage.totalTokens daily + 0)%Q daily) dm1
    | None => dm1
    end.

(** Every entry of the map is the day it was created as. *)
Definition allNew (dm : DailyMap) : Prop :=
  forall e, In e dm -> snd e = newDay (fst e).

(** [array.sort(compare)]: the sort is stable; an insertion sort gives the
    order it specifies when [compare] is consistent. *)
Fixpoint sort_insert {A} (compare : A -> A -> Z) (x : A) (l : list A) : list A :=
  match l with
  | [] => [x]
  | y :: l' =>
      if compare x y <=? 0 then x :: y :: l'
      else y :: sort_insert compare x l'
  end.

Definition Array_sort {A} (compare : A -> A -> Z) (l : list A) : list A :=
  fold_right (sort_insert compare) [] l.

Definition compareByDate (a b : DailyUsage.t) : Z :=
  localeCompare env (DailyUsage.date a) (DailyUsage.date b).

(** [localeCompare] is a consistent comparator: any two strings are
    comparable, and the order is transitive. *)
Definition consistentCollation : Prop :=
  (forall a b, localeCompare env a b <= 0 \/ localeCompare env b a <= 0) /\
  (forall a b c,
     localeCompare env a b <= 0 -> localeCompare env b c <= 0 ->
     localeCompare env a c <= 0).

(** [a] is not after [b] in date order. *)
Definition notAfter (a b : DailyUsage.t) : Prop := compareByDate a b <= 0.

(** The floor is that of the exact quotient: the code's for a whole total
    up to 2^53 ([Double.tokensPerDay] is the code's for every total). *)
Definition mapHourlyToDailyUsage (modelUsage : ZaiModelUsageResponse.t)
    : list DailyUsage.t :=
  let hourlyData :=
    ZaiModelUsageData.x_time_or_empty (ZaiModelUsageResponse.data modelUsage) in
  let dailyMap := fold_left addHour hourlyData [] in
  let totalTokens :=
    ZaiModelUsageData.totalTokensUsage_or_0
      (ZaiModelUsageResponse.data modelUsage) in
  let size : JS.number := inject_Z (Z.of_nat (length dailyMap)) in
  let filled :=
    if JS.gt totalTokens 0 && JS.gt size 0 then
      let tokensPerDay := JS.Math_floor (totalTokens / size) in
      map (set_totalTokens tokensPerDay) (Map_values dailyMap)
    else Map_values dailyMap in
  Array_sort compareByDate filled.

(** *** Prediction, plan, status *)

(** In exact arithmetic: the orderings and the constants are the code's;
    a quotient can differ from the code's in its last place. *)
Definition calculatePredictionInfo (tokensUsed tokenLimit : JS.number)
    (velocity : VelocityInfo.t) (resetInfo : ResetTimeInfo.t)
    : M PredictionInfo.t :=
  let tokensRemaining := JS.Math_max 0 (tokenLimit - tokensUsed) in
  let confidence : JS.number :=
    if JS.gt (VelocityInfo.current velocity) 0
       && JS.gt (VelocityInfo.average24h velocity) 0
    then
      let c := JS.Math_min 95 (50 + 30) in
      if JS.gt (JS.Math_abs (VelocityInfo.trendPercent velocity)) 50
      then (c - 20)%Q else c
    else 50%Q in
  let hoursRemaining := (tokensRemaining / VelocityInfo.current velocity)%Q in
  depletion <-
    (if JS.gt (VelocityInfo.current velocity) 0 then
       now <- Date_now ;;
       iso <- Date_toISOString
                (JS.Date_ofNumber
                   (inject_Z now + hoursRemaining * 60 * 60 * 1000)) ;;
       ret (Some iso, (hoursRemaining / 24)%Q)
     else ret (None, 0%Q)) ;;
  let depletionTime : option string := fst depletion in
  let daysRemaining : JS.number := snd depletion in
  let hoursUntilReset :=
    (ResetTimeInfo.timeUntilReset resetInfo / (1000 * 60 * 60))%Q in
  let recommendedDailyLimit :=
    if JS.gt hoursUntilReset 24
    then JS.Math_floor (tokensRemaining / (hoursUntilReset / 24))
    else tokensRemaining in
  let onTrackForReset :=
    JS.gt tokensRemaining 0 && JS.ge daysRemaining (hoursUntilReset / 24) in
  ret (PredictionInfo.mk
         depletionTime
         (JS.Math_round confidence)
         (JS.Math_round (daysRemaining * 10) / 10)%Q
         recommendedDailyLimit
         onTrackForReset).

Definition detectPlanFromLimit (tokenLimit : JS.number) : Plan :=
  if JS.le tokenLimit 7000 then Pro
  else if JS.le tokenLimit 35000 then Max5
  else if JS.le tokenLimit 140000 then Max20
  else Custom.

Definition getUsageStatus (percentageUsed : JS.number) : UsageStatus :=
  if JS.ge percentageUsed 90 then critical
  else if JS.ge percentageUsed 70 then warning
  else safe.

Definition getEmptyDailyUsage : M DailyUsage.t :=
  d <- todayString ;;
  ret (DailyUsage.mk d 0%Q 0%Q []).

(** *** Mapping the two responses to [UsageStats] *)

(** The text of an integral number. *)
Definition integerToString (a : JS.number) : string := pretty (Qfloor a).

(** The [actualResetInfo] block of [mapZaiToUsageStats].  The product
    [seconds * 1000] is exact: the code's for a whole number of seconds. *)
Definition actualResetInfoOf (quota : ZaiQuotaLimit.t)
    : M (option ActualResetInfo.t) :=
  match ZaiQuotaLimit.nextResetTime quota with
  | None => ret None
  | Some seconds =>
      if negb (JS.truthy seconds) then ret None
      else
        let nextResetDate := JS.Date_ofNumber (seconds * 1000) in
        now <- Date_now ;;
        match nextResetDate with
        | None =>
            (* every comparison with NaN is false *)
            ret (Some (ActualResetInfo.mk None None "< 1m left"))
        | Some next =>
            let timeUntilReset := JS.Math_max 0 (inject_Z (next - now)) in
            let hours := JS.Math_floor (timeUntilReset / (1000 * 60 * 60)) in
            let minutes :=
              JS.Math_floor
                (JS.rem timeUntilReset (1000 * 60 * 60) / (1000 * 60)) in
            let formattedTimeRemaining :=
              if JS.le timeUntilReset 0 then "Reset available"
              else if JS.gt hours 0 then
                integerToString hours +:+ "h " +:+
                integerToString minutes +:+ "m left"
              else if JS.gt minutes 0 then
                integerToString minutes +:+ "m left"
              else "< 1m left" in
            ret (Some (ActualResetInfo.mk nextResetDate (Some timeUntilReset)
                         formattedTimeRemaining))
        end
  end.

(** [array.filter(p)] for a predicate that reads the clock. *)
Fixpoint filterM {A} (p : A -> M bool) (l : list A) : M (list A) :=
  match l with
  | [] => ret []
  | x :: l' =>
      keep <- p x ;;
      rest <- filterM p l' ;;
      ret (if keep then x :: rest else rest)
  end.

(** [d => new Date(d.date) >= (new Date() moved back by [days] days)] *)
Definition notOlderThan (days : Z) (d : DailyUsage.t) : M bool :=
  let date := Date_parse env (DailyUsage.date d) in
  now <- Date_now ;;
  ret (JS.Date_ge date (Some (minusDays env now days))).

Definition mapZaiToUsageStats (quota : ZaiQuotaLimit.t)
    (modelUsage : ZaiModelUsageResponse.t) : M UsageStats.t :=
  let tokensUsed := ZaiQuotaLimit.currentValue quota in
  let tokenLimit := ZaiQuotaLimit.usage quota in
  let tokensRemaining := ZaiQuotaLimit.remaining quota in
  let percentageUsed := ZaiQuotaLimit.percentage quota in
  let velocity := calculateVelocityFromModelUsage modelUsage in
  t0 <- Date_now ;;
  let resetInfo := calculateResetInfo env t0 in
  actualResetInfo <- actualResetInfoOf quota ;;
  prediction <- calculatePredictionInfo tokensUsed tokenLimit velocity resetInfo ;;
  let dailyUsage := mapHourlyToDailyUsage modelUsage in
  todayStr <- todayString ;;
  todayData <-
    match List.find (fun d => String.eqb (DailyUsage.date d) todayStr)
            dailyUsage with
    | Some d => ret d
    | None => getEmptyDailyUsage
    end ;;
  let currentPlan := detectPlanFromLimit tokenLimit in
  thisWeek <- filterM (notOlderThan 7) dailyUsage ;;
  thisMonth <- filterM (notOlderThan 30) dailyUsage ;;
  ret (UsageStats.mk
         todayData thisWeek thisMonth
         (VelocityInfo.current velocity)
         velocity prediction resetInfo actualResetInfo
         (PredictionInfo.depletionTime prediction)
         currentPlan tokenLimit tokensUsed tokensRemaining percentageUsed).

(** *** Mock data *)

(** The loop of [generateMockDailyData]: [i] runs from [k - 1] down to 0. *)
Fixpoint mockDays (now : Z) (k : nat) : M (list DailyUsage.t) :=
  match k with
  | O => ret []
  | S i =>
      dateIso <- Date_toISOString
                   (JS.Date_ofTime (now - Z.of_nat i * 24 * 60 * 60 * 1000)) ;;
      let dateStr := JS.split0 "T"%char dateIso in
      r <- Math_random ;;
      let tokens := (JS.Math_floor (r * 2000) + 500)%Q in
      rest <- mockDays now i ;;
      ret (DailyUsage.mk dateStr tokens 0%Q [] :: rest)
  end.

Definition generateMockDailyData (days : nat) : M (list DailyUsage.t) :=
  now <- Date_now ;;
  mockDays now days.

Definition getMockStats : M UsageStats.t :=
  today <- todayString ;;
  let tokensUsed : JS.number := 25000%Q in
  let tokenLimit : JS.number := 40000000%Q in
  let velocity := VelocityInfo.mk 120%Q 100%Q 90%Q increasing 20%Q 14%Q true in
  now <- Date_now ;;
  depletionTime <- Date_toISOString
                     (JS.Date_ofTime (now + 138 * 60 * 60 * 1000)) ;;
  let prediction :=
    PredictionInfo.mk (Some depletionTime) 85%Q (575 # 100)%Q 6500%Q true in
  t0 <- Date_now ;;
  let resetInfo := calculateResetInfo env t0 in
  thisWeek <- generateMockDailyData 7 ;;
  thisMonth <- generateMockDailyData 30 ;;
  ret (UsageStats.mk
         (DailyUsage.mk today 1200%Q 0%Q [])
         thisWeek thisMonth
         (VelocityInfo.current velocity)
         velocity prediction resetInfo None
         (PredictionInfo.depletionTime prediction)
         Custom
         tokenLimit tokensUsed
         (tokenLimit - tokensUsed)%Q
         (tokensUsed / tokenLimit * 100)%Q).

(** *** The entry points *)

(** [await Promise.all([this.fetchQuotaLimit(), this.fetchModelUsage()])]:
    both calls are made, so both requests are out, before anything is
    awaited. *)
Definition fetchBoth : M (ZaiQuotaLimit.t * ZaiModelUsageResponse.t) :=
  quotaPromise <- fetchQuotaLimit ;;
  modelUsagePromise <- fetchModelUsage None None ;;
  Promise_all2 quotaPromise modelUsagePromise.

(** The [try] block of [getUsageStats], entered at time [now]. *)
Definition refresh (now : Z) : M UsageStats.t :=
  s <- getThis ;;
  if negb (JS.nonempty (apiKey s)) then getMockStats
  else
    both <- fetchBoth ;;
    let quotaData := fst both in
    let modelUsageData := snd both in
    setThis (set_lastQuotaData (Some quotaData)) ;;;
    setThis (set_lastModelUsageData (Some modelUsageData)) ;;;
    stats <- mapZaiToUsageStats quotaData modelUsageData ;;
    setThis (set_cachedStats (Some stats)) ;;;
    setThis (set_lastUpdate now) ;;;
    ret stats.

(** The [catch] block of [getUsageStats]. *)
Definition fallback (error : Error) : M UsageStats.t :=
  s <- getThis ;;
  match cachedStats s with
  | Some cached => ret cached
  | None => getMockStats
  end.

Definition getUsageStats : M UsageStats.t :=
  now <- Date_now ;;
  s <- getThis ;;
  match cachedStats s with
  | Some cached =>
      if now - lastUpdate s <? CACHE_DURATION then ret cached
      else try_catch (refresh now) fallback
  | None => try_catch (refresh now) fallback
  end.

(** The test at the top of [getUsageStats]:
    [this.cachedStats && now - this.lastUpdate < this.CACHE_DURATION]. *)
Definition isFresh (s : ZAIService) (now : Z) : bool :=
  match cachedStats s with
  | Some _ => now - lastUpdate s <? CACHE_DURATION
  | None => false
  end.

(** The machine once the clock has been read one more time. *)
Definition tick (m : Machine) : Machine :=
  mkMachine (this m) (S (reads m)) (draws m) (trace m).

(** The machine once [lastQuotaData] and [lastModelUsageData] are stored. *)
Definition stored (q : ZaiQuotaLimit.t) (u : ZaiModelUsageResponse.t)
    (m : Machine) : Machine :=
  mkMachine
    (set_lastModelUsageData (Some u) (set_lastQuotaData (Some q) (this m)))
    (reads m) (draws m) (trace m).

(** The machine once the new stats are cached at time [now]. *)
Definition cached (stats : UsageStats.t) (now : Z) (m : Machine) : Machine :=
  mkMachine
    (set_lastUpdate now (set_cachedStats (Some stats) (this m)))
    (reads m) (draws m) (trace m).

(** How a run of [refresh] went. *)
Inductive Refreshed (now : Z) (m : Machine)
  : Error + UsageStats.t -> Machine -> Prop :=
| NoKey r m' :
    JS.nonempty (apiKey (this m)) = false ->
    getMockStats m = (r, m') ->
    Refreshed now m r m'
| FetchFailed e m' :
    JS.nonempty (apiKey (this m)) = true ->
    fetchBoth m = (inl e, m') ->
    Refreshed now m (inl e) m'
| MappingFailed q u m1 e m' :
    JS.nonempty (apiKey (this m)) = true ->
    fetchBoth m = (inr (q, u), m1) ->
    mapZaiToUsageStats q u (stored q u m1) = (inl e, m') ->
    Refreshed now m (inl e) m'
| Mapped q u m1 s m2 :
    JS.nonempty (apiKey (this m)) = true ->
    fetchBoth m = (inr (q, u), m1) ->
    mapZaiToUsageStats q u (stored q u m1) = (inr s, m2) ->
    Refreshed now m (inr s) (cached s now m2).

(** What the two requests settle to when [fetchBoth] starts in [m]. *)
Definition quotaAnswer (m : Machine) : Error + ZaiQuotaLimit.t :=
  fetchQuotaLimit_response
    (quotaEndpoint env (length (trace m)) (quotaRequest (this m))).

Definition modelUsageAnswer (m : Machine) : Error + ZaiModelUsageResponse.t :=
  fetchModelUsage_response
    (modelUsageEndpoint env
       (length (trace m ++ [Send (quotaRequest (this m))]))
       (modelUsageRequest (this m) (clock env (reads m)) None None)).

(** The fetch of either endpoint throws or rejects. *)
Definition fetchingFails (m : Machine) : Prop :=
  (exists e, quotaAnswer m = inl e) \/ (exists e, modelUsageAnswer m = inl e).

(** The two requests that [fetchBoth] started in [m] sends. *)
Definition bothSends (m : Machine) : list Event :=
  [Send (quotaRequest (this m));
   Send (modelUsageRequest (this m) (clock env (reads m)) None None)].

(** Of the two, the model-usage request is the one that settles first. *)
Definition usageSettlesFirst (m : Machine) : bool :=
  Endpoint_eqb (settlesFirst env (length (trace m) + 2)) ModelUsage.

(** The promises that settle before [Promise.all] does, in their order: the
    one that settles first, and the other one unless the first rejects. *)
Definition settled (m : Machine) : list Event :=
  if usageSettlesFirst m then
    Settle ModelUsage ::
    match modelUsageAnswer m with
    | inr _ => [Settle QuotaLimit]
    | inl _ => []
    end
  else
    Settle QuotaLimit ::
    match quotaAnswer m with
    | inr _ => [Settle ModelUsage]
    | inl _ => []
    end.

(** The network events of one [fetchBoth] started in [m]. *)
Definition twoRequests (m : Machine) : list Event :=
  bothSends m ++ settled m.

(** The clock stays where [getMockStats] can still format the depletion
    time, 138 hours ahead, as a date. *)
Definition saneClock : Prop :=
  forall n, 0 <= clock env n <= JS.TIME_MAX - 138 * 60 * 60 * 1000.

Definition getMenuBarData : M MenuBarData.t :=
  stats <- getUsageStats ;;
  ret (MenuBarData.mk
         (UsageStats.tokensUsed stats)
         (UsageStats.tokenLimit stats)
         (UsageStats.percentageUsed stats)
         (getUsageStatus (UsageStats.percentageUsed stats))
         0%Q
         (option_map ActualResetInfo.formattedTimeRemaining
            (UsageStats.actualResetInfo stats))).

Definition updateConfiguration : M unit :=
  setThis (set_cachedStats None).

(** *** A call in two parts: up to its [await], and from there *)

(** How far a call has got when it first yields: it is over, nothing having
    been awaited, or it waits for the two promises. *)
Inductive Started :=
| Over (r : Error + UsageStats.t)
| Awaiting (now : Z) (quotaPromise : Pending ZaiQuotaLimit.t)
    (modelUsagePromise : Pending ZaiModelUsageResponse.t).

(** The way a computation ends, as a value. *)
Definition ending {A} (c : M A) : M (Error + A) :=
  fun m => (inr (fst (c m)), snd (c m)).

(** [getUsageStats] up to [await Promise.all(...)]: the array of the two
    promises is built, so both requests are out, when the call yields. *)
Definition getUsageStats_start : M Started :=
  now <- Date_now ;;
  s <- getThis ;;
  let stale : M Started :=
    if negb (JS.nonempty (apiKey s)) then
      r <- ending (try_catch getMockStats fallback) ;;
      ret (Over r)
    else
      quotaPromise <- fetchQuotaLimit ;;
      modelUsagePromise <- fetchModelUsage None None ;;
      ret (Awaiting now quotaPromise modelUsagePromise) in
  match cachedStats s with
  | Some cached =>
      if now - lastUpdate s <? CACHE_DURATION then ret (Over (inr cached))
      else stale
  | None => stale
  end.

(** The [try] block of [getUsageStats] from the [await] on. *)
Definition refresh_resume (now : Z) (quotaPromise : Pending ZaiQuotaLimit.t)
    (modelUsagePromise : Pending ZaiModelUsageResponse.t) : M UsageStats.t :=
  both <- Promise_all2 quotaPromise modelUsagePromise ;;
  let quotaData := fst both in
  let modelUsageData := snd both in
  setThis (set_lastQuotaData (Some quotaData)) ;;;
  setThis (set_lastModelUsageData (Some modelUsageData)) ;;;
  stats <- mapZaiToUsageStats quotaData modelUsageData ;;
  setThis (set_cachedStats (Some stats)) ;;;
  setThis (set_lastUpdate now) ;;;
  ret stats.

(** [getUsageStats] from the [await] on. *)
Definition getUsageStats_resume (now : Z)
    (quotaPromise : Pending ZaiQuotaLimit.t)
    (modelUsagePromise : Pending ZaiModelUsageResponse.t) : M UsageStats.t :=
  try_catch (refresh_resume now quotaPromise modelUsagePromise) fallback.

(** The two parts run one after the other, nothing happening in between. *)
Definition getUsageStats_in_two_parts : M UsageStats.t :=
  started <- getUsageStats_start ;;
  match started with
  | Over r => lift r
  | Awaiting now quotaPromise modelUsagePromise =>
      getUsageStats_resume now quotaPromise modelUsagePromise
  end.

(** *** The poller: calls that overlap

    [setInterval] starts a call every 30 seconds, whether or not the call
    before has returned ([main.ts], [startUsagePolling]); the calls that
    have not returned wait at their [await]. *)

Record Poller := mkPoller {
  machine : Machine;
  (** the calls that wait at their [await], oldest first *)
  awaiting :
    list (Z * Pending ZaiQuotaLimit.t * Pending ZaiModelUsageResponse.t)
}.

Inductive PollerStep :=
| TickFires                 (* a new call starts and runs up to its [await] *)
| CallResumes (i : nat).    (* the [Promise.all] of the [i]-th waiting call
                               settles and the call runs to its end *)

Definition pollerStep (p : Poller) (st : PollerStep) : Poller :=
  match st with
  | TickFires =>
      match getUsageStats_start (machine p) with
      | (inr (Awaiting now quotaPromise modelUsagePromise), m') =>
          mkPoller m' (awaiting p ++ [(now, quotaPromise, modelUsagePromise)])
      | (_, m') => mkPoller m' (awaiting p)
      end
  | CallResumes i =>
      match awaiting p !! i with
      | Some (now, quotaPromise, modelUsagePromise) =>
          mkPoller
            (snd (getUsageStats_resume now quotaPromise modelUsagePromise
                    (machine p)))
            (delete i (awaiting p))
      | None => p
      end
  end.

Definition runPoller (steps : list PollerStep) (p : Poller) : Poller :=
  fold_left pollerStep steps p.

End Service.

(** The ticks of a schedule. *)
Fixpoint ticks (steps : list PollerStep) : nat :=
  match steps with
  | [] => 0
  | TickFires :: rest => S (ticks rest)
  | CallResumes _ :: rest => ticks rest
  end.

(** The requests sent in a trace. *)
Fixpoint sends (tr : list Event) : nat :=
  match tr with
  | [] => 0
  | Send _ :: rest => S (sends rest)
  | Settle _ :: rest => sends rest
  end.

(** ** Settings ([src/services/settingsService.ts]) *)

(** What [JSON.parse] returns. *)
#[warnings="-register-all"] Inductive json :=
| JNull
| JBool (b : bool)
| JNumber (a : JS.number)
| JString (s : string)
| JArray (items : list json)
| JObject (props : list (string * json)).

(** A JavaScript value held in a property: [None] is [undefined]. *)
Definition value := option json.

(** Truthiness of a value. *)
Definition truthy (v : value) : bool :=
  match v with
  | None | Some JNull => false
  | Some (JBool b) => b
  | Some (JNumber a) => JS.truthy a
  | Some (JString s) => JS.nonempty s
  | Some (JArray _) | Some (JObject _) => true
  end.

(** [a || b] on values. *)
Definition value_or (a b : value) : value := if truthy a then a else b.

(** [v === s] for a string literal [s]. *)
Definition isString (s : string) (v : value) : bool :=
  match v with
  | Some (JString s') => String.eqb s' s
  | _ => false
  end.

(** [a === b]: primitives by value, arrays and objects by identity (two
    values that come from different places are never the same object). *)
Definition strictEq (a b : value) : bool :=
  match a, b with
  | None, None | Some JNull, Some JNull => true
  | Some (JBool x), Some (JBool y) => Bool.eqb x y
  | Some (JNumber x), Some (JNumber y) => Qeq_bool x y
  | Some (JString x), Some (JString y) => String.eqb x y
  | _, _ => false
  end.

(** The own enumerable properties that [{...v}] copies: those of an object
    (a later duplicate key of the JSON text wins), the indices of an array
    or of a string, none for the other values. *)
Definition indexed (l : list json) : list (string * json) :=
  imap (fun i x => (pretty i, x)) l.

Fixpoint chars (s : string) : list json :=
  match s with
  | EmptyString => []
  | String c rest => JString (String c EmptyString) :: chars rest
  end.

Definition putProp (o : gmap string value) (p : string * json)
    : gmap string value :=
  <[ fst p := Some (snd p) ]> o.

Definition ownProps (v : json) : gmap string value :=
  match v with
  | JObject props => fold_left putProp props ∅
  | JArray items => fold_left putProp (indexed items) ∅
  | JString s => fold_left putProp (indexed (chars s)) ∅
  | JNull | JBool _ | JNumber _ => ∅
  end.

(** [{...a, ...b}]: the properties of [b] override those of [a]. *)
Definition spread2 (a b : gmap string value) : gmap string value := b ∪ a.

(** The settings file as [loadSettings] finds it. *)
Inductive SettingsFile :=
| Absent                      (* [fs.existsSync] is false *)
| Unreadable                  (* [fs.readFileSync] throws *)
| Contents (data : string).

Inductive SettingsError := ReadFailed | SyntaxError.

Section Settings.

(** [Intl.DateTimeFormat().resolvedOptions().timeZone] *)
Variable detectedTimezone : string.

(** [JSON.parse]: [None] when it throws. *)
Variable JSON_parse : string -> option json.

Definition defaultSettings : gmap string value :=
  <[ "timezone" := Some (JString detectedTimezone) ]>
  (<[ "resetHour" := Some (JNumber 0%Q) ]>
  (<[ "plan" := Some (JString "auto") ]>
  (<[ "customTokenLimit" := None ]>
  (<[ "menuBarDisplayMode" := Some (JString "alternate") ]>
  (<[ "menuBarCostSource" := Some (JString "today") ]>
  (<[ "dataSource" := Some (JString "ccusage") ]> ∅)))))).

(** The [try] block of [loadSettings]: an exception, a returned value, or
    nothing returned (the file does not exist). *)
Definition loadSettings_try (file : SettingsFile)
    : SettingsError + option (gmap string value) :=
  match file with
  | Absent => inr None
  | Unreadable => inl ReadFailed
  | Contents data =>
      match JSON_parse data with
      | None => inl SyntaxError
      | Some settings => inr (Some (spread2 defaultSettings (ownProps settings)))
      end
  end.

Definition loadSettings (file : SettingsFile)
    : SettingsError + gmap string value :=
  match loadSettings_try file with
  | inr (Some merged) => inr merged
  | inr None => inr defaultSettings
  | inl _ => inr defaultSettings      (* caught and logged *)
  end.

(** The fields that [AppSettings] requires ([customTokenLimit] is
    optional). *)
Definition requiredFields : list string :=
  ["timezone"; "resetHour"; "plan"; "menuBarDisplayMode";
   "menuBarCostSource"; "dataSource"].

(** [o.k]: [undefined] when the property is missing. *)
Definition getProp (o : gmap string value) (k : string) : value :=
  match o !! k with Some v => v | None => None end.

(** The settings file gives no [dataSource]: there is no file, or it cannot
    be read or parsed, or what it holds has no such property. *)
Definition providesNoDataSource (file : SettingsFile) : Prop :=
  match file with
  | Contents data =>
      match JSON_parse data with
      | Some parsed => ownProps parsed !! "dataSource" = None
      | None => True
      end
  | Absent | Unreadable => True
  end.

(** ** The application ([main.ts]): which service answers *)

Inductive ServiceId := zaiService | ccusageService.

Inductive Method :=
| call_getUsageStats
| call_getMenuBarData
| call_updateConfiguration.

Record CCSevaApp := mkApp {
  menuBarDisplayMode : value;
  menuBarCostSource : value;
  dataSource : value
}.

(** The fields as the class declares them. *)
Definition newApp : CCSevaApp :=
  mkApp (Some (JString "alternate")) (Some (JString "today"))
    (Some (JString "ccusage")).

Definition getActiveService (app : CCSevaApp) : ServiceId :=
  if isString "zai" (dataSource app) then zaiService else ccusageService.

(** A call made to a usage service, with the [dataSource] field at the time
    of the call. *)
Record ServiceCall := mkCall {
  fieldAtCall : value;
  callee : ServiceId;
  method : Method
}.

Definition updateTrayTitle (app : CCSevaApp) : list ServiceCall :=
  [mkCall (dataSource app) (getActiveService app) call_getMenuBarData].

(** The settings part of [initialize]. *)
Definition initialize (file : SettingsFile) (app : CCSevaApp) : CCSevaApp :=
  match loadSettings file with
  | inr settings =>
      mkApp
        (value_or (getProp settings "menuBarDisplayMode")
           (Some (JString "alternate")))
        (value_or (getProp settings "menuBarCostSource")
           (Some (JString "today")))
        (value_or (getProp settings "dataSource") (Some (JString "ccusage")))
  | inl _ => app
  end.

(** The requests: a tick of the poller (the first update runs the same
    code), and the IPC channels; [saved] tells whether [saveSettings] wrote
    the file or threw. *)
Inductive AppRequest :=
| PollTick
| Ipc_get_usage_stats
| Ipc_refresh_data
| Ipc_save_settings (settings : gmap string value) (saved : bool)
| Ipc_load_settings
| Ipc_take_screenshot
| Ipc_quit_app.

(** The plan settings go to both services, whichever is active. *)
Definition propagateConfiguration (app : CCSevaApp) : list ServiceCall :=
  [mkCall (dataSource app) ccusageService call_updateConfiguration;
   mkCall (dataSource app) zaiService call_updateConfiguration].

(** The [save-settings] handler once [saveSettings] has written the file. *)
Definition afterSave (settings : gmap string value) (app : CCSevaApp)
    : CCSevaApp * list ServiceCall :=
  let calls0 := propagateConfiguration app in
  let mode := getProp settings "menuBarDisplayMode" in
  let app1 :=
    if truthy mode && negb (strictEq mode (menuBarDisplayMode app))
    then mkApp mode (menuBarCostSource app) (dataSource app)
    else app in
  let source := getProp settings "menuBarCostSource" in
  let '(app2, calls2) :=
    if truthy source && negb (strictEq source (menuBarCostSource app1))
    then
      let a := mkApp (menuBarDisplayMode app1) source (dataSource app1) in
      (a, updateTrayTitle a)
    else (app1, []) in
  let ds := getProp settings "dataSource" in
  if truthy ds && negb (strictEq ds (dataSource app2))
  then
    let a := mkApp (menuBarDisplayMode app2) (menuBarCostSource app2) ds in
    (a, calls0 ++ calls2 ++ updateTrayTitle a)
  else (app2, calls0 ++ calls2).

Definition handle (req : AppRequest) (app : CCSevaApp)
    : CCSevaApp * list ServiceCall :=
  match req with
  | PollTick => (app, updateTrayTitle app)
  | Ipc_get_usage_stats =>
      (app, [mkCall (dataSource app) (getActiveService app) call_getUsageStats])
  | Ipc_refresh_data =>
      (app,
       mkCall (dataSource app) (getActiveService app) call_getUsageStats
       :: updateTrayTitle app)
  | Ipc_save_settings settings saved =>
      if saved then afterSave settings app else (app, [])
  | Ipc_load_settings | Ipc_take_screenshot | Ipc_quit_app => (app, [])
  end.

(** A call that asks a service for usage data. *)
Definition isDataCall (c : ServiceCall) : bool :=
  match method c with
  | call_getUsageStats | call_getMenuBarData => true
  | call_updateConfiguration => false
  end.

(** A call for data went to the z.ai service exactly when the field held
    ['zai']. *)
Definition followsField (c : ServiceCall) : Prop :=
  isDataCall c = true ->
  (callee c = zaiService <-> fieldAtCall c = Some (JString "zai")).

End Settings.

(** ** Concrete environments and inputs *)

Module Sample.

Definition resetInfo : ResetTimeInfo.t :=
  ResetTimeInfo.mk "2023-11-15T00:00:00.000Z" 6400000%Q 0%Q "UTC"
    50%Q 30%Q 15%Q.

Definition fields : JS.LocalFields :=
  {| JS.getFullYear := 2023; JS.getMonth := 10; JS.getDate := 14;
     JS.getHours := 22; JS.getMinutes := 13; JS.getSeconds := 20 |}.

(** Strings compared by their characters. *)
Definition byCharacters (a b : string) : Z :=
  match String_as_OT.cmp a b with
  | Lt => -1
  | Eq => 0
  | Gt => 1
  end.

Definition mkEnv (quota : FetchOutcome ZaiQuotaResponse.t)
    (usage : FetchOutcome ZaiModelUsageBody.t) : Env :=
  {| clock := fun n => 1700000000000 + Z.min (Z.of_nat n) 86400000;
     random := fun _ => (1 # 2)%Q;
     toISOString := fun _ => "2023-11-14T22:13:20.000Z";
     localFields := fun _ => fields;
     Date_parse := fun _ => Some 1699920000000;
     minusDays := fun t n => t - n * 86400000;
     localeCompare := byCharacters;
     calculateResetInfo := fun _ => resetInfo;
     quotaEndpoint := fun _ _ => quota;
     modelUsageEndpoint := fun _ _ => usage;
     settlesFirst := fun _ => QuotaLimit |}.

Definition timeLimit : ZaiQuotaLimit.t :=
  ZaiQuotaLimit.mk "TIME_LIMIT" 5%Q 1%Q 100%Q 10%Q 90%Q 10%Q None.

(** A record of the quota endpoint whose fields agree with each other. *)
Definition tokensLimit : ZaiQuotaLimit.t :=
  ZaiQuotaLimit.mk "TOKENS_LIMIT" 3%Q 5%Q 40000000%Q 10000000%Q 30000000%Q
    25%Q (Some 1700003600%Q).

(** A record whose [remaining] and [percentage] do not follow from [usage]
    and [currentValue]. *)
Definition oddLimit : ZaiQuotaLimit.t :=
  ZaiQuotaLimit.mk "TOKENS_LIMIT" 3%Q 5%Q 100%Q 10%Q 50%Q 7%Q None.

Definition quotaBody (limit : ZaiQuotaLimit.t) : ZaiQuotaResponse.t :=
  ZaiQuotaResponse.mk 200%Q "Operation successful"
    (Some (Some [timeLimit; limit])) true.

Definition hours : list string :=
  ["2023-11-14 09:00:00"; "2023-11-13 10:00:00"; "2023-11-14 10:00:00"].

Definition usageOf (tokens : JS.number) : ZaiModelUsageResponse.t :=
  ZaiModelUsageResponse.mk 200%Q
    (ZaiModelUsageData.mk (Some (12%Q, tokens)) (Some hours)) true.

Definition usageBody : ZaiModelUsageBody.t :=
  ZaiModelUsageBody.mk 200%Q
    (Some (ZaiModelUsageData.mk (Some (12%Q, 4801%Q)) (Some hours))) true.

(** Both endpoints answer. *)
Definition online : Env :=
  mkEnv (Responded 200 (Some (quotaBody tokensLimit)))
    (Responded 200 (Some usageBody)).

(** Both endpoints answer; the quota record is [oddLimit]. *)
Definition onlineOdd : Env :=
  mkEnv (Responded 200 (Some (quotaBody oddLimit)))
    (Responded 200 (Some usageBody)).

(** The quota endpoint refuses the key. *)
Definition refused : Env :=
  mkEnv (Responded 401 None) (Responded 200 (Some usageBody)).

(** A service with a key, just constructed. *)
Definition start : Machine := mkMachine (constructor "secret") 0 0 [].

End Sample.

(** ** Further definitions: repeated calls and edge inputs *)

(** The machine after [n] successive calls of [getUsageStats]. *)
Fixpoint afterCalls (env : Env) (n : nat) (m : Machine) : Machine :=
  match n with
  | O => m
  | S k => afterCalls env k (snd (getUsageStats env m))
  end.

Module Edge.

(** A quota so large that, at one token per hour, the depletion date is
    past the last date JavaScript can represent. *)
Definition hugeLimit : ZaiQuotaLimit.t :=
  ZaiQuotaLimit.mk "TOKENS_LIMIT" 3%Q 5%Q 10000000000%Q 0%Q 10000000000%Q
    0%Q None.

Definition oneHour : ZaiModelUsageData.t :=
  ZaiModelUsageData.mk (Some (1%Q, 1%Q)) (Some ["2023-11-14 09:00:00"]).

Definition oneToken : ZaiModelUsageResponse.t :=
  ZaiModelUsageResponse.mk 200%Q oneHour true.

Definition onlineHuge : Env :=
  Sample.mkEnv (Responded 200 (Some (Sample.quotaBody hugeLimit)))
    (Responded 200 (Some (ZaiModelUsageBody.mk 200%Q (Some oneHour) true))).

(** A service without a key, just constructed. *)
Definition keyless : Machine := mkMachine (constructor "") 0 0 [].

End Edge.

(** ** Further definitions: the parts of a prediction *)

(** The [tokensRemaining] of [calculatePredictionInfo]. *)
Definition tokensLeft (tokensUsed tokenLimit : JS.number) : JS.number :=
  JS.Math_max 0 (tokenLimit - tokensUsed).

(** The date on which the tokens run out, as [calculatePredictionInfo]
    builds it when the clock reads [now], in exact arithmetic (the sum the
    code takes in doubles can be a millisecond off). *)
Definition depletionDate (now : Z) (tokensUsed tokenLimit : JS.number)
    (velocity : VelocityInfo.t) : JS.Date :=
  JS.Date_ofNumber
    (inject_Z now +
     tokensLeft tokensUsed tokenLimit / VelocityInfo.current velocity
     * 60 * 60 * 1000).

(** The [confidence] of [calculatePredictionInfo], by cases. *)
Definition confidenceOf (velocity : VelocityInfo.t) : JS.number :=
  if JS.gt (VelocityInfo.current velocity) 0
     && JS.gt (VelocityInfo.average24h velocity) 0
  then
    if JS.gt (JS.Math_abs (VelocityInfo.trendPercent velocity)) 50
    then 60%Q else 80%Q
  else 50%Q.

(** ** Further definitions: the time that remains, in whole numbers *)

(** The text for [d] milliseconds until the reset, with the hours and
    minutes as integer quotients. *)
Definition remainingText (d : Z) : string :=
  let hours := d / 3600000 in
  let minutes := (d mod 3600000) / 60000 in
  if d <=? 0 then "Reset available"
  else if 0 <? hours then pretty hours +:+ "h " +:+ pretty minutes +:+ "m left"
  else if 0 <? minutes then pretty minutes +:+ "m left"
  else "< 1m left".

(** ** Further definitions: what the dashboard computes from the stats *)


(** [hasCostData] (Dashboard): some cost today or on a day of the week. *)
Definition hasCostData (stats : UsageStats.t) : bool :=
  JS.gt (DailyUsage.totalCost (UsageStats.today stats)) 0
  || existsb (fun day => JS.gt (DailyUsage.totalCost day) 0)
       (UsageStats.thisWeek stats).

(** Stats without any cost: today and every day listed cost 0. *)
Definition costFree (stats : UsageStats.t) : Prop :=
  DailyUsage.totalCost (UsageStats.today stats) = 0%Q /\
  Forall (fun day => DailyUsage.totalCost day = 0%Q)
    (UsageStats.thisWeek stats) /\
  Forall (fun day => DailyUsage.totalCost day = 0%Q)
    (UsageStats.thisMonth stats).

(** [Math.random()] yields a number in [0, 1). *)
Definition unitRandom (env : Env) : Prop :=
  forall n, (0 <= random env n)%Q /\ (random env n < 1)%Q.

(** The order of the usage statuses and of the plans by their thresholds. *)
Definition severity (s : UsageStatus) : nat :=
  match s with safe => 0 | warning => 1 | critical => 2 end.

Definition planRank (p : Plan) : nat :=
  match p with Pro => 0 | Max5 => 1 | Max20 => 2 | Custom => 3 end.

(** ** Further definitions: saving the settings ([saveSettings]) *)

Inductive SaveError :=
| LoadFailed (e : SettingsError)
| WriteFailed.

(** [fs.writeFileSync]: the text is written, or the call throws and leaves
    the file as [remains]. *)
Inductive WriteOutcome :=
| Written
| NotWritten (remains : SettingsFile).

(** What a JSON text of the object [o] holds: the properties of [o] but
    those that are [undefined], which [JSON.stringify] leaves out. *)
Definition stringified (o : gmap string value) : gmap string value :=
  filter (fun p => is_Some (snd p)) o.

Section Saving.

Variable detectedTimezone : string.
Variable JSON_parse : string -> option json.

(** [JSON.stringify(o, null, 2)] *)
Variable JSON_stringify : gmap string value -> string.

(** The error is logged and thrown again. *)
Definition saveSettings (settings : gmap string value) (file : SettingsFile)
    (write : WriteOutcome) : (SaveError + unit) * SettingsFile :=
  match loadSettings detectedTimezone JSON_parse file with
  | inl e => (inl (LoadFailed e), file)
  | inr currentSettings =>
      let updatedSettings := spread2 currentSettings settings in
      match write with
      | Written => (inr (), Contents (JSON_stringify updatedSettings))
      | NotWritten remains => (inl WriteFailed, remains)
      end
  end.

(** The text written for [o] is read back as [o] without its [undefined]
    properties. *)
Definition readsBack (o : gmap string value) : Prop :=
  exists parsed,
    JSON_parse (JSON_stringify o) = Some parsed /\
    ownProps parsed = stringified o.

(** What the settings file gives for the property [k]. *)
Definition fileProperty (file : SettingsFile) (k : string) : value :=
  match file with
  | Contents data =>
      match JSON_parse data with
      | Some parsed => getProp (ownProps parsed) k
      | None => None
      end
  | Absent | Unreadable => None
  end.

(** ** Further definitions: the timer that alternates the display
    ([main.ts]) *)

(** The display mode, the handle in [displayInterval] ([None] is [null]),
    the interval timers that run, and how many were created (the next
    handle). *)
Record Display := mkDisplay {
  displayMode : value;
  displayInterval : option nat;
  running : gset nat;
  created : nat
}.

(** [this.displayInterval = setInterval(..., 3000)] *)
Definition startDisplayToggle (d : Display) : Display :=
  mkDisplay (displayMode d) (Some (created d))
    ({[ created d ]} ∪ running d) (S (created d)).

Definition clearInterval (h : nat) (timers : gset nat) : gset nat :=
  timers ∖ {[ h ]}.

(** The mode and the timer once [initialize] is through. *)
Definition initializeDisplay (file : SettingsFile) : Display :=
  let d :=
    mkDisplay
      (menuBarDisplayMode (initialize detectedTimezone JSON_parse file newApp))
      None ∅ 0 in
  if isString "alternate" (displayMode d) then startDisplayToggle d else d.

(** The display-mode part of the [save-settings] handler. *)
Definition saveDisplayMode (settings : gmap string value) (d : Display)
    : Display :=
  let mode := getProp settings "menuBarDisplayMode" in
  if truthy mode && negb (strictEq mode (displayMode d)) then
    let d1 := mkDisplay mode (displayInterval d) (running d) (created d) in
    if isString "alternate" (displayMode d1) then
      match displayInterval d1 with
      | None => startDisplayToggle d1
      | Some _ => d1
      end
    else
      match displayInterval d1 with
      | Some h =>
          mkDisplay (displayMode d1) None (clearInterval h (running d1))
            (created d1)
      | None => d1
      end
  else d.

(** The [quit-app] handler clears the timer and keeps the handle. *)
Definition quitDisplay (d : Display) : Display :=
  match displayInterval d with
  | Some h =>
      mkDisplay (displayMode d) (displayInterval d)
        (clearInterval h (running d)) (created d)
  | None => d
  end.

Definition handleDisplay (req : AppRequest) (d : Display) : Display :=
  match req with
  | Ipc_save_settings settings saved =>
      if saved then saveDisplayMode settings d else d
  | Ipc_quit_app => quitDisplay d
  | PollTick | Ipc_get_usage_stats | Ipc_refresh_data | Ipc_load_settings
  | Ipc_take_screenshot => d
  end.

Definition runDisplay (reqs : list AppRequest) (d : Display) : Display :=
  fold_left (fun d req => handleDisplay req d) reqs d.

(** Every timer that runs is the one [displayInterval] holds. *)
Definition noStrayTimer (d : Display) : Prop :=
  forall h, h ∈ running d -> displayInterval d = Some h.

(** [displayInterval] holds a timer that runs, and holds one exactly in the
    'alternate' mode. *)
Definition timerMatchesMode (d : Display) : Prop :=
  (forall h, displayInterval d = Some h -> h ∈ running d) /\
  (is_Some (displayInterval d) <-> displayMode d = Some (JString "alternate")).

(** The application after the requests [reqs]. *)
Definition runApp (reqs : list AppRequest) (app : CCSevaApp) : CCSevaApp :=
  fold_left (fun app req => fst (handle req app)) reqs app.

End Saving.

(** ** Further definitions: the clock reads of a computation *)

(** The computation only moves the count of clock reads forward. *)
Definition advances {A} (c : M A) : Prop :=
  forall m, (reads m <= reads (snd (c m)))%nat.

(** The day [d] has a date that parses, and by the clock read number [n] it
    is not older than [days] days. *)
Definition recentAt (env : Env) (days : Z) (n : nat) (d : DailyUsage.t)
    : Prop :=
  exists t,
    Date_parse env (DailyUsage.date d) = Some t /\
    minusDays env (clock env n) days <= t.

(** ** Further definitions: the shape of a formatted time *)

(** The fields of a date of the years 1000 to 9999. *)
Definition calendarFields (f : JS.LocalFields) : Prop :=
  1000 <= JS.getFullYear f <= 9999 /\
  0 <= JS.getMonth f <= 11 /\
  1 <= JS.getDate f <= 31 /\
  0 <= JS.getHours f <= 23 /\
  0 <= JS.getMinutes f <= 59 /\
  0 <= JS.getSeconds f <= 59.

Definition isDigit (c : Ascii.ascii) : bool :=
  (48 <=? Ascii.nat_of_ascii c)%nat && (Ascii.nat_of_ascii c <=? 57)%nat.

Definition twoDigits (s : string) : bool :=
  match s with
  | String a (String b EmptyString) => isDigit a && isDigit b
  | _ => false
  end.

Definition fourDigits (s : string) : bool :=
  match s with
  | String a (String b (String c (String d EmptyString))) =>
      isDigit a && isDigit b && isDigit c && isDigit d
  | _ => false
  end.

(** The text has the form [YYYY-MM-DD HH:MM:SS]. *)
Definition timestampShape (s : string) : bool :=
  match s with
  | String y1 (String y2 (String y3 (String y4 (String "-"
      (String m1 (String m2 (String "-"
         (String d1 (String d2 (String " "
            (String h1 (String h2 (String ":"
               (String i1 (String i2 (String ":"
                  (String s1 (String s2 EmptyString)))))))))))))))))) =>
      forallb isDigit [y1; y2; y3; y4; m1; m2; d1; d2; h1; h2; i1; i2; s1; s2]
  | _ => false
  end.

(** ** Further definitions: whole numbers that a double holds exactly *)

(** A whole number between 0 and 2^53.  Sums and differences of such
    numbers, and the floor of the quotient of one by a positive whole
    number, are in doubles what they are in exact arithmetic. *)
Definition wholeNumber (a : JS.number) : Prop :=
  exists z, (a == inject_Z z)%Q /\ 0 <= z <= 2 ^ 53.

(** ** Further definitions: IEEE 754 doubles

    The numbers of the code are IEEE 754 doubles.  Where an infinity, NaN
    or the rounding of a quotient changes what a function returns, the
    function is embedded over doubles as well: binary64 as the Standard
    Library specifies it ([SpecFloat]: precision 53, round to nearest, ties
    to even). *)

Module Double.

Import SpecFloat.

Definition t := spec_float.

Definition prec : Z := 53.
Definition emax : Z := 1024.

Definition add : t -> t -> t := SFadd prec emax.
Definition sub : t -> t -> t := SFsub prec emax.
Definition mul : t -> t -> t := SFmul prec emax.
Definition div : t -> t -> t := SFdiv prec emax.

(** The double nearest to an integer. *)
Definition ofZ (z : Z) : t := binary_normalize prec emax z 0 false.

(** What the JSON number [1e999] parses to. *)
Definition Infinity : t := S754_infinity false.

Definition NaN : t := S754_nan.

(** [a < b] and [a > b]: false when either is NaN. *)
Definition lt (a b : t) : bool := SFltb a b.
Definition gt (a b : t) : bool := SFltb b a.

(** Truthiness: every number but the zeros and NaN. *)
Definition truthy (a : t) : bool :=
  match a with
  | S754_zero _ | S754_nan => false
  | S754_infinity _ | S754_finite _ _ _ => true
  end.

Definition or_else (a b : t) : t := if truthy a then a else b.

Definition Math_abs (a : t) : t := SFabs a.

(** [Math.max]: NaN when either is NaN; [+0] is larger than [-0]. *)
Definition Math_max (a b : t) : t :=
  match a, b with
  | S754_nan, _ | _, S754_nan => S754_nan
  | S754_zero sa, S754_zero sb => S754_zero (sa && sb)
  | _, _ => if SFltb a b then b else a
  end.

(** [Math.floor]: a double of exponent 0 or more is a whole number. *)
Definition Math_floor (a : t) : t :=
  match a with
  | S754_finite s m e =>
      if 0 <=? e then a
      else
        let d := 2 ^ (- e) in
        let q := Zpos m / d in
        let r := Zpos m mod d in
        if s
        then binary_normalize prec emax (- (if r =? 0 then q else q + 1)) 0 true
        else ofZ q
  | S754_zero _ | S754_infinity _ | S754_nan => a
  end.

(** [Math.round]: the nearest whole number, a tie going up; a negative
    number that rounds to zero gives [-0]. *)
Definition Math_round (a : t) : t :=
  match a with
  | S754_finite s m e =>
      if 0 <=? e then a
      else
        let d := 2 ^ (- e) in
        let q := Zpos m / d in
        let r := Zpos m mod d in
        if s
        then binary_normalize prec emax
               (- (if 2 * r <=? d then q else q + 1)) 0 true
        else ofZ (if d <=? 2 * r then q + 1 else q)
  | S754_zero _ | S754_infinity _ | S754_nan => a
  end.

Module VelocityInfo.
Record t := mk {
  current : spec_float;
  average24h : spec_float;
  average7d : spec_float;
  trend : Trend;
  trendPercent : spec_float;
  peakHour : spec_float;
  isAccelerating : bool
}.
End VelocityInfo.

(** The hourly rate of [calculateVelocityFromModelUsage] (its variable
    [current], before it is rounded), for a response with the given
    [x_time] and [totalUsage.totalTokensUsage] ([None]: missing). *)
Definition currentRate (x_time : option (list string))
    (totalTokensUsage : option t) : t :=
  let hourlyData := match x_time with Some l => l | None => [] end in
  let len := ofZ (Z.of_nat (length hourlyData)) in
  let totalTokens :=
    match totalTokensUsage with
    | Some a => or_else a (ofZ 0)
    | None => ofZ 0
    end in
  if gt len (ofZ 0) && (gt totalTokens (ofZ 0) && gt len (ofZ 0))
  then div totalTokens (Math_max (ofZ 1) (div len (ofZ 24)))
  else ofZ 0.

(** [calculateVelocityFromModelUsage] over doubles. *)
Definition calculateVelocityFromModelUsage (x_time : option (list string))
    (totalTokensUsage : option t) : VelocityInfo.t :=
  let current := currentRate x_time totalTokensUsage in
  let total24h := current in
  let total7d := mul current (div (ofZ 8) (ofZ 10)) in
  let trendPercent :=
    if gt total24h (ofZ 0)
    then mul (div (sub current total24h) total24h) (ofZ 100)
    else ofZ 0 in
  let trend :=
    if gt (Math_abs trendPercent) (ofZ 15)
    then (if gt trendPercent (ofZ 0) then increasing else decreasing)
    else stable in
  VelocityInfo.mk
    (Math_round current)
    (Math_round total24h)
    (Math_round total7d)
    trend
    (div (Math_round (mul trendPercent (ofZ 10))) (ofZ 10))
    (ofZ 14)
    (match trend with increasing => gt trendPercent (ofZ 20) | _ => false end).

(** [Math.floor(totalTokens / dailyMap.size)] of [mapHourlyToDailyUsage]. *)
Definition tokensPerDay (totalTokens : t) (size : nat) : t :=
  Math_floor (div totalTokens (ofZ (Z.of_nat size))).

(** [Math.max(0, tokenLimit - tokensUsed)] of [calculatePredictionInfo]. *)
Definition tokensLeft (tokensUsed tokenLimit : t) : t :=
  Math_max (ofZ 0) (sub tokenLimit tokensUsed).

(** The finite doubles, and the rational that a finite double is. *)
Definition finite (a : t) : bool :=
  match a with
  | S754_zero _ | S754_finite _ _ _ => true
  | S754_infinity _ | S754_nan => false
  end.

Definition toQ (a : t) : Q :=
  match a with
  | S754_finite s m e => (inject_Z (cond_Zopp s (Zpos m)) * 2 ^ e)%Q
  | S754_zero _ | S754_infinity _ | S754_nan => 0%Q
  end.

(** A double of sign [s]: a zero, a finite number or an infinity. *)
Definition hasSign (s : bool) (x : t) : Prop :=
  match x with
  | S754_zero s' | S754_infinity s' | S754_finite s' _ _ => s' = s
  | S754_nan => False
  end.

(** The mantissa of a finite double at the exponent [ez], with its sign. *)
Definition aligned (ez : Z) (s : bool) (m : positive) (e : Z) : Z :=
  cond_Zopp s (Zpos (fst (shl_align m e ez))).

End Double.

(** * Properties *)

(** ** Numbers *)

Section NumberFacts.

Local Open Scope Q_scope.

Lemma gt_of_zero (a b : JS.number) : a == 0 -> 0 <= b -> JS.gt a b = false.
Proof.
  intros Ha Hb. unfold JS.gt, JS.lt.
  assert (Qle_bool a b = true) as ->; [|reflexivity].
  apply Qle_bool_iff. rewrite Ha. exact Hb.
Qed.

Lemma abs_of_zero (a : JS.number) : a == 0 -> JS.Math_abs a == 0.
Proof. intros Ha. unfold JS.Math_abs. rewrite Ha. reflexivity. Qed.

Lemma round_tenth_of_zero (a : JS.number) :
  a == 0 -> JS.Math_round (a * 10) / 10 == 0.
Proof.
  intros Ha. unfold JS.Math_round.
  assert (Qfloor (a * 10 + (1 # 2)) = 0%Z) as ->.
  { rewrite (Qfloor_comp _ (1 # 2)); [reflexivity|]. rewrite Ha. ring. }
  reflexivity.
Qed.

(** The change of a rate against itself, in percent. *)
Lemma no_change (c : JS.number) : (c - c) / c * 100 == 0.
Proof.
  unfold Qminus, Qdiv. rewrite Qplus_opp_r. rewrite !Qmult_0_l. reflexivity.
Qed.

Lemma gt_true (a b : JS.number) : JS.gt a b = true <-> b < a.
Proof.
  unfold JS.gt, JS.lt. rewrite negb_true_iff.
  split.
  - intros H. apply Qnot_le_lt. intros Hle.
    apply Qle_bool_iff in Hle. congruence.
  - intros H. destruct (Qle_bool a b) eqn:E; [|reflexivity].
    apply Qle_bool_iff in E. exfalso. exact (Qlt_not_le _ _ H E).
Qed.

End NumberFacts.

(** ** Lists *)

Lemma find_first {A} (p : A -> bool) (l : list A) (x : A) :
  List.find p l = Some x <->
  exists before after,
    l = before ++ x :: after /\ p x = true /\
    Forall (fun y => p y = false) before.
Proof.
  induction l as [|y l IH]; simpl.
  - split; [discriminate|].
    intros (before & after & E & _). destruct before; discriminate.
  - destruct (p y) eqn:Hy.
    + split.
      * intros [= ->]. exists [], l. auto.
      * intros (before & after & E & Hx & Hb).
        destruct before as [|z before]; simpl in E.
        -- congruence.
        -- injection E as -> ->. inversion Hb; congruence.
    + rewrite IH. split.
      * intros (before & after & -> & Hx & Hb).
        exists (y :: before), after. auto.
      * intros (before & after & E & Hx & Hb).
        destruct before as [|z before]; simpl in E.
        -- injection E as -> ->. congruence.
        -- injection E as -> ->. inversion Hb; subst. eauto.
Qed.

(** ** The quota request *)

Lemma isTokensLimit_true (q : ZaiQuotaLimit.t) :
  isTokensLimit q = true <-> ZaiQuotaLimit.type q = "TOKENS_LIMIT".
Proof. unfold isTokensLimit. apply String.eqb_eq. Qed.

Lemma isTokensLimit_false (q : ZaiQuotaLimit.t) :
  isTokensLimit q = false <-> ZaiQuotaLimit.type q <> "TOKENS_LIMIT".
Proof. unfold isTokensLimit. apply String.eqb_neq. Qed.

(** C4. [fetchQuotaLimit] returns a quota record exactly when the response
    is ok, the body has [success] true and a [data.limits] array, and the
    array has an entry of type ['TOKENS_LIMIT']; the first such entry is what
    it returns.  Otherwise it throws; the error is the authentication error
    exactly when the status is 401 or 403 and the rate-limit error exactly
    when the status is 429.  The promise that the method returns settles to
    this result for the outcome of the one request it sends. *)
Theorem fetchQuotaLimit_returns_iff (env : Env) (m : Machine)
    (o : FetchOutcome ZaiQuotaResponse.t) :
  (forall q,
     fetchQuotaLimit_response o = inr q <->
     exists status data limits before after,
       o = Responded status (Some data) /\
       ok status = true /\
       ZaiQuotaResponse.success data = true /\
       ZaiQuotaResponse.data data = Some (Some limits) /\
       limits = before ++ q :: after /\
       ZaiQuotaLimit.type q = "TOKENS_LIMIT" /\
       Forall (fun x => ZaiQuotaLimit.type x <> "TOKENS_LIMIT") before) /\
  ((forall q, fetchQuotaLimit_response o <> inr q) <->
   exists e, fetchQuotaLimit_response o = inl e) /\
  (fetchQuotaLimit_response o = inl AuthenticationFailed <->
   exists body, o = Responded 401 body \/ o = Responded 403 body) /\
  (fetchQuotaLimit_response o = inl RateLimitExceeded <->
   exists body, o = Responded 429 body) /\
  (let request := quotaRequest (this m) in
   fetchQuotaLimit env m =
   (inr (mkPending QuotaLimit
           (fetchQuotaLimit_response
              (quotaEndpoint env (length (trace m)) request))),
    mkMachine (this m) (reads m) (draws m) (trace m ++ [Send request]))).
Proof.
  split; [|split; [|split; [|split]]].
  - intros q. unfold fetchQuotaLimit_response. split.
    + destruct o as [reason|status body]; [discriminate|].
      destruct (ok status) eqn:Hok; simpl.
      2:{ destruct ((status =? 401) || (status =? 403));
          [|destruct (status =? 429)]; discriminate. }
      destruct body as [data|]; [|discriminate].
      destruct (ZaiQuotaResponse.success data) eqn:Hs; [|discriminate]. simpl.
      unfold ZaiQuotaResponse.limits.
      destruct (ZaiQuotaResponse.data data) as [[limits|]|] eqn:Hd;
        try discriminate.
      destruct (List.find isTokensLimit limits) as [x|] eqn:Hf;
        [|discriminate].
      intros [= ->]. apply find_first in Hf as (before & after & E & Hq & Hb).
      exists status, data, limits, before, after.
      repeat split; auto.
      * apply isTokensLimit_true, Hq.
      * eapply List.Forall_impl; [|exact Hb]. intros x. apply isTokensLimit_false.
    + intros (status & data & limits & before & after
              & -> & Hok & Hs & Hd & E & Hq & Hb).
      rewrite Hok. simpl. rewrite Hs. simpl.
      unfold ZaiQuotaResponse.limits. rewrite Hd.
      assert (List.find isTokensLimit limits = Some q) as ->; [|reflexivity].
      apply find_first. exists before, after. repeat split; auto.
      * apply isTokensLimit_true, Hq.
      * eapply List.Forall_impl; [|exact Hb]. intros x. apply isTokensLimit_false.
  - destruct (fetchQuotaLimit_response o) as [e|q].
    + split; [eauto|]. intros _ q. discriminate.
    + split; [intros H; destruct (H q); reflexivity|].
      intros [e He]. discriminate.
  - unfold fetchQuotaLimit_response. split.
    + destruct o as [reason|status body]; [discriminate|].
      destruct (ok status) eqn:Hok; simpl.
      * destruct body as [data|]; [|discriminate].
        destruct (negb (ZaiQuotaResponse.success data)); [discriminate|].
        destruct (ZaiQuotaResponse.limits data) as [limits|]; [|discriminate].
        destruct (List.find isTokensLimit limits); discriminate.
      * destruct (status =? 401) eqn:H1; simpl.
        { intros _. apply Z.eqb_eq in H1 as ->. eauto. }
        destruct (status =? 403) eqn:H3; simpl.
        { intros _. apply Z.eqb_eq in H3 as ->. eauto. }
        destruct (status =? 429); discriminate.
    + intros [body [-> | ->]]; reflexivity.
  - unfold fetchQuotaLimit_response. split.
    + destruct o as [reason|status body]; [discriminate|].
      destruct (ok status) eqn:Hok; simpl.
      * destruct body as [data|]; [|discriminate].
        destruct (negb (ZaiQuotaResponse.success data)); [discriminate|].
        destruct (ZaiQuotaResponse.limits data) as [limits|]; [|discriminate].
        destruct (List.find isTokensLimit limits); discriminate.
      * destruct ((status =? 401) || (status =? 403)); [discriminate|].
        destruct (status =? 429) eqn:H9; [|discriminate].
        intros _. apply Z.eqb_eq in H9 as ->. eauto.
    + intros [body ->]. reflexivity.
  - reflexivity.
Qed.

(** ** Velocity *)

(** In exact arithmetic, on finite numbers: [average24h] is [current], the
    [trendPercent] is zero, the trend ['stable'] and [isAccelerating]
    false. *)
Lemma velocity_is_stable_in_exact_arithmetic
    (modelUsage : ZaiModelUsageResponse.t) :
  let v := calculateVelocityFromModelUsage modelUsage in
  VelocityInfo.average24h v = VelocityInfo.current v /\
  (VelocityInfo.trendPercent v == 0)%Q /\
  VelocityInfo.trend v = stable /\
  VelocityInfo.isAccelerating v = false.
Proof.
  assert (forall tp : JS.number, (tp == 0)%Q ->
            JS.gt (JS.Math_abs tp) 15 = false) as Habs.
  { intros tp Htp. apply gt_of_zero; [apply abs_of_zero, Htp|]. discriminate. }
  unfold calculateVelocityFromModelUsage. cbv zeta.
  set (len := inject_Z (Z.of_nat _)).
  set (total := ZaiModelUsageData.totalTokensUsage_or_0 _).
  destruct (JS.gt len 0 && (JS.gt total 0 && JS.gt len 0)).
  - set (c := (total / JS.Math_max 1 (len / 24))%Q).
    destruct (JS.gt c 0);
      cbn [VelocityInfo.average24h VelocityInfo.current VelocityInfo.trend
           VelocityInfo.trendPercent VelocityInfo.isAccelerating].
    + rewrite (Habs _ (no_change c)). repeat split.
      apply round_tenth_of_zero, no_change.
    + rewrite (Habs 0%Q (Qeq_refl 0)). repeat split.
  - destruct (JS.gt 0%Q 0%Q);
      cbn [VelocityInfo.average24h VelocityInfo.current VelocityInfo.trend
           VelocityInfo.trendPercent VelocityInfo.isAccelerating].
    + rewrite (Habs _ (no_change 0%Q)). repeat split.
    + rewrite (Habs 0%Q (Qeq_refl 0)). repeat split.
Qed.

(** C8, as stated, fails for a response whose [totalTokensUsage] is the
    JSON number [1e999]: it parses to [Infinity], the rate is [Infinity],
    and [(Infinity - Infinity) / Infinity * 100] is NaN, not 0. *)
Lemma velocity_of_an_infinite_total :
  Double.VelocityInfo.trendPercent
    (Double.calculateVelocityFromModelUsage
       (Some ["2023-11-14 09:00:00"]) (Some Double.Infinity))
  = Double.NaN /\
  Double.VelocityInfo.trendPercent
    (Double.calculateVelocityFromModelUsage
       (Some ["2023-11-14 09:00:00"]) (Some Double.Infinity))
  <> Double.ofZ 0.
Proof. split; [reflexivity|discriminate]. Qed.

(** A finite double less itself is [+0]. *)
Lemma sub_finite_self (s : bool) (m : positive) (e : Z) :
  Double.sub (SpecFloat.S754_finite s m e) (SpecFloat.S754_finite s m e)
  = SpecFloat.S754_zero false.
Proof.
  unfold Double.sub, SpecFloat.SFsub. cbv zeta.
  rewrite Z.sub_diag. reflexivity.
Qed.

(** The percentage [(x - x) / x * 100] that the code computes when the
    rate [x] is positive, and 0 otherwise: NaN for [Infinity], else [+0]. *)
Lemma trend_percent_of_a_rate (x : Double.t) :
  (if Double.gt x (Double.ofZ 0)
   then Double.mul (Double.div (Double.sub x x) x) (Double.ofZ 100)
   else Double.ofZ 0)
  = match x with
    | SpecFloat.S754_infinity false => Double.NaN
    | _ => SpecFloat.S754_zero false
    end.
Proof.
  destruct x as [s|s| |s m e]; try destruct s; try reflexivity.
  change (Double.gt (SpecFloat.S754_finite false m e) (Double.ofZ 0))
    with true.
  cbv iota. rewrite sub_finite_self. reflexivity.
Qed.

(** C8, as the code has it, in doubles.  For every response, [average24h]
    is [current], the trend is ['stable'] and [isAccelerating] is false: the
    trend analysis never reports ['increasing'] or ['decreasing'].  The
    [trendPercent] is 0 unless the hourly rate is [Infinity]; it is then
    NaN. *)
Theorem velocity_trend_is_always_stable (x_time : option (list string))
    (totalTokensUsage : option Double.t) :
  let v := Double.calculateVelocityFromModelUsage x_time totalTokensUsage in
  Double.VelocityInfo.average24h v = Double.VelocityInfo.current v /\
  Double.VelocityInfo.trend v = stable /\
  Double.VelocityInfo.isAccelerating v = false /\
  (Double.currentRate x_time totalTokensUsage <> Double.Infinity ->
   Double.VelocityInfo.trendPercent v = Double.ofZ 0) /\
  (Double.currentRate x_time totalTokensUsage = Double.Infinity ->
   Double.VelocityInfo.trendPercent v = Double.NaN).
Proof.
  unfold Double.calculateVelocityFromModelUsage. cbv zeta.
  set (x := Double.currentRate x_time totalTokensUsage).
  rewrite (trend_percent_of_a_rate x). clearbody x.
  cbn [Double.VelocityInfo.average24h Double.VelocityInfo.current
       Double.VelocityInfo.trend Double.VelocityInfo.trendPercent
       Double.VelocityInfo.isAccelerating].
  split; [reflexivity|].
  destruct x as [s|[|]| |s m e];
    (split; [reflexivity|]); (split; [reflexivity|]);
    split; intros H; try reflexivity; try discriminate H;
    exfalso; apply H; reflexivity.
Qed.

Lemma velocity_trend_is_always_stable_witness :
  Double.VelocityInfo.trendPercent
    (Double.calculateVelocityFromModelUsage
       (Some ["2023-11-14 09:00:00"; "2023-11-14 10:00:00"])
       (Some (Double.ofZ 4801)))
  = Double.ofZ 0.
Proof.
  refine (proj1 (proj2 (proj2 (proj2
            (velocity_trend_is_always_stable
               (Some ["2023-11-14 09:00:00"; "2023-11-14 10:00:00"])
               (Some (Double.ofZ 4801)))))) _).
  vm_compute. discriminate.
Defined.

(** ** Settings *)

Lemma putProp_defined (props : list (string * json)) (o : gmap string value) :
  (forall k x, o !! k = Some x -> exists j, x = Some j) ->
  forall k x, fold_left putProp props o !! k = Some x -> exists j, x = Some j.
Proof.
  revert o. induction props as [|p props IH]; intros o Ho k x; simpl.
  - apply Ho.
  - apply IH. clear k x. intros k x. unfold putProp.
    destruct (decide (fst p = k)) as [->|Hne].
    + rewrite lookup_insert_eq. intros [= <-]. eauto.
    + rewrite lookup_insert_ne by exact Hne. apply Ho.
Qed.

(** A property that a parsed value gives is never [undefined]. *)
Lemma ownProps_defined (v : json) (k : string) (x : value) :
  ownProps v !! k = Some x -> exists j, x = Some j.
Proof.
  assert (forall k x, (∅ : gmap string value) !! k = Some x ->
                      exists j, x = Some j) as Hempty.
  { intros k' x'. rewrite lookup_empty. discriminate. }
  destruct v; simpl; try apply Hempty; apply putProp_defined, Hempty.
Qed.

Lemma spread2_lookup (a b : gmap string value) (k : string) :
  spread2 a b !! k = match b !! k with Some v => Some v | None => a !! k end.
Proof.
  unfold spread2. rewrite lookup_union.
  destruct (b !! k), (a !! k); reflexivity.
Qed.

Lemma defaultSettings_required (tz k : string) :
  In k requiredFields -> exists j, defaultSettings tz !! k = Some (Some j).
Proof.
  unfold requiredFields, defaultSettings. simpl.
  intros [<-|[<-|[<-|[<-|[<-|[<-|[]]]]]]]; simplify_map_eq; eauto.
Qed.

Lemma defaultSettings_dataSource (tz : string) :
  defaultSettings tz !! "dataSource" = Some (Some (JString "ccusage")).
Proof. unfold defaultSettings. simplify_map_eq. reflexivity. Qed.

(** C10. [loadSettings] never rejects and returns complete settings: the
    defaults when the file is absent, unreadable or not JSON, and otherwise
    the defaults overridden property by property by what was parsed; every
    required field is present (and not [undefined]) in the result. *)
Theorem loadSettings_always_complete (detectedTimezone : string)
    (JSON_parse : string -> option json) (file : SettingsFile) :
  exists settings,
    loadSettings detectedTimezone JSON_parse file = inr settings /\
    (forall k, In k requiredFields -> exists j, settings !! k = Some (Some j)) /\
    match file with
    | Contents data =>
        match JSON_parse data with
        | Some parsed =>
            forall k,
              settings !! k =
              match ownProps parsed !! k with
              | Some v => Some v
              | None => defaultSettings detectedTimezone !! k
              end
        | None => settings = defaultSettings detectedTimezone
        end
    | Absent | Unreadable => settings = defaultSettings detectedTimezone
    end.
Proof.
  unfold loadSettings, loadSettings_try.
  destruct file as [| |data].
  - eexists. split; [reflexivity|]. split; [|reflexivity].
    intros k. apply defaultSettings_required.
  - eexists. split; [reflexivity|]. split; [|reflexivity].
    intros k. apply defaultSettings_required.
  - destruct (JSON_parse data) as [parsed|].
    + eexists. split; [reflexivity|]. split.
      * intros k Hk. rewrite spread2_lookup.
        destruct (ownProps parsed !! k) as [x|] eqn:Hx.
        -- destruct (ownProps_defined _ _ _ Hx) as [j ->]. eauto.
        -- apply defaultSettings_required, Hk.
      * intros k. apply spread2_lookup.
    + eexists. split; [reflexivity|]. split; [|reflexivity].
      intros k. apply defaultSettings_required.
Qed.

(** ** The active service *)

Lemma getActiveService_zai (app : CCSevaApp) :
  getActiveService app = zaiService <-> dataSource app = Some (JString "zai").
Proof.
  unfold getActiveService, isString.
  destruct (dataSource app) as [[| | |s| |]|]; try (split; discriminate).
  destruct (String.eqb s "zai") eqn:E.
  - apply String.eqb_eq in E as ->. split; reflexivity.
  - apply String.eqb_neq in E. split; [discriminate|]. intros [= ->]. congruence.
Qed.

Lemma updateTrayTitle_follows (app : CCSevaApp) :
  Forall followsField (updateTrayTitle app).
Proof.
  unfold updateTrayTitle. constructor; [|constructor].
  intros _. apply getActiveService_zai.
Qed.

(** The application after a successful save, field by field, and the calls
    of the handler. *)
Lemma afterSave_fields (settings : gmap string value) (app : CCSevaApp) :
  let mode := getProp settings "menuBarDisplayMode" in
  let source := getProp settings "menuBarCostSource" in
  let ds := getProp settings "dataSource" in
  let modeChanged := truthy mode && negb (strictEq mode (menuBarDisplayMode app)) in
  let sourceChanged :=
    truthy source && negb (strictEq source (menuBarCostSource app)) in
  let dsChanged := truthy ds && negb (strictEq ds (dataSource app)) in
  let app' :=
    mkApp (if modeChanged then mode else menuBarDisplayMode app)
      (if sourceChanged then source else menuBarCostSource app)
      (if dsChanged then ds else dataSource app) in
  afterSave settings app
  = (app',
     propagateConfiguration app
     ++ (if sourceChanged
         then [mkCall (dataSource app) (getActiveService app)
                 call_getMenuBarData]
         else [])
     ++ (if dsChanged
         then [mkCall ds (getActiveService app') call_getMenuBarData]
         else [])).
Proof.
  cbv zeta. unfold afterSave. destruct app as [m0 c0 d0]. cbv zeta.
  cbn [menuBarDisplayMode menuBarCostSource dataSource].
  destruct (truthy (getProp settings "menuBarDisplayMode")
            && negb (strictEq (getProp settings "menuBarDisplayMode") m0));
    cbn [menuBarDisplayMode menuBarCostSource dataSource];
    destruct (truthy (getProp settings "menuBarCostSource")
              && negb (strictEq (getProp settings "menuBarCostSource") c0));
    cbn [menuBarDisplayMode menuBarCostSource dataSource];
    destruct (truthy (getProp settings "dataSource")
              && negb (strictEq (getProp settings "dataSource") d0));
    rewrite ?app_nil_r; reflexivity.
Qed.

Lemma afterSave_follows (settings : gmap string value) (app : CCSevaApp) :
  Forall followsField (snd (afterSave settings app)).
Proof.
  rewrite afterSave_fields. cbn [snd].
  apply List.Forall_app. split; [|apply List.Forall_app; split].
  - unfold propagateConfiguration.
    constructor; [discriminate|]. constructor; [discriminate|constructor].
  - destruct (truthy _ && _); constructor; [|constructor].
    intros _. apply getActiveService_zai.
  - destruct (truthy (getProp settings "dataSource") && _);
      constructor; [|constructor].
    intros _. cbn [callee fieldAtCall].
    rewrite getActiveService_zai. reflexivity.
Qed.

Lemma value_or_same (v : value) : value_or v v = v.
Proof. unfold value_or. destruct (truthy v); reflexivity. Qed.

Lemma loaded_property (tz : string) (parse : string -> option json)
    (file : SettingsFile) (settings : gmap string value) (k : string) :
  loadSettings tz parse file = inr settings ->
  getProp settings k
  = match fileProperty parse file k with
    | Some j => Some j
    | None => getProp (defaultSettings tz) k
    end.
Proof.
  unfold loadSettings, loadSettings_try, fileProperty.
  destruct file as [| |data]; try (intros [= <-]; reflexivity).
  destruct (parse data) as [parsed|]; intros [= <-]; [|reflexivity].
  unfold getProp at 1. rewrite spread2_lookup. unfold getProp at 1.
  destruct (ownProps parsed !! k) as [x|] eqn:Hx; [|reflexivity].
  destruct (ownProps_defined _ _ _ Hx) as [j ->]. reflexivity.
Qed.

Lemma initialize_field (tz : string) (parse : string -> option json)
    (file : SettingsFile) (settings : gmap string value) (k : string)
    (dflt : value) :
  loadSettings tz parse file = inr settings ->
  getProp (defaultSettings tz) k = dflt ->
  value_or (getProp settings k) dflt
  = value_or (fileProperty parse file k) dflt.
Proof.
  intros Hload Hdflt. rewrite (loaded_property _ _ _ _ k Hload), Hdflt.
  destruct (fileProperty parse file k) as [j|]; [reflexivity|].
  rewrite value_or_same. reflexivity.
Qed.

Lemma initialize_default (tz : string) (parse : string -> option json)
    (file : SettingsFile) (app : CCSevaApp) :
  providesNoDataSource parse file ->
  dataSource (initialize tz parse file app) = Some (JString "ccusage").
Proof.
  intros Hno. unfold initialize.
  assert (forall settings,
            getProp settings "dataSource" = Some (JString "ccusage") ->
            value_or (getProp settings "dataSource")
              (Some (JString "ccusage")) = Some (JString "ccusage")) as Hor.
  { intros settings ->. reflexivity. }
  assert (getProp (defaultSettings tz) "dataSource"
          = Some (JString "ccusage")) as Hdef.
  { unfold getProp. rewrite defaultSettings_dataSource. reflexivity. }
  unfold loadSettings, loadSettings_try.
  destruct file as [| |data]; simpl; try (apply Hor, Hdef).
  simpl in Hno. destruct (parse data) as [parsed|]; simpl;
    [|apply Hor, Hdef].
  apply Hor. unfold getProp. rewrite spread2_lookup, Hno.
  rewrite defaultSettings_dataSource. reflexivity.
Qed.

(** C7. Every call for usage data that a poll or an IPC request makes goes
    to the z.ai service exactly when the [dataSource] field holds ['zai'],
    and to the ccusage service otherwise; a poll, [get-usage-stats] and
    [refresh-data] make only such calls and use the field as it stands; a
    successful [save-settings] first passes the plan settings to both
    services (these two calls ask for no data), and its other calls are
    for data.  The field comes from the settings file: after [initialize]
    it is the file's [dataSource] when that is truthy and ['ccusage']
    otherwise, so the z.ai service is the active one exactly when the file
    gives the string ['zai']; and when the file gives no [dataSource], the
    field is ['ccusage'] and the ccusage service is the active one. *)
Theorem service_follows_dataSource (detectedTimezone : string)
    (JSON_parse : string -> option json) (file : SettingsFile)
    (req : AppRequest) (app : CCSevaApp) :
  Forall (fun c => isDataCall c = true ->
                   (callee c = zaiService <->
                    fieldAtCall c = Some (JString "zai")) /\
                   (callee c = ccusageService <->
                    fieldAtCall c <> Some (JString "zai")))
    (snd (handle req app)) /\
  (match req with
   | PollTick | Ipc_get_usage_stats | Ipc_refresh_data =>
       Forall (fun c => isDataCall c = true /\
                        fieldAtCall c = dataSource app)
         (snd (handle req app)) /\
       snd (handle req app) <> []
   | Ipc_save_settings _ saved =>
       exists dataCalls,
         snd (handle req app)
         = (if saved then propagateConfiguration app else []) ++ dataCalls /\
         Forall (fun c => isDataCall c = true) dataCalls
   | Ipc_load_settings | Ipc_take_screenshot | Ipc_quit_app =>
       snd (handle req app) = []
   end) /\
  dataSource (initialize detectedTimezone JSON_parse file app)
  = value_or (fileProperty JSON_parse file "dataSource")
      (Some (JString "ccusage")) /\
  (getActiveService (initialize detectedTimezone JSON_parse file app)
   = zaiService <->
   fileProperty JSON_parse file "dataSource" = Some (JString "zai")) /\
  (providesNoDataSource JSON_parse file ->
   dataSource (initialize detectedTimezone JSON_parse file app)
   = Some (JString "ccusage") /\
   getActiveService (initialize detectedTimezone JSON_parse file app)
   = ccusageService).
Proof.
  assert (Forall followsField (snd (handle req app))) as Hf.
  { destruct req as [| | |settings saved| | |]; simpl.
    - apply updateTrayTitle_follows.
    - constructor; [intros _; apply getActiveService_zai|constructor].
    - constructor; [intros _; apply getActiveService_zai
                   |apply updateTrayTitle_follows].
    - destruct saved; [apply afterSave_follows|constructor].
    - constructor.
    - constructor.
    - constructor. }
  assert (exists settings,
            loadSettings detectedTimezone JSON_parse file = inr settings)
    as [loaded Hload].
  { unfold loadSettings. destruct (loadSettings_try _ _ _) as [e|[x|]]; eauto. }
  assert (dataSource (initialize detectedTimezone JSON_parse file app)
          = value_or (fileProperty JSON_parse file "dataSource")
              (Some (JString "ccusage"))) as Hsource.
  { unfold initialize. rewrite Hload. simpl.
    apply (initialize_field _ _ _ _ _ _ Hload).
    unfold getProp, defaultSettings. simplify_map_eq. reflexivity. }
  split; [|split; [|split; [exact Hsource|split]]].
  - eapply List.Forall_impl; [|exact Hf]. intros c Hc Hdata.
    specialize (Hc Hdata). split; [exact Hc|].
    destruct (callee c).
    + split; [discriminate|]. intros Hne. exfalso. apply Hne, Hc. reflexivity.
    + split; [|reflexivity]. intros _ Hz. apply Hc in Hz. discriminate.
  - destruct req as [| | |settings saved| | |]; cbn [handle snd];
      try reflexivity.
    + split; [repeat constructor|discriminate].
    + split; [repeat constructor|discriminate].
    + split; [repeat constructor|discriminate].
    + destruct saved.
      * rewrite afterSave_fields. cbn [snd]. eexists. split; [reflexivity|].
        apply List.Forall_app.
        split; destruct (truthy _ && _); repeat constructor.
      * exists []. split; [reflexivity|constructor].
  - rewrite getActiveService_zai, Hsource. unfold value_or.
    destruct (fileProperty JSON_parse file "dataSource") as [j|] eqn:Hj.
    + destruct (truthy (Some j)) eqn:Htruthy; [reflexivity|].
      split; [discriminate|]. intros [= ->]. discriminate Htruthy.
    + simpl. split; discriminate.
  - intros Hno. split.
    + apply initialize_default, Hno.
    + unfold getActiveService.
      rewrite (initialize_default _ _ _ _ Hno). reflexivity.
Qed.

Lemma service_follows_dataSource_witness :
  providesNoDataSource (fun _ => Some (JObject [("plan", JString "Pro")]))
    (Contents "{}") /\
  getActiveService
    (initialize "UTC" (fun _ => Some (JObject [("plan", JString "Pro")]))
       (Contents "{}") newApp) = ccusageService.
Proof.
  split.
  - reflexivity.
  - destruct (service_follows_dataSource "UTC"
                (fun _ => Some (JObject [("plan", JString "Pro")]))
                (Contents "{}") PollTick newApp)
      as (_ & _ & _ & _ & Hdefault).
    apply Hdefault. reflexivity.
Defined.

(** ** Daily usage *)

Section Sorting.

Context {A : Type} (compare : A -> A -> Z).

Let R (a b : A) : Prop := compare a b <= 0.

Hypothesis total : forall a b, R a b \/ R b a.
Hypothesis transitive : forall a b c, R a b -> R b c -> R a c.

Lemma sort_insert_perm (x : A) (l : list A) :
  Permutation (sort_insert compare x l) (x :: l).
Proof.
  induction l as [|y l IH]; simpl.
  - reflexivity.
  - destruct (compare x y <=? 0); [reflexivity|].
    rewrite IH. apply perm_swap.
Qed.

Lemma Array_sort_perm (l : list A) : Permutation (Array_sort compare l) l.
Proof.
  induction l as [|x l IH]; simpl.
  - reflexivity.
  - rewrite sort_insert_perm. constructor. exact IH.
Qed.

Lemma sort_insert_sorted (x : A) (l : list A) :
  StronglySorted R l -> StronglySorted R (sort_insert compare x l).
Proof using total transitive.
  induction l as [|y l IH]; intros Hl; simpl.
  - repeat constructor.
  - inversion Hl as [|? ? Hl' Hy]; subst.
    destruct (compare x y <=? 0) eqn:E.
    + apply Z.leb_le in E. constructor; [exact Hl|].
      constructor; [exact E|].
      eapply List.Forall_impl; [|exact Hy]. intros z Hz.
      exact (transitive _ _ _ E Hz).
    + apply Z.leb_gt in E. constructor; [apply IH, Hl'|].
      apply List.Forall_forall. intros z Hz.
      apply (Permutation_in _ (sort_insert_perm x l)) in Hz.
      destruct Hz as [<-|Hz].
      * destruct (total x y) as [H|H]; [unfold R in H; lia|exact H].
      * rewrite List.Forall_forall in Hy. apply Hy, Hz.
Qed.

Lemma Array_sort_sorted (l : list A) : StronglySorted R (Array_sort compare l).
Proof using total transitive.
  induction l as [|x l IH]; simpl.
  - constructor.
  - apply sort_insert_sorted, IH.
Qed.

End Sorting.

Lemma split0_empty_iff (s : string) : JS.nonempty s = false <-> s = "".
Proof. destruct s; simpl; split; congruence. Qed.

Lemma Map_has_true (k : string) (dm : DailyMap) :
  Map_has k dm = true <-> In k (map fst dm).
Proof.
  unfold Map_has. rewrite existsb_exists, in_map_iff. split.
  - intros (e & He & Hk). apply String.eqb_eq in Hk. eauto.
  - intros (e & Hk & He). exists e. split; [exact He|].
    apply String.eqb_eq, Hk.
Qed.

Lemma Map_replace_same (k : string) (d : DailyUsage.t) (dm : DailyMap) :
  Map_get k dm = Some d -> Map_replace k d dm = dm.
Proof.
  unfold Map_get. induction dm as [|[k' d'] dm IH]; simpl; [reflexivity|].
  destruct (String.eqb k' k) eqn:E; simpl.
  - apply String.eqb_eq in E as ->. intros [= ->]. reflexivity.
  - intros H. rewrite (IH H). reflexivity.
Qed.

Lemma Map_get_new (k : string) (dm : DailyMap) :
  allNew dm -> In k (map fst dm) -> Map_get k dm = Some (newDay k).
Proof.
  unfold Map_get. induction dm as [|[k' d'] dm IH]; simpl; [intros _ []|].
  intros Hnew Hin. destruct (String.eqb k' k) eqn:E; simpl.
  - apply String.eqb_eq in E as ->.
    pose proof (Hnew (k, d') (or_introl eq_refl)) as Hd. simpl in Hd.
    rewrite Hd. reflexivity.
  - apply String.eqb_neq in E. apply IH.
    + intros e He. apply Hnew. right. exact He.
    + destruct Hin as [Hin|Hin]; [contradiction|exact Hin].
Qed.

(** What one turn of the loop does to a map of new days. *)
Lemma addHour_spec (dm : DailyMap) (hourStr : string) :
  allNew dm ->
  let k := JS.split0 " "%char hourStr in
  addHour dm hourStr =
  if JS.nonempty k && negb (Map_has k dm) then dm ++ [(k, newDay k)] else dm.
Proof.
  intros Hnew k. unfold addHour. fold k.
  destruct (JS.nonempty k); simpl; [|reflexivity].
  destruct (Map_has k dm) eqn:Hhas; simpl.
  - rewrite (Map_get_new k dm Hnew) by (apply Map_has_true, Hhas).
    apply Map_replace_same. rewrite (Map_get_new k dm Hnew);
      [reflexivity|apply Map_has_true, Hhas].
  - unfold Map_set. rewrite Hhas.
    assert (allNew (dm ++ [(k, newDay k)])) as Hnew'.
    { intros e He. apply in_app_or in He as [He|[<-|[]]]; auto. }
    assert (In k (map fst (dm ++ [(k, newDay k)]))) as Hin.
    { rewrite map_app. apply in_or_app. right. left. reflexivity. }
    rewrite (Map_get_new k _ Hnew' Hin).
    apply Map_replace_same. apply (Map_get_new k _ Hnew' Hin).
Qed.

(** The map after the loop: new days, one per date seen. *)
Lemma addHours_invariant (hours seen : list string) (dm : DailyMap) :
  allNew dm ->
  List.NoDup (map fst dm) ->
  (forall k, In k (map fst dm) <->
             k <> "" /\ exists h, In h seen /\ JS.split0 " "%char h = k) ->
  let dm' := fold_left addHour hours dm in
  allNew dm' /\
  List.NoDup (map fst dm') /\
  (forall k, In k (map fst dm') <->
             k <> "" /\
             exists h, In h (seen ++ hours) /\ JS.split0 " "%char h = k).
Proof.
  revert seen dm. induction hours as [|hour hours IH];
    intros seen dm Hnew Hnd Hkeys; simpl.
  - rewrite app_nil_r. auto.
  - replace (seen ++ hour :: hours) with ((seen ++ [hour]) ++ hours)
      by (rewrite <- app_assoc; reflexivity).
    rewrite (addHour_spec dm hour Hnew).
    set (k := JS.split0 " "%char hour).
    assert (forall k', (exists h, In h (seen ++ [hour]) /\
                                  JS.split0 " "%char h = k') <->
                       (exists h, In h seen /\ JS.split0 " "%char h = k') \/
                       k = k') as Hseen.
    { intros k'. split.
      - intros (h & Hh & E). apply in_app_or in Hh as [Hh|[<-|[]]].
        + left. eauto.
        + right. exact E.
      - intros [(h & Hh & E)|E].
        + exists h. split; [apply in_or_app; left; exact Hh|exact E].
        + exists hour. split; [apply in_or_app; right; left; reflexivity|].
          exact E. }
    destruct (JS.nonempty k) eqn:Hne; simpl.
    + assert (k <> "") as Hk.
      { intros E. apply split0_empty_iff in E. congruence. }
      destruct (Map_has k dm) eqn:Hhas; simpl.
      * apply IH; auto. intros k'. rewrite Hkeys, Hseen.
        apply Map_has_true, Hkeys in Hhas. split; [tauto|].
        intros [Hk' [H| <-]]; [tauto|exact Hhas].
      * assert (~ In k (map fst dm)) as Hnotin.
        { intros Hin. apply Map_has_true in Hin. congruence. }
        apply IH.
        -- intros e He. apply in_app_or in He as [He|[<-|[]]]; auto.
        -- rewrite map_app. simpl. apply List.NoDup_app; repeat split.
           ++ exact Hnd.
           ++ constructor; [intros []|constructor].
           ++ intros x Hx [<-|[]]. contradiction.
        -- intros k'. rewrite map_app, in_app_iff, Hkeys, Hseen. simpl.
           split.
           ++ intros [H|[<-|[]]]; [tauto|]. split; [exact Hk|right; reflexivity].
           ++ intros [Hk' [H| <-]]; [tauto|]. right. left. reflexivity.
    + apply split0_empty_iff in Hne.
      apply IH; auto. intros k'. rewrite Hkeys, Hseen. split; [tauto|].
      intros [Hk' [H| <-]]; [tauto|contradiction].
Qed.

(** The floor of a share of a positive total is between 0 and the total. *)
Lemma floor_of_share (total : JS.number) (n : nat) :
  (0 < total)%Q -> (0 < n)%nat ->
  (0 <= JS.Math_floor (total / inject_Z (Z.of_nat n)) <= total)%Q.
Proof.
  intros Htotal Hn. unfold JS.Math_floor.
  set (size := inject_Z (Z.of_nat n)).
  assert (1 <= size)%Q as Hone.
  { subst size. change 1%Q with (inject_Z 1). rewrite <- Zle_Qle. lia. }
  assert (0 < size)%Q as Hsize by lra.
  assert (0 <= total / size)%Q as Hq.
  { apply Qle_shift_div_l; [exact Hsize|]. lra. }
  split.
  - change 0%Q with (inject_Z 0). rewrite <- Zle_Qle.
    change 0%Z with (Qfloor 0). apply Qfloor_resp_le, Hq.
  - apply Qle_trans with (total / size)%Q; [apply Qfloor_le|].
    apply Qle_shift_div_r; [exact Hsize|]. nra.
Qed.

Lemma size_positive (n : nat) :
  (0 < n)%nat -> JS.gt (inject_Z (Z.of_nat n)) 0 = true.
Proof.
  intros Hn. apply gt_true. unfold Qlt. simpl. lia.
Qed.

Lemma byCharacters_le (a b : string) :
  Sample.byCharacters a b <= 0 <-> String_as_OT.lt a b \/ a = b.
Proof.
  unfold Sample.byCharacters.
  destruct (String_as_OT.cmp a b) eqn:E.
  - apply String_as_OT.cmp_eq in E. split; [auto|lia].
  - apply String_as_OT.cmp_lt in E. split; [auto|lia].
  - split; [lia|]. intros [H| ->].
    + apply String_as_OT.cmp_lt in H. congruence.
    + assert (String_as_OT.cmp b b = Eq) by (apply String_as_OT.cmp_eq; auto).
      congruence.
Qed.

Lemma byCharacters_consistent (quota : FetchOutcome ZaiQuotaResponse.t)
    (usage : FetchOutcome ZaiModelUsageBody.t) :
  consistentCollation (Sample.mkEnv quota usage).
Proof.
  split; simpl.
  - intros a b. rewrite !byCharacters_le.
    destruct (String_as_OT.cmp a b) eqn:E.
    + apply String_as_OT.cmp_eq in E. auto.
    + apply String_as_OT.cmp_lt in E. auto.
    + rewrite String_as_OT.cmp_antisym in E.
      destruct (String_as_OT.cmp b a) eqn:E'; try discriminate.
      apply String_as_OT.cmp_lt in E'. auto.
  - intros a b c. rewrite !byCharacters_le.
    intros [Hab| ->] [Hbc| ->]; auto.
    left. exact (String_as_OT.lt_trans _ _ _ Hab Hbc).
Qed.

(** C9, as the code has it.  [mapHourlyToDailyUsage] returns one entry per
    distinct date of [x_time] (the non-empty text before the first space),
    in ascending date order, each with [totalCost] 0, and all with the
    same [totalTokens].  When [totalTokensUsage] is not positive every
    entry has [totalTokens] 0.  When it is positive the [totalTokens] are
    between 0 and [totalTokensUsage]; they are the floor of
    [totalTokensUsage] over the number of dates when [totalTokensUsage] is
    a whole number up to 2^53 (above, the quotient is rounded before the
    floor is taken). *)
Theorem dailyUsage_one_entry_per_date (env : Env)
    (modelUsage : ZaiModelUsageResponse.t) :
  let days := mapHourlyToDailyUsage env modelUsage in
  let hours :=
    ZaiModelUsageData.x_time_or_empty (ZaiModelUsageResponse.data modelUsage) in
  let total :=
    ZaiModelUsageData.totalTokensUsage_or_0
      (ZaiModelUsageResponse.data modelUsage) in
  List.NoDup (map DailyUsage.date days) /\
  (forall d, In d (map DailyUsage.date days) <->
             d <> "" /\ exists h, In h hours /\ JS.split0 " "%char h = d) /\
  (consistentCollation env -> StronglySorted (notAfter env) days) /\
  Forall (fun e =>
            DailyUsage.totalCost e = 0%Q /\
            (JS.gt total 0 = false -> DailyUsage.totalTokens e = 0%Q) /\
            (JS.gt total 0 = true ->
             (0 <= DailyUsage.totalTokens e <= total)%Q /\
             (wholeNumber total ->
              DailyUsage.totalTokens e =
              JS.Math_floor
                (total / inject_Z (Z.of_nat (length days)))))) days /\
  (forall e e', In e days -> In e' days ->
                DailyUsage.totalTokens e = DailyUsage.totalTokens e').
Proof.
  intros days hours total.
  destruct (addHours_invariant hours [] [] ) as (Hnew & Hnd & Hkeys).
  { intros e []. }
  { constructor. }
  { intros k. simpl. split; [intros []|]. intros (_ & h & [] & _). }
  simpl in Hkeys.
  set (dm := fold_left addHour hours []) in *.
  set (size := inject_Z (Z.of_nat (length dm))).
  set (filled :=
         if JS.gt total 0 && JS.gt size 0
         then map (set_totalTokens (JS.Math_floor (total / size)))
                (Map_values dm)
         else Map_values dm).
  assert (days = Array_sort (compareByDate env) filled) as Edays by reflexivity.
  assert (Permutation days filled) as Hperm.
  { rewrite Edays. apply Array_sort_perm. }
  assert (map DailyUsage.date filled = map fst dm) as Hdates.
  { assert (map DailyUsage.date (Map_values dm) = map fst dm) as Hv.
    { unfold Map_values. rewrite map_map. apply map_ext_in.
      intros e He. rewrite (Hnew e He). reflexivity. }
    subst filled. destruct (JS.gt total 0 && JS.gt size 0); [|exact Hv].
    rewrite map_map. simpl. exact Hv. }
  assert (length days = length dm) as Hlen.
  { rewrite (Permutation_length Hperm), <- (length_map DailyUsage.date filled).
    rewrite Hdates. apply length_map. }
  assert (Permutation (map DailyUsage.date days) (map fst dm)) as Hpd.
  { rewrite <- Hdates. apply Permutation_map, Hperm. }
  assert (forall e, In e days ->
            DailyUsage.totalCost e = 0%Q /\
            DailyUsage.totalTokens e =
            (if JS.gt total 0 then JS.Math_floor (total / size) else 0%Q) /\
            (0 < length dm)%nat) as Hexact.
  { intros e He. apply (Permutation_in _ Hperm) in He.
    assert (0 < length dm)%nat as Hpos.
    { assert (In (DailyUsage.date e) (map fst dm)) as Hin.
      { rewrite <- Hdates. apply in_map, He. }
      destruct dm; [destruct Hin|simpl; lia]. }
    assert (JS.gt size 0 = true) as Hsize by (apply size_positive, Hpos).
    subst filled. rewrite Hsize, andb_true_r in He.
    destruct (JS.gt total 0).
    - apply in_map_iff in He as (v & <- & Hv).
      apply in_map_iff in Hv as (p & <- & Hp).
      rewrite (Hnew p Hp). repeat split. exact Hpos.
    - apply in_map_iff in He as (p & <- & Hp).
      rewrite (Hnew p Hp). repeat split. exact Hpos. }
  split; [|split; [|split; [|split]]].
  - eapply Permutation_NoDup; [symmetry; exact Hpd|exact Hnd].
  - intros d. rewrite <- Hkeys. split; apply Permutation_in;
      [exact Hpd|symmetry; exact Hpd].
  - intros [Htotal Htrans]. rewrite Edays. apply Array_sort_sorted.
    + intros a b. apply Htotal.
    + intros a b c. apply Htrans.
  - apply List.Forall_forall. intros e He.
    destruct (Hexact e He) as (Hcost & Htokens & Hpos).
    rewrite Hlen. fold size. rewrite Htokens.
    split; [exact Hcost|].
    destruct (JS.gt total 0) eqn:Hgt.
    + split; [discriminate|]. intros _.
      split; [|intros _; reflexivity].
      apply gt_true in Hgt. apply floor_of_share; assumption.
    + split; [reflexivity|discriminate].
  - intros e e' He He'.
    destruct (Hexact e He) as (_ & -> & _).
    destruct (Hexact e' He') as (_ & -> & _). reflexivity.
Qed.

Lemma dailyUsage_one_entry_per_date_witness :
  consistentCollation Sample.online /\
  map DailyUsage.date
    (mapHourlyToDailyUsage Sample.online (Sample.usageOf 4801%Q))
  = ["2023-11-13"; "2023-11-14"] /\
  StronglySorted (notAfter Sample.online)
    (mapHourlyToDailyUsage Sample.online (Sample.usageOf 4801%Q)) /\
  wholeNumber 4801%Q /\
  Forall (fun e => DailyUsage.totalTokens e = JS.Math_floor (4801 / 2)%Q)
    (mapHourlyToDailyUsage Sample.online (Sample.usageOf 4801%Q)).
Proof.
  assert (wholeNumber 4801%Q) as Hwhole.
  { exists 4801. split; [reflexivity|lia]. }
  split; [apply byCharacters_consistent|].
  split; [reflexivity|].
  destruct (dailyUsage_one_entry_per_date Sample.online
              (Sample.usageOf 4801%Q)) as (_ & _ & Hsorted & Hall & _).
  split; [apply Hsorted, byCharacters_consistent|].
  split; [exact Hwhole|].
  revert Hall. apply List.Forall_impl.
  intros e (_ & _ & Hpos).
  exact (proj2 (Hpos eq_refl) Hwhole).
Defined.

(** C9, as stated, fails when [totalTokensUsage] is negative: every entry
    keeps 0 tokens, not the floor of the quotient. *)
Lemma dailyUsage_negative_total :
  ~ Forall (fun e =>
              (DailyUsage.totalTokens e ==
               JS.Math_floor
                 (ZaiModelUsageData.totalTokensUsage_or_0
                    (ZaiModelUsageResponse.data (Sample.usageOf (-5)%Q)) /
                  inject_Z (Z.of_nat
                    (length (mapHourlyToDailyUsage Sample.online
                               (Sample.usageOf (-5)%Q))))))%Q)
      (mapHourlyToDailyUsage Sample.online (Sample.usageOf (-5)%Q)).
Proof.
  intros H. apply Forall_inv in H. vm_compute in H. discriminate.
Qed.

(** Up to 2^53 the floor of the rounded quotient is the floor of the
    quotient: at the sample, and at the largest totals. *)
Lemma dailyUsage_share_up_to_2_53 :
  Double.tokensPerDay (Double.ofZ 4801) 2 = Double.ofZ (4801 / 2) /\
  Double.tokensPerDay (Double.ofZ (2 ^ 53)) 3 = Double.ofZ (2 ^ 53 / 3) /\
  Double.tokensPerDay (Double.ofZ (2 ^ 53 - 1)) 7
  = Double.ofZ ((2 ^ 53 - 1) / 7) /\
  Double.tokensPerDay (Double.ofZ (2 ^ 53 - 1)) 1 = Double.ofZ (2 ^ 53 - 1).
Proof. repeat split; vm_compute; reflexivity. Qed.

(** Above 2^53 the quotient is rounded before its floor is taken: 2^60
    tokens over three dates give each date 384307168202282304 tokens, where
    the floor of the exact quotient is 384307168202282325. *)
Lemma dailyUsage_share_above_2_53 :
  Double.tokensPerDay (Double.ofZ (2 ^ 60)) 3
  = SpecFloat.S754_finite false 6004799503160661 6 /\
  (6004799503160661 * 2 ^ 6 = 384307168202282304)%Z /\
  Qfloor (inject_Z (2 ^ 60) / 3) = 384307168202282325.
Proof. split; [|split]; vm_compute; reflexivity. Qed.

(** ** Runs of the service *)

Section Runs.

Variable env : Env.

Local Open Scope js_scope.

Lemma bind_run {A B} (c : M A) (k : A -> M B) (m : Machine) :
  bind c k m =
  match c m with
  | (inr a, m') => k a m'
  | (inl e, m') => (inl e, m')
  end.
Proof. reflexivity. Qed.

Lemma bind_returns {A B} (c : M A) (k : A -> M B) (m m' : Machine) (b : B) :
  bind c k m = (inr b, m') ->
  exists a m1, c m = (inr a, m1) /\ k a m1 = (inr b, m').
Proof.
  rewrite bind_run. destruct (c m) as [[e|a] m1]; [discriminate|]. eauto.
Qed.

Lemma bind_step {A B} (c : M A) (k : A -> M B) (m m1 : Machine) (a : A) :
  c m = (inr a, m1) -> bind c k m = k a m1.
Proof. intros H. rewrite bind_run, H. reflexivity. Qed.

(** *** Computations that leave the service and the network alone *)

Lemma quiet_ret {A} (a : A) : quiet (ret a).
Proof. intros m. split; reflexivity. Qed.

Lemma quiet_throw {A} (e : Error) : quiet (@throw A e).
Proof. intros m. split; reflexivity. Qed.

Lemma quiet_bind {A B} (c : M A) (k : A -> M B) :
  quiet c -> (forall a, quiet (k a)) -> quiet (bind c k).
Proof.
  intros Hc Hk m. rewrite bind_run. specialize (Hc m).
  destruct (c m) as [[e|a] m1]; simpl in Hc.
  - exact Hc.
  - destruct (Hk a m1) as [H1 H2]. destruct Hc as [H3 H4].
    split; congruence.
Qed.

Lemma quiet_Date_now : quiet (Date_now env).
Proof. intros m. split; reflexivity. Qed.

Lemma quiet_Math_random : quiet (Math_random env).
Proof. intros m. split; reflexivity. Qed.

Lemma quiet_Date_toISOString (d : JS.Date) : quiet (Date_toISOString env d).
Proof. destruct d; [apply quiet_ret|apply quiet_throw]. Qed.

Create HintDb quiet discriminated.

#[local] Hint Resolve quiet_ret quiet_throw quiet_Date_now quiet_Math_random
  quiet_Date_toISOString : quiet.

Ltac quiet_step :=
  match goal with
  | |- quiet (bind _ _) => apply quiet_bind; [|intros ?]
  | |- quiet (if ?b then _ else _) => destruct b
  | |- quiet (match ?x with _ => _ end) => destruct x
  | |- _ => solve [auto with quiet]
  end.

Ltac quiet_tac := repeat quiet_step.

Lemma quiet_todayString : quiet (todayString env).
Proof. unfold todayString. quiet_tac. Qed.

#[local] Hint Resolve quiet_todayString : quiet.

Lemma quiet_getEmptyDailyUsage : quiet (getEmptyDailyUsage env).
Proof. unfold getEmptyDailyUsage. quiet_tac. Qed.

Lemma quiet_filterM {A} (p : A -> M bool) (l : list A) :
  (forall x, quiet (p x)) -> quiet (filterM p l).
Proof.
  intros Hp. induction l as [|x l IH]; simpl; [apply quiet_ret|].
  apply quiet_bind; [apply Hp|intros keep].
  apply quiet_bind; [exact IH|intros rest]. apply quiet_ret.
Qed.

Lemma quiet_notOlderThan (days : Z) (d : DailyUsage.t) :
  quiet (notOlderThan env days d).
Proof. unfold notOlderThan. quiet_tac. Qed.

Lemma quiet_mockDays (now : Z) (k : nat) : quiet (mockDays env now k).
Proof.
  induction k as [|i IH]; simpl; [apply quiet_ret|].
  apply quiet_bind; [auto with quiet|intros dateIso].
  apply quiet_bind; [auto with quiet|intros r].
  apply quiet_bind; [exact IH|intros rest]. apply quiet_ret.
Qed.

#[local] Hint Resolve quiet_getEmptyDailyUsage quiet_notOlderThan
  quiet_mockDays : quiet.

Lemma quiet_generateMockDailyData (days : nat) :
  quiet (generateMockDailyData env days).
Proof. unfold generateMockDailyData. quiet_tac. Qed.

#[local] Hint Resolve quiet_generateMockDailyData : quiet.

Lemma quiet_getMockStats : quiet (getMockStats env).
Proof. unfold getMockStats. quiet_tac. Qed.

Lemma quiet_calculatePredictionInfo (used limit : JS.number)
    (velocity : VelocityInfo.t) (resetInfo : ResetTimeInfo.t) :
  quiet (calculatePredictionInfo env used limit velocity resetInfo).
Proof. unfold calculatePredictionInfo. quiet_tac. Qed.

Lemma quiet_actualResetInfoOf (quota : ZaiQuotaLimit.t) :
  quiet (actualResetInfoOf env quota).
Proof. unfold actualResetInfoOf. quiet_tac. Qed.

#[local] Hint Resolve quiet_calculatePredictionInfo quiet_actualResetInfoOf
  : quiet.

Lemma quiet_mapZaiToUsageStats (quota : ZaiQuotaLimit.t)
    (modelUsage : ZaiModelUsageResponse.t) :
  quiet (mapZaiToUsageStats env quota modelUsage).
Proof.
  unfold mapZaiToUsageStats. quiet_tac.
  all: apply quiet_filterM; auto with quiet.
Qed.

(** *** Computations that return *)

Lemma succeeds_ret {A} (P : A -> Prop) (a : A) : P a -> succeeds P (ret a).
Proof. intros Ha m. exists a, m. auto. Qed.

Lemma succeeds_bind {A B} (P : A -> Prop) (Q : B -> Prop)
    (c : M A) (k : A -> M B) :
  succeeds P c -> (forall a, P a -> succeeds Q (k a)) -> succeeds Q (bind c k).
Proof.
  intros Hc Hk m. destruct (Hc m) as (a & m1 & Hrun & Ha).
  rewrite (bind_step _ _ _ _ _ Hrun). apply Hk, Ha.
Qed.

Lemma Date_ofTime_valid (t : Z) :
  - JS.TIME_MAX <= t <= JS.TIME_MAX -> JS.Date_ofTime t = Some t.
Proof.
  intros Ht. unfold JS.Date_ofTime, JS.Date_ofNumber.
  assert (Qle_bool (Qabs (inject_Z t)) (inject_Z JS.TIME_MAX) = true) as ->.
  { apply Qle_bool_iff. unfold Qle, JS.TIME_MAX in *. simpl. lia. }
  unfold JS.truncate.
  rewrite Qfloor_Z, Qceiling_Z. destruct (Qle_bool 0 (inject_Z t)); reflexivity.
Qed.

Lemma succeeds_Date_now :
  saneClock env ->
  succeeds (fun t => 0 <= t <= JS.TIME_MAX - 138 * 60 * 60 * 1000)
    (Date_now env).
Proof. intros Hclock m. eexists _, _. split; [reflexivity|apply Hclock]. Qed.

Lemma succeeds_todayString : succeeds (fun _ => True) (todayString env).
Proof. intros m. eexists _, _. split; [reflexivity|exact I]. Qed.

Lemma succeeds_mockDays (now : Z) (k : nat) :
  0 <= now <= JS.TIME_MAX -> (k <= 30)%nat ->
  succeeds (fun _ => True) (mockDays env now k).
Proof.
  intros Hnow. induction k as [|i IH]; intros Hk; simpl.
  - apply succeeds_ret. exact I.
  - rewrite Date_ofTime_valid by (unfold JS.TIME_MAX in *; lia).
    simpl. apply succeeds_bind with (P := fun _ => True).
    { intros m. eexists _, _. split; [reflexivity|exact I]. }
    intros dateIso _. apply succeeds_bind with (P := fun _ => True).
    { intros m. eexists _, _. split; [reflexivity|exact I]. }
    intros r _. apply succeeds_bind with (P := fun _ => True).
    { apply IH. lia. }
    intros rest _. apply succeeds_ret. exact I.
Qed.

Lemma succeeds_generateMockDailyData (days : nat) :
  saneClock env -> (days <= 30)%nat ->
  succeeds (fun _ => True) (generateMockDailyData env days).
Proof.
  intros Hclock Hdays. unfold generateMockDailyData.
  eapply succeeds_bind; [apply succeeds_Date_now, Hclock|].
  intros now Hnow. apply succeeds_mockDays; [|exact Hdays].
  unfold JS.TIME_MAX in *. lia.
Qed.

Lemma getMockStats_returns :
  saneClock env -> succeeds (fun _ => True) (getMockStats env).
Proof.
  intros Hclock. unfold getMockStats.
  eapply succeeds_bind; [apply succeeds_todayString|intros today _].
  eapply succeeds_bind; [apply succeeds_Date_now, Hclock|intros now Hnow].
  rewrite Date_ofTime_valid by (unfold JS.TIME_MAX in *; lia). simpl.
  eapply succeeds_bind with (P := fun _ => True).
  { intros m. eexists _, _. split; [reflexivity|exact I]. }
  intros depletionTime _.
  eapply succeeds_bind; [apply succeeds_Date_now, Hclock|intros t0 _].
  eapply succeeds_bind;
    [apply succeeds_generateMockDailyData; [exact Hclock|lia]|intros week _].
  eapply succeeds_bind;
    [apply succeeds_generateMockDailyData; [exact Hclock|lia]|intros month _].
  apply succeeds_ret. exact I.
Qed.

Ltac run_to_end H :=
  cbv zeta in H;
  repeat (apply bind_returns in H as (? & ? & _ & H));
  injection H as <- <-.

Lemma getMockStats_isMock (m m' : Machine) (s : UsageStats.t) :
  getMockStats env m = (inr s, m') -> isMock s.
Proof.
  unfold getMockStats. intros H. run_to_end H.
  repeat split.
Qed.

Lemma isMock_identities (s : UsageStats.t) : isMock s -> identitiesHold s.
Proof.
  intros (Hu & Hl & Hr & Hp). unfold identitiesHold.
  rewrite Hu, Hl, Hr, Hp. split; reflexivity.
Qed.

Lemma mapZaiToUsageStats_copies (q : ZaiQuotaLimit.t)
    (u : ZaiModelUsageResponse.t) (m m' : Machine) (s : UsageStats.t) :
  mapZaiToUsageStats env q u m = (inr s, m') -> copiedFrom q s.
Proof.
  unfold mapZaiToUsageStats. intros H. run_to_end H.
  repeat split.
Qed.

Lemma copiedFrom_identities (q : ZaiQuotaLimit.t) (s : UsageStats.t) :
  copiedFrom q s -> quotaIdentitiesHold q -> identitiesHold s.
Proof.
  intros (Hu & Hl & Hr & Hp) [H1 H2]. unfold identitiesHold.
  rewrite Hu, Hl, Hr, Hp. split; assumption.
Qed.

(** *** The two requests *)

Lemma settleBoth_both {A B} (secondFirst : bool) (a : A) (b : B) :
  settleBoth secondFirst (inr a) (inr b) = inr (a, b).
Proof. destruct secondFirst; reflexivity. Qed.

Lemma settleBoth_inr {A B} (secondFirst : bool) (r1 : Error + A)
    (r2 : Error + B) (a : A) (b : B) :
  settleBoth secondFirst r1 r2 = inr (a, b) -> r1 = inr a /\ r2 = inr b.
Proof.
  destruct secondFirst, r1 as [e1|a'], r2 as [e2|b']; simpl;
    try discriminate; intros [= <- <-]; split; reflexivity.
Qed.

Lemma fetchBoth_run (m : Machine) :
  fetchBoth env m =
  (settleBoth (usageSettlesFirst env m) (quotaAnswer env m)
     (modelUsageAnswer env m),
   mkMachine (this m) (S (reads m)) (draws m) (trace m ++ twoRequests env m)).
Proof.
  unfold fetchBoth, fetchQuotaLimit, fetchModelUsage,
    Promise_all2, bind, getThis, fetch_quota, fetch_modelUsage, Date_now,
    logEvent, lift, ret, twoRequests, bothSends, settled, usageSettlesFirst.
  cbn [fst snd this reads draws trace waitsFor settlesTo].
  fold (quotaAnswer env m). fold (modelUsageAnswer env m).
  replace (length ((trace m ++ [Send (quotaRequest (this m))]) ++
                   [Send (modelUsageRequest env (this m)
                            (clock env (reads m)) None None)]))
    with (length (trace m) + 2)%nat
    by (rewrite !length_app; simpl; lia).
  destruct (Endpoint_eqb (settlesFirst env (length (trace m) + 2)) ModelUsage);
    cbn [settleBoth];
    destruct (quotaAnswer env m) as [e1|q], (modelUsageAnswer env m) as [e2|u];
    cbn [fst snd this reads draws trace];
    rewrite <- ?app_assoc; reflexivity.
Qed.

Lemma fetchBoth_this (m m' : Machine)
    (r : Error + ZaiQuotaLimit.t * ZaiModelUsageResponse.t) :
  fetchBoth env m = (r, m') ->
  this m' = this m /\ trace m' = trace m ++ twoRequests env m.
Proof. rewrite fetchBoth_run. intros [= _ <-]. split; reflexivity. Qed.

Lemma settleBoth_fails {A B} (secondFirst : bool) (r1 : Error + A)
    (r2 : Error + B) :
  (exists e, settleBoth secondFirst r1 r2 = inl e) <->
  (exists e, r1 = inl e) \/ (exists e, r2 = inl e).
Proof.
  destruct secondFirst, r1 as [e1|a], r2 as [e2|b]; simpl; split; eauto.
  - intros [e He]. discriminate.
  - intros [[e He]|[e He]]; discriminate.
  - intros [e He]. discriminate.
  - intros [[e He]|[e He]]; discriminate.
Qed.

(** *** The [try] block *)

Lemma refresh_cases (now : Z) (m m' : Machine) (r : Error + UsageStats.t) :
  refresh env now m = (r, m') -> Refreshed env now m r m'.
Proof.
  unfold refresh, bind, getThis, setThis, ret.
  destruct (JS.nonempty (apiKey (this m))) eqn:Hkey; cbn [negb].
  - destruct (fetchBoth env m) as [[e|[q u]] m1] eqn:Hfetch;
      cbn [fst snd this reads draws trace].
    + intros [= <- <-]. apply FetchFailed; assumption.
    + change (mkMachine
                (set_lastModelUsageData (Some u)
                   (set_lastQuotaData (Some q) (this m1)))
                (reads m1) (draws m1) (trace m1)) with (stored q u m1).
      destruct (mapZaiToUsageStats env q u (stored q u m1))
        as [[e|s] m2] eqn:Hmap; cbn [fst snd this reads draws trace].
      * intros [= <- <-]. eapply MappingFailed; eassumption.
      * intros [= <- <-]. eapply Mapped; eassumption.
  - intros H. apply NoKey; assumption.
Qed.

(** What a run of [refresh] leaves behind: the cache is the one before, or
    the stats just returned; the network saw nothing, or the two requests. *)
Lemma Refreshed_effects (now : Z) (m m' : Machine) (r : Error + UsageStats.t) :
  Refreshed env now m r m' ->
  apiKey (this m') = apiKey (this m) /\
  (cachedStats (this m') = cachedStats (this m) /\
   lastUpdate (this m') = lastUpdate (this m) \/
   exists s, r = inr s /\ cachedStats (this m') = Some s /\
             lastUpdate (this m') = now) /\
  (JS.nonempty (apiKey (this m)) = false /\ trace m' = trace m \/
   JS.nonempty (apiKey (this m)) = true /\
   trace m' = trace m ++ twoRequests env m).
Proof.
  intros [r' m1 Hkey Hmock|e m1 Hkey Hfetch|q u m1 e m2 Hkey Hfetch Hmap
         |q u m1 s m2 Hkey Hfetch Hmap].
  - destruct (quiet_getMockStats m) as [Hthis Htrace].
    rewrite Hmock in Hthis, Htrace. simpl in *. rewrite Hthis. auto.
  - destruct (fetchBoth_this _ _ _ Hfetch) as [Hthis Htrace].
    rewrite Hthis. auto.
  - destruct (fetchBoth_this _ _ _ Hfetch) as [Hthis Htrace].
    destruct (quiet_mapZaiToUsageStats q u (stored q u m1))
      as [Hthis' Htrace'].
    rewrite Hmap in Hthis', Htrace'. simpl in *.
    rewrite Hthis', Hthis, Htrace'. auto.
  - destruct (fetchBoth_this _ _ _ Hfetch) as [Hthis Htrace].
    destruct (quiet_mapZaiToUsageStats q u (stored q u m1))
      as [Hthis' Htrace'].
    rewrite Hmap in Hthis', Htrace'. simpl in *.
    rewrite Hthis', Hthis, Htrace'. split; [reflexivity|]. split; [|auto].
    right. exists s. auto.
Qed.

(** *** [getUsageStats] *)

Lemma getUsageStats_fresh (m : Machine) (c : UsageStats.t) :
  cachedStats (this m) = Some c ->
  clock env (reads m) - lastUpdate (this m) < CACHE_DURATION ->
  getUsageStats env m = (inr c, tick m).
Proof.
  intros Hc Hnow. unfold getUsageStats, bind, Date_now, getThis.
  cbn [fst snd this reads draws trace]. rewrite Hc.
  apply Z.ltb_lt in Hnow. rewrite Hnow. reflexivity.
Qed.

Lemma getUsageStats_stale (m : Machine) :
  isFresh (this m) (clock env (reads m)) = false ->
  getUsageStats env m =
  try_catch (refresh env (clock env (reads m))) (fallback env) (tick m).
Proof.
  unfold isFresh. intros Hstale. unfold getUsageStats, bind, Date_now, getThis.
  cbn [fst snd this reads draws trace].
  destruct (cachedStats (this m)); [rewrite Hstale|]; reflexivity.
Qed.

Lemma isFresh_true (s : ZAIService) (now : Z) :
  isFresh s now = true ->
  exists c, cachedStats s = Some c /\ now - lastUpdate s < CACHE_DURATION.
Proof.
  unfold isFresh. destruct (cachedStats s) as [c|]; [|discriminate].
  intros H. apply Z.ltb_lt in H. eauto.
Qed.

Lemma fallback_run (e : Error) (m : Machine) :
  fallback env e m =
  match cachedStats (this m) with
  | Some c => (inr c, m)
  | None => getMockStats env m
  end.
Proof.
  unfold fallback, bind, getThis. destruct (cachedStats (this m)); reflexivity.
Qed.

Lemma try_catch_run {A} (c : M A) (h : Error -> M A) (m : Machine) :
  try_catch c h m =
  match c m with
  | (inr a, m') => (inr a, m')
  | (inl e, m') => h e m'
  end.
Proof. reflexivity. Qed.

(** The network events of one call: none, or the two requests. *)
Lemma getUsageStats_trace (m : Machine) :
  let m' := snd (getUsageStats env m) in
  this (tick m) = this m /\
  (trace m' = trace m \/
   isFresh (this m) (clock env (reads m)) = false /\
   JS.nonempty (apiKey (this m)) = true /\
   trace m' = trace m ++ twoRequests env (tick m)).
Proof.
  intros m'. subst m'. split; [reflexivity|].
  destruct (isFresh (this m) (clock env (reads m))) eqn:Hfresh.
  - apply isFresh_true in Hfresh as (c & Hc & Hnow).
    rewrite (getUsageStats_fresh m c Hc Hnow). left. reflexivity.
  - rewrite (getUsageStats_stale m Hfresh), try_catch_run.
    destruct (refresh env (clock env (reads m)) (tick m)) as [r m1] eqn:Hr.
    apply refresh_cases, Refreshed_effects in Hr as (_ & _ & Htrace).
    assert (forall mz : Machine, trace mz = trace m1 ->
              trace mz = trace m \/
              false = false /\ JS.nonempty (apiKey (this m)) = true /\
              trace mz = trace m ++ twoRequests env (tick m)) as Hdone.
    { intros mz ->. destruct Htrace as [[_ ->]|[Hkey ->]]; auto. }
    destruct r as [e|s]; [|apply Hdone; reflexivity].
    rewrite fallback_run. destruct (cachedStats (this m1));
      [apply Hdone; reflexivity|].
    apply Hdone, quiet_getMockStats.
Qed.

(** What settles before [Promise.all] does: one promise when the first to
    settle rejects, else both. *)
Lemma settled_cases (m : Machine) :
  (usageSettlesFirst env m = false /\
   ((exists e, quotaAnswer env m = inl e) /\
    settled env m = [Settle QuotaLimit] \/
    (exists q, quotaAnswer env m = inr q) /\
    settled env m = [Settle QuotaLimit; Settle ModelUsage])) \/
  (usageSettlesFirst env m = true /\
   ((exists e, modelUsageAnswer env m = inl e) /\
    settled env m = [Settle ModelUsage] \/
    (exists u, modelUsageAnswer env m = inr u) /\
    settled env m = [Settle ModelUsage; Settle QuotaLimit])).
Proof.
  unfold settled. destruct (usageSettlesFirst env m); [right|left];
    (split; [reflexivity|]).
  - destruct (modelUsageAnswer env m); [left|right]; eauto.
  - destruct (quotaAnswer env m); [left|right]; eauto.
Qed.

Lemma requestsTo_twoRequests (m : Machine) :
  requestsTo QuotaLimit (twoRequests env m) = 1%nat /\
  requestsTo ModelUsage (twoRequests env m) = 1%nat /\
  forall k,
    inFlight_from k (twoRequests env m) = [k + 1; k + 1 + 1; k + 1 + 1 - 1]
    \/ inFlight_from k (twoRequests env m)
       = [k + 1; k + 1 + 1; k + 1 + 1 - 1; k + 1 + 1 - 1 - 1].
Proof.
  unfold twoRequests, bothSends.
  destruct (settled_cases m) as [[_ [[_ ->]|[_ ->]]]|[_ [[_ ->]|[_ ->]]]];
    (split; [reflexivity|]); (split; [reflexivity|]); intros k; simpl; auto.
Qed.

End Runs.

(** ** Properties of [getUsageStats] *)

(** C1. When the fetch of either endpoint fails (the cache being stale or
    empty and an API key configured), the call returns and does not reject:
    it returns the cached stats when there are some, and otherwise the mock
    stats; the cache comes before the mock. *)
Theorem fetch_failure_falls_back_to_cache_then_mock (env : Env) (m : Machine) :
  saneClock env ->
  JS.nonempty (apiKey (this m)) = true ->
  isFresh (this m) (clock env (reads m)) = false ->
  fetchingFails env (tick m) ->
  exists s m',
    getUsageStats env m = (inr s, m') /\
    match cachedStats (this m) with
    | Some c => s = c
    | None =>
        isMock s /\
        getMockStats env (snd (fetchBoth env (tick m))) = (inr s, m')
    end.
Proof.
  intros Hclock Hkey Hstale Hfails.
  rewrite (getUsageStats_stale env m Hstale), try_catch_run.
  apply (settleBoth_fails (usageSettlesFirst env (tick m))) in Hfails
    as [e He].
  pose proof (fetchBoth_run env (tick m)) as Hfetch. rewrite He in Hfetch.
  destruct (refresh env (clock env (reads m)) (tick m)) as [r m1] eqn:Hr.
  apply refresh_cases in Hr.
  destruct Hr as [r' m1 Hkey' _|e' m1 _ Hfetch'|q u m0 e' m1 _ Hfetch' _
                 |q u m0 s m2 _ Hfetch' _];
    try (simpl in Hkey'; congruence); try congruence.
  assert (m1 = snd (fetchBoth env (tick m))) as Em1
    by (rewrite Hfetch'; reflexivity).
  destruct (fetchBoth_this env _ _ _ Hfetch') as [Hthis _].
  rewrite fallback_run, Hthis. change (this (tick m)) with (this m).
  destruct (cachedStats (this m)) as [c|].
  - exists c, m1. split; reflexivity.
  - destruct (getMockStats_returns env Hclock m1) as (s & m2 & Hmock & _).
    exists s, m2. rewrite <- Em1.
    split; [exact Hmock|]. split; [|exact Hmock].
    exact (getMockStats_isMock env _ _ _ Hmock).
Qed.

Lemma sample_clock_is_sane (quota : FetchOutcome ZaiQuotaResponse.t)
    (usage : FetchOutcome ZaiModelUsageBody.t) :
  saneClock (Sample.mkEnv quota usage).
Proof. intros n. unfold JS.TIME_MAX. cbn [clock Sample.mkEnv]. lia. Qed.

Lemma fetch_failure_falls_back_to_cache_then_mock_witness :
  fetchingFails Sample.refused (tick Sample.start) /\
  exists s m',
    getUsageStats Sample.refused Sample.start = (inr s, m') /\
    isMock s.
Proof.
  assert (fetchingFails Sample.refused (tick Sample.start)) as Hfails.
  { left. exists AuthenticationFailed. reflexivity. }
  split; [exact Hfails|].
  destruct (fetch_failure_falls_back_to_cache_then_mock
              Sample.refused Sample.start
              (sample_clock_is_sane _ _) eq_refl eq_refl Hfails)
    as (s & m' & Hrun & Hmock & _).
  exists s, m'. split; [exact Hrun|exact Hmock].
Defined.

(** C2. A call made while the cache is fresh (some stats cached less than
    30000 ms before) returns the cached stats unchanged and touches neither
    the network nor the service; and when a refresh succeeds (both fetches
    and the mapping return) the new stats are returned, they become the
    cached value and [lastUpdate] becomes the time of the call, so that a
    later call within 30 seconds returns the same stats. *)
Theorem cache_serves_for_30_seconds (env : Env) :
  (forall m0 c,
     cachedStats (this m0) = Some c ->
     clock env (reads m0) - lastUpdate (this m0) < 30000 ->
     getUsageStats env m0 = (inr c, tick m0) /\
     this (tick m0) = this m0 /\ trace (tick m0) = trace m0) /\
  (forall (m m2 : Machine) (q : ZaiQuotaLimit.t)
          (u : ZaiModelUsageResponse.t) (s : UsageStats.t),
     let now := clock env (reads m) in
     JS.nonempty (apiKey (this m)) = true ->
     isFresh (this m) now = false ->
     quotaAnswer env (tick m) = inr q ->
     modelUsageAnswer env (tick m) = inr u ->
     mapZaiToUsageStats env q u (stored q u (snd (fetchBoth env (tick m))))
     = (inr s, m2) ->
     getUsageStats env m = (inr s, cached s now m2) /\
     cachedStats (this (cached s now m2)) = Some s /\
     lastUpdate (this (cached s now m2)) = now /\
     (forall m3,
        this m3 = this (cached s now m2) ->
        clock env (reads m3) - now < 30000 ->
        getUsageStats env m3 = (inr s, tick m3))).
Proof.
  assert (forall m0 c,
            cachedStats (this m0) = Some c ->
            clock env (reads m0) - lastUpdate (this m0) < 30000 ->
            getUsageStats env m0 = (inr c, tick m0)) as Hfresh.
  { intros m0 c Hc Hlt. apply getUsageStats_fresh; assumption. }
  split.
  { intros m0 c Hc Hlt. split; [apply Hfresh; assumption|].
    split; reflexivity. }
  intros m m2 q u s now Hkey Hstale Hq Hu Hmap.
  split; [|split; [|split]].
  - rewrite (getUsageStats_stale env m Hstale), try_catch_run.
    pose proof (fetchBoth_run env (tick m)) as Hfetch.
    rewrite Hq, Hu, settleBoth_both in Hfetch.
    rewrite Hfetch in Hmap. cbn [snd] in Hmap.
    unfold refresh, bind, getThis, setThis, ret.
    change (this (tick m)) with (this m). rewrite Hkey. cbn [negb].
    rewrite Hfetch. cbn [fst snd this reads draws trace].
    match goal with
    | |- context [mapZaiToUsageStats env q u ?mm] =>
        change mm with
          (stored q u
             (mkMachine (this (tick m)) (S (reads (tick m))) (draws (tick m))
                (trace (tick m) ++ twoRequests env (tick m))))
    end.
    rewrite Hmap. reflexivity.
  - reflexivity.
  - reflexivity.
  - intros m3 Hthis Hlt. apply Hfresh.
    + rewrite Hthis. reflexivity.
    + rewrite Hthis. exact Hlt.
Qed.

Lemma cache_serves_for_30_seconds_witness :
  exists s m',
    getUsageStats Sample.online Sample.start = (inr s, m') /\
    cachedStats (this m') = Some s /\
    lastUpdate (this m') = 1700000000000 /\
    getUsageStats Sample.online m' = (inr s, tick m').
Proof.
  destruct (mapZaiToUsageStats Sample.online Sample.tokensLimit
              (Sample.usageOf 4801%Q)
              (stored Sample.tokensLimit (Sample.usageOf 4801%Q)
                 (snd (fetchBoth Sample.online (tick Sample.start)))))
    as [r m2] eqn:Hmap.
  assert (exists s, r = inr s) as [s ->].
  { vm_compute in Hmap. injection Hmap as <- _. eexists. reflexivity. }
  destruct (proj2 (cache_serves_for_30_seconds Sample.online)
              Sample.start m2
              Sample.tokensLimit (Sample.usageOf 4801%Q) s
              eq_refl eq_refl eq_refl eq_refl Hmap)
    as (Hrun & Hc & Hl & Hagain).
  exists s, (cached s (clock Sample.online (reads Sample.start)) m2).
  split; [exact Hrun|]. split; [exact Hc|]. split; [exact Hl|].
  apply Hagain; [reflexivity|].
  vm_compute in Hmap. injection Hmap as _ <-. reflexivity.
Defined.

(** C3, as stated, fails: stats built from an API response copy
    [percentage] and [remaining] from the quota record, whatever they are. *)
Lemma stats_copy_a_record_that_breaks_the_identities :
  exists s m',
    getUsageStats Sample.onlineOdd Sample.start = (inr s, m') /\
    ~ (UsageStats.percentageUsed s ==
       UsageStats.tokensUsed s / UsageStats.tokenLimit s * 100)%Q /\
    ~ (UsageStats.tokensRemaining s ==
       UsageStats.tokenLimit s - UsageStats.tokensUsed s)%Q.
Proof.
  eexists _, _. split; [vm_compute; reflexivity|].
  split; intros H; vm_compute in H; discriminate.
Qed.

Lemma fallback_keeps (env : Env) (e : Error) (m m1 m' : Machine)
    (s : UsageStats.t) (P : UsageStats.t -> Prop) :
  (forall x, isMock x -> P x) ->
  (forall c, cachedStats (this m) = Some c -> P c) ->
  cachedStats (this m1) = cachedStats (this m) ->
  fallback env e m1 = (inr s, m') ->
  P s /\
  (forall c, cachedStats (this m') = Some c -> P c) /\
  (cachedStats (this m) = Some s \/ isMock s).
Proof.
  intros Hmockp Hcache Hsame. rewrite fallback_run.
  destruct (cachedStats (this m1)) as [c|] eqn:Hc.
  - intros [= <- <-]. rewrite Hc in *.
    split; [apply Hcache; congruence|]. split; [|left; congruence].
    intros c' [= <-]. apply Hcache. congruence.
  - intros Hmock.
    pose proof (getMockStats_isMock env _ _ _ Hmock) as Hs.
    destruct (quiet_getMockStats env m1) as [Hthis _].
    rewrite Hmock in Hthis. simpl in Hthis. rewrite Hthis, Hc.
    split; [apply Hmockp, Hs|]. split; [discriminate|auto].
Qed.

(** Where the stats of a call come from, and what the source passes on:
    a property [P] of the cached stats and [Q] of the quota record give [P]
    of the returned stats and of the stats left in the cache, when mock
    stats have [P] and a copy of a [Q] record has [P]. *)
Lemma stats_from_source (env : Env) (m m' : Machine) (s : UsageStats.t)
    (P : UsageStats.t -> Prop) (Q : ZaiQuotaLimit.t -> Prop) :
  (forall x, isMock x -> P x) ->
  (forall q x, copiedFrom q x -> Q q -> P x) ->
  (forall c, cachedStats (this m) = Some c -> P c) ->
  (forall q, quotaAnswer env (tick m) = inr q -> Q q) ->
  getUsageStats env m = (inr s, m') ->
  P s /\
  (forall c, cachedStats (this m') = Some c -> P c) /\
  (cachedStats (this m) = Some s \/
   isMock s \/
   exists q, quotaAnswer env (tick m) = inr q /\ copiedFrom q s).
Proof.
  intros Hmockp Hcopyp Hcache Hquota.
  destruct (isFresh (this m) (clock env (reads m))) eqn:Hfresh.
  - apply isFresh_true in Hfresh as (c & Hc & Hnow).
    rewrite (getUsageStats_fresh env m c Hc Hnow). intros [= <- <-].
    split; [apply Hcache, Hc|]. split; [exact Hcache|]. left. exact Hc.
  - rewrite (getUsageStats_stale env m Hfresh), try_catch_run.
    destruct (refresh env (clock env (reads m)) (tick m)) as [r m1] eqn:Hr.
    apply refresh_cases in Hr.
    pose proof (Refreshed_effects env _ _ _ _ Hr) as (_ & Hc1 & _).
    change (this (tick m)) with (this m) in Hc1.
    assert (forall e, r = inl e ->
              fallback env e m1 = (inr s, m') ->
              P s /\
              (forall c, cachedStats (this m') = Some c -> P c) /\
              (cachedStats (this m) = Some s \/ isMock s \/
               exists q, quotaAnswer env (tick m) = inr q /\ copiedFrom q s))
      as Hfallback.
    { intros e -> Hrun.
      destruct Hc1 as [[Hc1 _]|(s1 & Hs1 & _)]; [|discriminate].
      destruct (fallback_keeps env e m m1 m' s P Hmockp Hcache Hc1 Hrun)
        as (H1 & H2 & [H3|H3]); auto. }
    destruct Hr as [r' m1 Hkey Hmock|e m1 Hkey Hfetch
                   |q u m0 e m1 Hkey Hfetch Hmap
                   |q u m0 s' m2 Hkey Hfetch Hmap];
      try (apply (Hfallback _ eq_refl)).
    + (* no key: the mock stats, unless they cannot be built *)
      destruct r' as [e|s1]; [apply (Hfallback _ eq_refl)|].
      intros [= <- <-].
      pose proof (getMockStats_isMock env _ _ _ Hmock) as Hs.
      destruct (quiet_getMockStats env (tick m)) as [Hthis _].
      rewrite Hmock in Hthis. simpl in Hthis. rewrite Hthis.
      split; [apply Hmockp, Hs|]. split; [exact Hcache|auto].
    + (* mapped from the two responses *)
      intros [= <- <-].
      pose proof (mapZaiToUsageStats_copies env _ _ _ _ _ Hmap) as Hcopy.
      assert (quotaAnswer env (tick m) = inr q) as Hq.
      { rewrite fetchBoth_run in Hfetch. injection Hfetch as Hboth _.
        apply settleBoth_inr in Hboth. tauto. }
      assert (P s') as Hs.
      { apply (Hcopyp q); [exact Hcopy|apply Hquota, Hq]. }
      split; [exact Hs|]. split.
      * simpl. intros c [= <-]. exact Hs.
      * right. right. exists q. auto.
Qed.

(** C3, as the code has it.  The stats that [getUsageStats] returns are
    cached stats, mock stats, or stats whose four fields are copied from the
    ['TOKENS_LIMIT'] record of the quota response ([tokensUsed] from
    [currentValue], [tokenLimit] from [usage], [tokensRemaining] from
    [remaining], [percentageUsed] from [percentage]).  Mock stats satisfy
    the two identities; the others satisfy them when the record, or the
    cached value, does; and then so does the value left in the cache. *)
Theorem stats_identities_follow_the_source (env : Env) (m m' : Machine)
    (s : UsageStats.t) :
  getUsageStats env m = (inr s, m') ->
  (cachedStats (this m) = Some s \/
   isMock s \/
   exists q, quotaAnswer env (tick m) = inr q /\ copiedFrom q s) /\
  (isMock s -> identitiesHold s) /\
  ((forall c, cachedStats (this m) = Some c -> identitiesHold c) ->
   (forall q, quotaAnswer env (tick m) = inr q -> quotaIdentitiesHold q) ->
   identitiesHold s /\
   (forall c, cachedStats (this m') = Some c -> identitiesHold c)).
Proof.
  intros Hrun. split; [|split].
  - apply (stats_from_source env m m' s (fun _ => True) (fun _ => True));
      auto.
  - apply isMock_identities.
  - intros Hcache Hquota.
    destruct (stats_from_source env m m' s identitiesHold quotaIdentitiesHold)
      as (Hs & Hc & _); auto.
    + apply isMock_identities.
    + apply copiedFrom_identities.
Qed.

Lemma stats_identities_follow_the_source_witness :
  quotaIdentitiesHold Sample.tokensLimit /\
  exists s m',
    getUsageStats Sample.online Sample.start = (inr s, m') /\
    identitiesHold s.
Proof.
  assert (quotaIdentitiesHold Sample.tokensLimit) as Hq.
  { split; reflexivity. }
  split; [exact Hq|].
  destruct (getUsageStats Sample.online Sample.start) as [r m'] eqn:Hrun.
  assert (exists s, r = inr s) as [s ->].
  { vm_compute in Hrun. injection Hrun as <- _. eexists. reflexivity. }
  exists s, m'. split; [reflexivity|].
  destruct (stats_identities_follow_the_source
              Sample.online Sample.start m' s Hrun) as (_ & _ & Hkept).
  refine (proj1 (Hkept _ _)).
  - intros c Hc. discriminate Hc.
  - intros q E. vm_compute in E. injection E as <-. split; reflexivity.
Defined.

(** C5. One call of [getUsageStats] sends at most one request to the quota
    endpoint and at most one to the model-usage endpoint.  When the fetch
    fails, the events of the call are the two requests and the settling
    that [Promise.all] saw: the promise that settles first, and the other
    one too unless the first rejects; the fallback touches the network no
    further, so there is no second attempt. *)
Theorem at_most_one_request_per_endpoint (env : Env) (m : Machine) :
  let m' := snd (getUsageStats env m) in
  (exists new,
     trace m' = trace m ++ new /\
     (requestsTo QuotaLimit new <= 1)%nat /\
     (requestsTo ModelUsage new <= 1)%nat) /\
  (JS.nonempty (apiKey (this m)) = true ->
   isFresh (this m) (clock env (reads m)) = false ->
   fetchingFails env (tick m) ->
   trace m' = trace (snd (fetchBoth env (tick m))) /\
   trace m' = trace m ++ bothSends env (tick m) ++ settled env (tick m) /\
   sends (bothSends env (tick m) ++ settled env (tick m)) = 2%nat /\
   (settled env (tick m) = [Settle QuotaLimit] \/
    settled env (tick m) = [Settle ModelUsage] \/
    settled env (tick m) = [Settle QuotaLimit; Settle ModelUsage] \/
    settled env (tick m) = [Settle ModelUsage; Settle QuotaLimit])).
Proof.
  intros m'. subst m'.
  destruct (getUsageStats_trace env m) as [_ Htrace].
  split.
  - destruct Htrace as [->|(_ & _ & ->)].
    + exists []. rewrite app_nil_r.
      split; [reflexivity|]. split; unfold requestsTo; simpl; lia.
    + exists (twoRequests env (tick m)).
      destruct (requestsTo_twoRequests env (tick m)) as (-> & -> & _).
      split; [reflexivity|]. split; lia.
  - intros Hkey Hstale Hfails.
    assert (trace (snd (getUsageStats env m))
            = trace m ++ twoRequests env (tick m)) as E.
    { rewrite (getUsageStats_stale env m Hstale), try_catch_run.
      apply (settleBoth_fails (usageSettlesFirst env (tick m))) in Hfails
        as [e He].
      pose proof (fetchBoth_run env (tick m)) as Hfetch.
      rewrite He in Hfetch.
      destruct (refresh env (clock env (reads m)) (tick m)) as [r m1] eqn:Hr.
      apply refresh_cases in Hr.
      destruct Hr as [r' m1 Hkey' _|e' m1 _ Hfetch'|q u m0 e' m1 _ Hfetch' _
                     |q u m0 s m2 _ Hfetch' _];
        try (simpl in Hkey'; congruence); try congruence.
      destruct (fetchBoth_this env _ _ _ Hfetch') as [_ Htr].
      rewrite fallback_run. destruct (cachedStats (this m1)); [exact Htr|].
      destruct (quiet_getMockStats env m1) as [_ Hq]. rewrite Hq. exact Htr. }
    split; [|split; [exact E|split]].
    + rewrite E, fetchBoth_run. reflexivity.
    + destruct (settled_cases env (tick m))
        as [[_ [[_ ->]|[_ ->]]]|[_ [[_ ->]|[_ ->]]]]; reflexivity.
    + destruct (settled_cases env (tick m))
        as [[_ [[_ ->]|[_ ->]]]|[_ [[_ ->]|[_ ->]]]]; auto.
Qed.

Lemma at_most_one_request_per_endpoint_witness :
  fetchingFails Sample.refused (tick Sample.start) /\
  trace (snd (getUsageStats Sample.refused Sample.start))
  = bothSends Sample.refused (tick Sample.start) ++ [Settle QuotaLimit].
Proof.
  assert (fetchingFails Sample.refused (tick Sample.start)) as Hfails.
  { left. exists AuthenticationFailed. reflexivity. }
  split; [exact Hfails|].
  destruct (at_most_one_request_per_endpoint Sample.refused Sample.start)
    as [_ Hfail].
  destruct (Hfail eq_refl eq_refl Hfails) as (_ & E & _).
  exact E.
Defined.

(** ** Requests in flight *)

Section InFlight.

Variable env : Env.

(** A call is its two parts run one after the other. *)
Lemma getUsageStats_two_parts (m : Machine) :
  getUsageStats env m = getUsageStats_in_two_parts env m.
Proof.
  unfold getUsageStats, getUsageStats_in_two_parts, getUsageStats_start,
    getUsageStats_resume, refresh, refresh_resume, fetchBoth.
  rewrite !bind_run. cbn [Date_now fst snd]. rewrite !bind_run.
  cbn [getThis fst snd this reads draws trace].
  assert (forall mm : Machine,
            this mm = this m ->
            try_catch
              (s <- getThis ;;
               if negb (JS.nonempty (apiKey s)) then getMockStats env
               else
                 both <-
                   (quotaPromise <- fetchQuotaLimit env ;;
                    modelUsagePromise <- fetchModelUsage env None None ;;
                    Promise_all2 env quotaPromise modelUsagePromise) ;;
                 let quotaData := fst both in
                 let modelUsageData := snd both in
                 setThis (set_lastQuotaData (Some quotaData)) ;;;
                 setThis (set_lastModelUsageData (Some modelUsageData)) ;;;
                 stats <- mapZaiToUsageStats env quotaData modelUsageData ;;
                 setThis (set_cachedStats (Some stats)) ;;;
                 setThis (set_lastUpdate (clock env (reads m))) ;;;
                 ret stats)
              (fallback env) mm
            = match
                (if negb (JS.nonempty (apiKey (this m))) then
                   r <- ending (try_catch (getMockStats env) (fallback env)) ;;
                   ret (Over r)
                 else
                   quotaPromise <- fetchQuotaLimit env ;;
                   modelUsagePromise <- fetchModelUsage env None None ;;
                   ret (Awaiting (clock env (reads m)) quotaPromise
                          modelUsagePromise)) mm
              with
              | (inr a, m') =>
                  match a with
                  | Over r => lift r
                  | Awaiting now quotaPromise modelUsagePromise =>
                      try_catch
                        (both <- Promise_all2 env quotaPromise
                                   modelUsagePromise ;;
                         let quotaData := fst both in
                         let modelUsageData := snd both in
                         setThis (set_lastQuotaData (Some quotaData)) ;;;
                         setThis (set_lastModelUsageData
                                    (Some modelUsageData)) ;;;
                         stats <- mapZaiToUsageStats env quotaData
                                    modelUsageData ;;
                         setThis (set_cachedStats (Some stats)) ;;;
                         setThis (set_lastUpdate now) ;;;
                         ret stats)
                        (fallback env)
                  end m'
              | (inl e, m') => (inl e, m')
              end) as Hstale.
  { intros mm Hmm. rewrite try_catch_run, !bind_run.
    cbn [getThis fst snd]. rewrite Hmm.
    destruct (JS.nonempty (apiKey (this m))); cbn [negb].
    - rewrite !bind_run.
      unfold fetchQuotaLimit at 1 2. rewrite !bind_run.
      cbn [getThis fst snd]. rewrite !bind_run.
      cbn [fetch_quota fst snd ret].
      unfold fetchModelUsage at 1 2. rewrite !bind_run.
      cbn [Date_now fst snd]. rewrite !bind_run.
      cbn [getThis fst snd]. rewrite !bind_run.
      cbn [fetch_modelUsage fst snd ret].
      rewrite try_catch_run, !bind_run. reflexivity.
    - rewrite !bind_run. unfold ending. cbn [fst snd ret lift].
      rewrite try_catch_run.
      destruct (getMockStats env mm) as [[e|s] m1]; [|reflexivity].
      cbn [fst snd]. destruct (fallback env e m1); reflexivity. }
  destruct (cachedStats (this m)) as [c|].
  - destruct (clock env (reads m) - lastUpdate (this m) <? CACHE_DURATION);
      [reflexivity|].
    apply Hstale. reflexivity.
  - apply Hstale. reflexivity.
Qed.

(** The first part sends nothing, or the two requests; it settles none. *)
Lemma getUsageStats_start_trace (m : Machine) :
  (exists r,
     fst (getUsageStats_start env m) = inr (Over r) /\
     trace (snd (getUsageStats_start env m)) = trace m) \/
  (exists now quotaPromise modelUsagePromise,
     fst (getUsageStats_start env m)
     = inr (Awaiting now quotaPromise modelUsagePromise) /\
     trace (snd (getUsageStats_start env m))
     = trace m ++ bothSends env (tick m)).
Proof.
  unfold getUsageStats_start. rewrite !bind_run.
  cbn [Date_now fst snd]. rewrite !bind_run.
  cbn [getThis fst snd this reads draws trace].
  fold (tick m).
  assert ((exists r,
             fst ((if negb (JS.nonempty (apiKey (this m))) then
                     r <- ending (try_catch (getMockStats env)
                                    (fallback env)) ;;
                     ret (Over r)
                   else
                     quotaPromise <- fetchQuotaLimit env ;;
                     modelUsagePromise <- fetchModelUsage env None None ;;
                     ret (Awaiting (clock env (reads m)) quotaPromise
                            modelUsagePromise)) (tick m)) = inr (Over r) /\
             trace (snd ((if negb (JS.nonempty (apiKey (this m))) then
                            r <- ending (try_catch (getMockStats env)
                                           (fallback env)) ;;
                            ret (Over r)
                          else
                            quotaPromise <- fetchQuotaLimit env ;;
                            modelUsagePromise <-
                              fetchModelUsage env None None ;;
                            ret (Awaiting (clock env (reads m)) quotaPromise
                                   modelUsagePromise)) (tick m)))
             = trace m) \/
          (exists now quotaPromise modelUsagePromise,
             fst ((if negb (JS.nonempty (apiKey (this m))) then
                     r <- ending (try_catch (getMockStats env)
                                    (fallback env)) ;;
                     ret (Over r)
                   else
                     quotaPromise <- fetchQuotaLimit env ;;
                     modelUsagePromise <- fetchModelUsage env None None ;;
                     ret (Awaiting (clock env (reads m)) quotaPromise
                            modelUsagePromise)) (tick m))
             = inr (Awaiting now quotaPromise modelUsagePromise) /\
             trace (snd ((if negb (JS.nonempty (apiKey (this m))) then
                            r <- ending (try_catch (getMockStats env)
                                           (fallback env)) ;;
                            ret (Over r)
                          else
                            quotaPromise <- fetchQuotaLimit env ;;
                            modelUsagePromise <-
                              fetchModelUsage env None None ;;
                            ret (Awaiting (clock env (reads m)) quotaPromise
                                   modelUsagePromise)) (tick m)))
             = trace m ++ bothSends env (tick m))) as Hstale.
  { destruct (JS.nonempty (apiKey (this m))); cbn [negb].
    - right.
      cbv [bind fetchQuotaLimit fetchModelUsage getThis Date_now fetch_quota
           fetch_modelUsage ret fst snd this reads draws trace tick bothSends].
      eexists _, _, _. split; [reflexivity|].
      rewrite <- app_assoc. reflexivity.
    - left. rewrite !bind_run. unfold ending. cbn [fst snd ret].
      eexists. split; [reflexivity|].
      rewrite try_catch_run.
      destruct (getMockStats env (tick m)) as [[e|s] m1] eqn:Hmock.
      + destruct (quiet_getMockStats env (tick m)) as [_ Htr].
        rewrite Hmock in Htr. cbn [snd] in Htr.
        rewrite fallback_run. destruct (cachedStats (this m1)); [exact Htr|].
        destruct (quiet_getMockStats env m1) as [_ Htr1].
        rewrite Htr1. exact Htr.
      + destruct (quiet_getMockStats env (tick m)) as [_ Htr].
        rewrite Hmock in Htr. exact Htr. }
  destruct (cachedStats (this m)) as [c|]; [|exact Hstale].
  destruct (clock env (reads m) - lastUpdate (this m) <? CACHE_DURATION);
    [|exact Hstale].
  left. eexists. split; reflexivity.
Qed.

(** [Promise.all] sends nothing. *)
Lemma Promise_all2_sends {A B} (p1 : Pending A) (p2 : Pending B)
    (m : Machine) :
  this (snd (Promise_all2 env p1 p2 m)) = this m /\
  exists new,
    trace (snd (Promise_all2 env p1 p2 m)) = trace m ++ new /\
    sends new = 0%nat.
Proof.
  unfold Promise_all2.
  destruct (Endpoint_eqb _ _);
    cbv [bind logEvent lift ret];
    destruct (settlesTo p1) as [e1|a], (settlesTo p2) as [e2|b];
    cbn [fst snd this reads draws trace];
    (split; [reflexivity|]);
    rewrite <- ?app_assoc;
    eexists; (split; [reflexivity|reflexivity]).
Qed.

(** The second part sends nothing. *)
Lemma getUsageStats_resume_sends (now : Z)
    (quotaPromise : Pending ZaiQuotaLimit.t)
    (modelUsagePromise : Pending ZaiModelUsageResponse.t) (m : Machine) :
  exists new,
    trace (snd (getUsageStats_resume env now quotaPromise modelUsagePromise m))
    = trace m ++ new /\
    sends new = 0%nat.
Proof.
  destruct (Promise_all2_sends quotaPromise modelUsagePromise m)
    as (_ & new & Hnew & Hsends).
  exists new. split; [|exact Hsends]. rewrite <- Hnew.
  unfold getUsageStats_resume, refresh_resume.
  rewrite try_catch_run, bind_run.
  assert (forall e mm, trace (snd (fallback env e mm)) = trace mm) as Hfb.
  { intros e mm. rewrite fallback_run.
    destruct (cachedStats (this mm)); [reflexivity|].
    apply quiet_getMockStats. }
  destruct (Promise_all2 env quotaPromise modelUsagePromise m)
    as [[e|both] m1]; cbn [fst snd]; [apply Hfb|].
  rewrite !bind_run. cbn [setThis fst snd]. rewrite !bind_run.
  cbn [setThis fst snd this reads draws trace]. rewrite !bind_run.
  match goal with
  | |- context [mapZaiToUsageStats env ?q ?u ?mm] =>
      destruct (quiet_mapZaiToUsageStats env q u mm) as [_ Hmap];
      destruct (mapZaiToUsageStats env q u mm) as [[e|s] m2]
  end; cbn [fst snd] in *.
  - rewrite Hfb. exact Hmap.
  - rewrite !bind_run. cbn [setThis fst snd]. rewrite !bind_run.
    cbn [setThis ret fst snd this reads draws trace]. exact Hmap.
Qed.

End InFlight.

(** The requests in flight never exceed those in flight at the start by
    more than the requests sent since. *)
Lemma inFlight_bounded_by_sends (tr : list Event) (k : Z) :
  Forall (fun n => n <= k + Z.of_nat (sends tr)) (inFlight_from k tr).
Proof.
  revert k. induction tr as [|ev tr IH]; intros k; simpl; [constructor|].
  destruct ev as [r|e]; simpl.
  - constructor; [lia|].
    eapply List.Forall_impl; [|apply IH]. intros n Hn. simpl in Hn. lia.
  - constructor; [lia|].
    eapply List.Forall_impl; [|apply IH]. intros n Hn. simpl in Hn. lia.
Qed.

Lemma sends_app (tr1 tr2 : list Event) :
  sends (tr1 ++ tr2) = (sends tr1 + sends tr2)%nat.
Proof.
  induction tr1 as [|[r|e] tr1 IH]; simpl; [reflexivity| |]; rewrite IH;
    reflexivity.
Qed.

(** A schedule of the poller sends at most two requests for each tick. *)
Lemma runPoller_sends (env : Env) (steps : list PollerStep) (p : Poller) :
  exists new,
    trace (machine (runPoller env steps p)) = trace (machine p) ++ new /\
    (sends new <= 2 * ticks steps)%nat.
Proof.
  revert p. induction steps as [|st steps IH]; intros p.
  - exists []. rewrite app_nil_r. split; [reflexivity|simpl; lia].
  - change (runPoller env (st :: steps) p)
      with (runPoller env steps (pollerStep env p st)).
    destruct (IH (pollerStep env p st)) as (new2 & Hnew2 & Hsends2).
    assert (exists new1,
              trace (machine (pollerStep env p st))
              = trace (machine p) ++ new1 /\
              (sends new1 <= match st with TickFires => 2 | _ => 0 end)%nat)
      as (new1 & Hnew1 & Hsends1).
    { destruct st as [|i]; cbn [pollerStep].
      - destruct (getUsageStats_start_trace env (machine p))
          as [(r & Hr & Htr)|(now & q & u & Hr & Htr)];
          destruct (getUsageStats_start env (machine p)) as [res m'];
          cbn [fst snd] in *; subst res; cbn [machine].
        + exists []. rewrite app_nil_r. split; [exact Htr|simpl; lia].
        + exists (bothSends env (tick (machine p))).
          split; [exact Htr|simpl; lia].
      - destruct (awaiting p !! i) as [[[now q] u]|].
        + cbn [machine].
          destruct (getUsageStats_resume_sends env now q u (machine p))
            as (new & Hnew & Hsends).
          exists new. split; [exact Hnew|lia].
        + exists []. rewrite app_nil_r. split; [reflexivity|simpl; lia]. }
    exists (new1 ++ new2). rewrite Hnew2, Hnew1, <- app_assoc.
    split; [reflexivity|]. rewrite sends_app.
    destruct st; simpl in *; lia.
Qed.

(** C6, as stated, fails twice over: a refresh has its two requests in
    flight at the same time; and the timer does not wait for a call to
    return, so when a second tick fires while the first call still waits
    for its requests, four are in flight. *)
Lemma two_requests_in_flight_at_once :
  ~ Forall (fun n => n <= 1)
      (inFlight (trace (snd (getUsageStats Sample.online Sample.start)))) /\
  inFlight
    (trace (machine (runPoller Sample.online [TickFires; TickFires]
                       (mkPoller Sample.start []))))
  = [1; 2; 3; 4].
Proof.
  split.
  - intros H. apply Forall_inv_tail, Forall_inv in H.
    vm_compute in H. apply H. reflexivity.
  - vm_compute. reflexivity.
Qed.

(** C6, as the code has it.  A call of [getUsageStats] sends its two
    requests together, before it awaits either, and sends nothing
    afterwards; so, counting the events of the call on top of [k] requests
    in flight when it starts, never more than [k + 2] are in flight, and
    the call sends none when the cache is fresh or there is no API key.
    When it returns, the call has left none of its requests in flight if
    both promises settled, and one if the promise that settled first was
    rejected.  The timer starts a call at every tick, whether or not the
    earlier calls have returned: whatever the schedule of ticks and
    resumptions, the requests in flight never exceed those at the start by
    more than two for each tick. *)
Theorem two_requests_in_flight_per_call (env : Env) :
  (forall (m : Machine) (k : Z),
     exists new,
       trace (snd (getUsageStats env m)) = trace m ++ new /\
       (new = [] \/ new = bothSends env (tick m) ++ settled env (tick m)) /\
       Forall (fun n => k <= n <= k + 2) (inFlight_from k new) /\
       (isFresh (this m) (clock env (reads m)) = true \/
        JS.nonempty (apiKey (this m)) = false -> new = []) /\
       (new = [] \/
        last (inFlight_from k new) = Some k /\
        length (settled env (tick m)) = 2%nat \/
        last (inFlight_from k new) = Some (k + 1) /\
        length (settled env (tick m)) = 1%nat /\
        fetchingFails env (tick m))) /\
  (forall m, getUsageStats env m = getUsageStats_in_two_parts env m) /\
  (forall (steps : list PollerStep) (p : Poller) (k : Z),
     exists new,
       trace (machine (runPoller env steps p)) = trace (machine p) ++ new /\
       (sends new <= 2 * ticks steps)%nat /\
       Forall (fun n => n <= k + 2 * Z.of_nat (ticks steps))
         (inFlight_from k new)).
Proof.
  split; [|split].
  - intros m k.
    destruct (getUsageStats_trace env m)
      as [_ [Htrace|(Hstale & Hkey & Htrace)]].
    + exists []. rewrite app_nil_r. split; [exact Htrace|].
      split; [left; reflexivity|]. split; [constructor|].
      split; [reflexivity|left; reflexivity].
    + exists (twoRequests env (tick m)). split; [exact Htrace|].
      split; [right; reflexivity|].
      unfold twoRequests, bothSends.
      split; [|split].
      * destruct (settled_cases env (tick m))
          as [[_ [[_ ->]|[_ ->]]]|[_ [[_ ->]|[_ ->]]]]; simpl;
          repeat constructor; lia.
      * intros [Hfresh|Hnokey]; congruence.
      * right.
        destruct (settled_cases env (tick m))
          as [[_ [[He ->]|[_ ->]]]|[_ [[He ->]|[_ ->]]]]; simpl.
        -- right. split; [f_equal; lia|]. split; [reflexivity|].
           left. exact He.
        -- left. split; [f_equal; lia|reflexivity].
        -- right. split; [f_equal; lia|]. split; [reflexivity|].
           right. exact He.
        -- left. split; [f_equal; lia|reflexivity].
  - apply getUsageStats_two_parts.
  - intros steps p k.
    destruct (runPoller_sends env steps p) as (new & Hnew & Hsends).
    exists new. split; [exact Hnew|]. split; [exact Hsends|].
    eapply List.Forall_impl; [|apply inFlight_bounded_by_sends].
    intros n Hn. simpl in Hn. lia.
Qed.

(** * Further properties *)

(** ** [getUsageStats]: every path *)

Lemma getUsageStats_stale_run (env : Env) (m : Machine) :
  isFresh (this m) (clock env (reads m)) = false ->
  exists r m1,
    Refreshed env (clock env (reads m)) (tick m) r m1 /\
    getUsageStats env m =
    match r with
    | inr s => (inr s, m1)
    | inl e => fallback env e m1
    end.
Proof.
  intros Hstale. rewrite (getUsageStats_stale env m Hstale), try_catch_run.
  destruct (refresh env (clock env (reads m)) (tick m)) as [r m1] eqn:Hr.
  exists r, m1. split; [apply refresh_cases, Hr|].
  destruct r; reflexivity.
Qed.

Lemma fallback_returns (env : Env) (e : Error) (m : Machine) :
  saneClock env ->
  exists s m',
    fallback env e m = (inr s, m') /\
    this m' = this m /\ trace m' = trace m /\
    match cachedStats (this m) with
    | Some c => s = c
    | None => isMock s
    end.
Proof.
  intros Hclock. rewrite fallback_run.
  destruct (cachedStats (this m)) as [c|].
  - exists c, m. auto.
  - destruct (getMockStats_returns env Hclock m) as (s & m' & Hrun & _).
    destruct (quiet_getMockStats env m) as [Hthis Htrace].
    rewrite Hrun in Hthis, Htrace. exists s, m'.
    split; [exact Hrun|]. split; [exact Hthis|]. split; [exact Htrace|].
    exact (getMockStats_isMock env _ _ _ Hrun).
Qed.

(** X1. With a clock in range, [getUsageStats] returns stats on every path:
    fresh cache, no key, failed fetch, failed mapping or success; the promise
    is never rejected. *)
Theorem getUsageStats_always_returns (env : Env) (m : Machine) :
  saneClock env ->
  exists s m', getUsageStats env m = (inr s, m').
Proof.
  intros Hclock.
  destruct (isFresh (this m) (clock env (reads m))) eqn:Hfresh.
  - apply isFresh_true in Hfresh as (c & Hc & Hnow).
    rewrite (getUsageStats_fresh env m c Hc Hnow). eauto.
  - destruct (getUsageStats_stale_run env m Hfresh) as (r & m1 & _ & ->).
    destruct r as [e|s]; [|eauto].
    destruct (fallback_returns env e m1 Hclock) as (s & m' & Hrun & _).
    eauto.
Qed.

Lemma getUsageStats_always_returns_witness :
  exists s m', getUsageStats Edge.onlineHuge Sample.start = (inr s, m').
Proof.
  apply (getUsageStats_always_returns Edge.onlineHuge Sample.start).
  apply sample_clock_is_sane.
Defined.

Lemma isFresh_without_cache (s : ZAIService) (now : Z) :
  cachedStats s = None -> isFresh s now = false.
Proof. unfold isFresh. intros ->. reflexivity. Qed.

Lemma keyless_call (env : Env) (m : Machine) :
  saneClock env ->
  JS.nonempty (apiKey (this m)) = false ->
  cachedStats (this m) = None ->
  exists s m',
    getUsageStats env m = (inr s, m') /\
    isMock s /\ this m' = this m /\ trace m' = trace m.
Proof.
  intros Hclock Hkey Hnone.
  pose proof (isFresh_without_cache _ (clock env (reads m)) Hnone) as Hstale.
  rewrite (getUsageStats_stale env m Hstale), try_catch_run.
  assert (refresh env (clock env (reads m)) (tick m) = getMockStats env (tick m))
    as ->.
  { unfold refresh, bind, getThis. change (this (tick m)) with (this m).
    rewrite Hkey. reflexivity. }
  destruct (getMockStats_returns env Hclock (tick m)) as (s & m' & Hrun & _).
  destruct (quiet_getMockStats env (tick m)) as [Hthis Htrace].
  rewrite Hrun in *. simpl in Hthis, Htrace.
  exists s, m'. split; [reflexivity|].
  split; [exact (getMockStats_isMock env _ _ _ Hrun)|]. auto.
Qed.

(** X2. Without an API key the service never touches the network and never
    caches: a call returns mock stats and leaves the service object and the
    trace as they were, and so does any number of calls. *)
Theorem without_a_key_nothing_is_fetched (env : Env) (n : nat) (m : Machine) :
  saneClock env ->
  JS.nonempty (apiKey (this m)) = false ->
  cachedStats (this m) = None ->
  (exists s m',
     getUsageStats env m = (inr s, m') /\
     isMock s /\ this m' = this m /\ trace m' = trace m) /\
  this (afterCalls env n m) = this m /\
  trace (afterCalls env n m) = trace m.
Proof.
  intros Hclock Hkey Hnone. split; [apply keyless_call; assumption|].
  revert m Hkey Hnone. induction n as [|k IH]; intros m Hkey Hnone; simpl.
  - split; reflexivity.
  - destruct (keyless_call env m Hclock Hkey Hnone)
      as (s & m' & Hrun & _ & Hthis & Htrace).
    rewrite Hrun. simpl. rewrite <- Hthis, <- Htrace.
    apply IH; rewrite Hthis; assumption.
Qed.

Lemma without_a_key_nothing_is_fetched_witness :
  trace (afterCalls Sample.online 3 Edge.keyless) = [] /\
  cachedStats (this (afterCalls Sample.online 3 Edge.keyless)) = None.
Proof.
  destruct (without_a_key_nothing_is_fetched Sample.online 3 Edge.keyless
              (sample_clock_is_sane _ _) eq_refl eq_refl)
    as (_ & Hthis & Htrace).
  split; [exact Htrace|]. rewrite Hthis. reflexivity.
Defined.

Lemma stale_call_with_key (env : Env) (m : Machine) :
  isFresh (this m) (clock env (reads m)) = false ->
  JS.nonempty (apiKey (this m)) = true ->
  trace (snd (getUsageStats env m)) = trace m ++ twoRequests env (tick m) /\
  apiKey (this (snd (getUsageStats env m))) = apiKey (this m).
Proof.
  intros Hstale Hkey.
  destruct (getUsageStats_stale_run env m Hstale) as (r & m1 & Hr & ->).
  apply Refreshed_effects in Hr as (Hk & _ & Htrace).
  change (this (tick m)) with (this m) in *.
  change (trace (tick m)) with (trace m) in *.
  destruct Htrace as [[Hno _]|[_ Htrace]]; [congruence|].
  destruct r as [e|s]; [|auto].
  rewrite fallback_run. destruct (cachedStats (this m1)); [auto|].
  destruct (quiet_getMockStats env m1) as [-> ->]. auto.
Qed.

(** X3. The cache expires at 30000 ms exactly: with a key set, a call made
    30000 ms or more after [lastUpdate] is not served from the cache,
    whatever is cached: it sends the two requests, both before either
    settles, and no other; what follows in the trace is the settling of
    the promise that settles first, and of the other one unless the first
    rejects. *)
Theorem expired_cache_is_refetched (env : Env) (m : Machine) :
  JS.nonempty (apiKey (this m)) = true ->
  30000 <= clock env (reads m) - lastUpdate (this m) ->
  isFresh (this m) (clock env (reads m)) = false /\
  trace (snd (getUsageStats env m))
  = trace m ++ bothSends env (tick m) ++ settled env (tick m) /\
  sends (settled env (tick m)) = 0%nat /\
  (1 <= length (settled env (tick m)) <= 2)%nat.
Proof.
  intros Hkey Hold.
  assert (isFresh (this m) (clock env (reads m)) = false) as Hstale.
  { unfold isFresh. destruct (cachedStats (this m)); [|reflexivity].
    apply Z.ltb_ge. exact Hold. }
  split; [exact Hstale|]. split.
  - apply stale_call_with_key; assumption.
  - destruct (settled_cases env (tick m))
      as [[_ [[_ ->]|[_ ->]]]|[_ [[_ ->]|[_ ->]]]]; simpl; lia.
Qed.

Lemma expired_cache_is_refetched_witness :
  trace (snd (getUsageStats Sample.online Sample.start))
  = bothSends Sample.online (tick Sample.start)
    ++ [Settle QuotaLimit; Settle ModelUsage].
Proof.
  destruct (expired_cache_is_refetched Sample.online Sample.start eq_refl)
    as (_ & Htrace & _).
  - vm_compute. discriminate.
  - exact Htrace.
Defined.

Lemma failed_fetch_run (env : Env) (m : Machine) :
  isFresh (this m) (clock env (reads m)) = false ->
  JS.nonempty (apiKey (this m)) = true ->
  fetchingFails env (tick m) ->
  exists e,
    getUsageStats env m = fallback env e (snd (fetchBoth env (tick m))) /\
    this (snd (fetchBoth env (tick m))) = this m.
Proof.
  intros Hstale Hkey Hfails.
  apply (settleBoth_fails (usageSettlesFirst env (tick m))) in Hfails
    as [e He].
  pose proof (fetchBoth_run env (tick m)) as Hfetch. rewrite He in Hfetch.
  destruct (getUsageStats_stale_run env m Hstale) as (r & m1 & Hr & ->).
  destruct Hr as [r' m1 Hkey' _|e' m1 _ Hfetch'|q u m0 e' m1 _ Hfetch' _
                 |q u m0 s m2 _ Hfetch' _];
    try (simpl in Hkey'; congruence); try congruence.
  exists e'. rewrite Hfetch'. simpl. split; [reflexivity|].
  apply (fetchBoth_this env _ _ _ Hfetch').
Qed.

(** X4. [updateConfiguration] drops the cached stats and nothing else.  The
    next call is then never served from the cache, even within 30 seconds of
    the last refresh: with a key it sends the two requests (followed in the
    trace by the settling that [Promise.all] saw), and if the fetch fails
    it returns mock stats, the stale value being gone. *)
Theorem updateConfiguration_forgets_the_cache (env : Env) (m : Machine) :
  let m1 := snd (updateConfiguration m) in
  (cachedStats (this m1) = None /\
   apiKey (this m1) = apiKey (this m) /\
   lastUpdate (this m1) = lastUpdate (this m) /\
   trace m1 = trace m /\
   forall now, isFresh (this m1) now = false) /\
  (JS.nonempty (apiKey (this m)) = true ->
   trace (snd (getUsageStats env m1))
   = trace m ++ bothSends env (tick m1) ++ settled env (tick m1)) /\
  (JS.nonempty (apiKey (this m)) = true ->
   saneClock env ->
   fetchingFails env (tick m1) ->
   exists s m', getUsageStats env m1 = (inr s, m') /\ isMock s).
Proof.
  intros m1. subst m1. split; [|split].
  - repeat split.
  - intros Hkey. apply (stale_call_with_key env (snd (updateConfiguration m)));
      [reflexivity|exact Hkey].
  - intros Hkey Hclock Hfails.
    destruct (failed_fetch_run env (snd (updateConfiguration m)))
      as (e & -> & Hthis); [reflexivity|exact Hkey|exact Hfails|].
    destruct (fallback_returns env e
                (snd (fetchBoth env (tick (snd (updateConfiguration m)))))
                Hclock) as (s & m' & Hrun & _ & _ & Hs).
    rewrite Hthis in Hs. exists s, m'. split; [exact Hrun|exact Hs].
Qed.

Lemma updateConfiguration_forgets_the_cache_witness :
  exists s1 m1 s2 m2,
    getUsageStats Sample.online Sample.start = (inr s1, m1) /\
    cachedStats (this m1) = Some s1 /\
    getUsageStats Sample.refused (snd (updateConfiguration m1)) = (inr s2, m2) /\
    isMock s2.
Proof.
  destruct (getUsageStats Sample.online Sample.start) as [r m1] eqn:Hrun.
  assert (exists s1, r = inr s1 /\ cachedStats (this m1) = Some s1
                     /\ apiKey (this m1) = "secret") as (s1 & -> & Hc & Hk).
  { vm_compute in Hrun. injection Hrun as <- <-. eexists. repeat split. }
  destruct (updateConfiguration_forgets_the_cache Sample.refused m1)
    as (_ & _ & Hfail).
  destruct Hfail as (s2 & m2 & Hrun2 & Hmock).
  - rewrite Hk. reflexivity.
  - apply sample_clock_is_sane.
  - left. exists AuthenticationFailed. reflexivity.
  - exists s1, m1, s2, m2. auto.
Defined.

(** X5. When both fetches succeed but the mapping throws (the depletion date
    is out of range), the call still returns: the cached stats, else mock
    stats.  The two responses are already stored in [lastQuotaData] and
    [lastModelUsageData]; [cachedStats] and [lastUpdate] are untouched. *)
Theorem mapping_failure_keeps_the_cache (env : Env) (m m2 : Machine)
    (q : ZaiQuotaLimit.t) (u : ZaiModelUsageResponse.t) (e : Error) :
  saneClock env ->
  JS.nonempty (apiKey (this m)) = true ->
  isFresh (this m) (clock env (reads m)) = false ->
  quotaAnswer env (tick m) = inr q ->
  modelUsageAnswer env (tick m) = inr u ->
  mapZaiToUsageStats env q u (stored q u (snd (fetchBoth env (tick m))))
  = (inl e, m2) ->
  exists s m',
    getUsageStats env m = (inr s, m') /\
    match cachedStats (this m) with
    | Some c => s = c
    | None => isMock s
    end /\
    cachedStats (this m') = cachedStats (this m) /\
    lastUpdate (this m') = lastUpdate (this m) /\
    lastQuotaData (this m') = Some q /\
    lastModelUsageData (this m') = Some u.
Proof.
  intros Hclock Hkey Hstale Hq Hu Hmap.
  pose proof (fetchBoth_run env (tick m)) as Hfetch.
  rewrite Hq, Hu, settleBoth_both in Hfetch.
  destruct (fetchBoth env (tick m)) as [rf mf] eqn:Hf.
  injection Hfetch as -> Emf. cbn [snd] in Hmap.
  destruct (fetchBoth_this env _ _ _ Hf) as [Hthisf _].
  change (this (tick m)) with (this m) in Hthisf.
  destruct (getUsageStats_stale_run env m Hstale) as (r & m1 & Hr & ->).
  destruct Hr as [r' m1 Hkey' _|e' m1 _ Hfetch'|q' u' m0 e' m1 _ Hfetch' Hmap'
                 |q' u' m0 s m3 _ Hfetch' Hmap'];
    try (simpl in Hkey'; congruence); try congruence.
  assert (q' = q /\ u' = u /\ m0 = mf) as (-> & -> & ->)
    by (repeat split; congruence).
  assert (m1 = m2 /\ e' = e) as (-> & ->) by (split; congruence).
    destruct (quiet_mapZaiToUsageStats env q u (stored q u mf)) as [Hthis _].
    rewrite Hmap in Hthis. cbn [snd] in Hthis.
    destruct (fallback_returns env e m2 Hclock)
      as (s & m' & Hrun & Hsame & _ & Hs).
    assert (cachedStats (this m2) = cachedStats (this m)) as Hc2.
    { rewrite Hthis. unfold stored. simpl. rewrite Hthisf. reflexivity. }
    exists s, m'. rewrite Hsame, Hthis. rewrite Hc2 in Hs.
    unfold stored. simpl. rewrite Hthisf. repeat split; auto.
Qed.

Lemma mapping_failure_keeps_the_cache_witness :
  mapZaiToUsageStats Edge.onlineHuge Edge.hugeLimit Edge.oneToken
    (stored Edge.hugeLimit Edge.oneToken
       (snd (fetchBoth Edge.onlineHuge (tick Sample.start))))
  = (inl InvalidTimeValue,
     snd (mapZaiToUsageStats Edge.onlineHuge Edge.hugeLimit Edge.oneToken
            (stored Edge.hugeLimit Edge.oneToken
               (snd (fetchBoth Edge.onlineHuge (tick Sample.start)))))) /\
  exists s m',
    getUsageStats Edge.onlineHuge Sample.start = (inr s, m') /\
    isMock s /\ cachedStats (this m') = None /\
    lastQuotaData (this m') = Some Edge.hugeLimit.
Proof.
  assert (mapZaiToUsageStats Edge.onlineHuge Edge.hugeLimit Edge.oneToken
            (stored Edge.hugeLimit Edge.oneToken
               (snd (fetchBoth Edge.onlineHuge (tick Sample.start))))
          = (inl InvalidTimeValue,
             snd (mapZaiToUsageStats Edge.onlineHuge Edge.hugeLimit
                    Edge.oneToken
                    (stored Edge.hugeLimit Edge.oneToken
                       (snd (fetchBoth Edge.onlineHuge (tick Sample.start)))))))
    as Hmap by (vm_compute; reflexivity).
  split; [exact Hmap|].
  destruct (mapping_failure_keeps_the_cache Edge.onlineHuge Sample.start _
              Edge.hugeLimit Edge.oneToken InvalidTimeValue
              (sample_clock_is_sane _ _) eq_refl eq_refl eq_refl eq_refl Hmap)
    as (s & m' & Hrun & Hs & Hc & _ & Hq & _).
  exists s, m'. auto.
Defined.

(** ** The model-usage request *)

Ltac open_cases :=
  repeat match goal with
         | H : exists _, _ |- _ => destruct H
         | H : _ /\ _ |- _ => destruct H
         | H : _ \/ _ |- _ => destruct H
         end;
  simplify_eq; simpl in *; try congruence.

(** X6. [fetchModelUsage] returns exactly when the response is ok and the
    body has [success] true and a [data] object; what it returns is the body
    itself.  A status of 401 or 403 gives the authentication error, 429 the
    rate-limit error, any other status outside 200-299 the status error, and
    a body without [success] or [data] the invalid-response error. *)
Theorem fetchModelUsage_returns_iff (o : FetchOutcome ZaiModelUsageBody.t) :
  (forall r,
     fetchModelUsage_response o = inr r <->
     exists status body,
       o = Responded status (Some body) /\
       ok status = true /\
       ZaiModelUsageBody.success body = true /\
       ZaiModelUsageBody.data body = Some (ZaiModelUsageResponse.data r) /\
       ZaiModelUsageResponse.code r = ZaiModelUsageBody.code body /\
       ZaiModelUsageResponse.success r = true) /\
  (fetchModelUsage_response o = inl AuthenticationFailed <->
   exists body, o = Responded 401 body \/ o = Responded 403 body) /\
  (fetchModelUsage_response o = inl RateLimitExceeded <->
   exists body, o = Responded 429 body) /\
  (forall status,
     fetchModelUsage_response o = inl (RequestFailed status) <->
     exists body,
       o = Responded status body /\ ok status = false /\
       status <> 401 /\ status <> 403 /\ status <> 429) /\
  (fetchModelUsage_response o = inl InvalidModelUsageResponse <->
   exists status body,
     o = Responded status (Some body) /\ ok status = true /\
     (ZaiModelUsageBody.success body = false \/
      ZaiModelUsageBody.data body = None)).
Proof.
  assert (forall status, ok status = true ->
            status <> 401 /\ status <> 403 /\ status <> 429) as Hrange.
  { intros status Hok. unfold ok in Hok.
    apply andb_true_iff in Hok as [Ha Hb]. apply Z.leb_le in Ha, Hb. lia. }
  unfold fetchModelUsage_response.
  destruct o as [reason|status body].
  { repeat split; intros; open_cases. }
  destruct (ok status) eqn:Hok; cbn [negb].
  - destruct (Hrange status Hok) as (H1 & H3 & H9).
    destruct body as [body|]; [|repeat split; intros; open_cases].
    destruct (ZaiModelUsageBody.success body) eqn:Hs; cbn [negb].
    2:{ repeat split; intros; open_cases. exists status, body. repeat split; auto. }
    destruct (ZaiModelUsageBody.data body) as [d|] eqn:Hd.
    2:{ repeat split; intros; open_cases. exists status, body. repeat split; auto. }
    repeat split; intros; open_cases.
    + exists status, body. repeat split; auto.
    + destruct r as [c d' s']. simpl in *. congruence.
  - destruct (status =? 401) eqn:E1; cbn [orb].
    { apply Z.eqb_eq in E1 as ->. repeat split; intros; open_cases; eauto. }
    destruct (status =? 403) eqn:E3; cbn [orb].
    { apply Z.eqb_eq in E3 as ->. repeat split; intros; open_cases; eauto. }
    apply Z.eqb_neq in E1, E3.
    destruct (status =? 429) eqn:E9.
    { apply Z.eqb_eq in E9 as ->. repeat split; intros; open_cases; eauto. }
    apply Z.eqb_neq in E9.
    repeat split; intros; open_cases; eauto.
    exists body. auto.
Qed.

(** ** Velocity and prediction *)

Section MoreNumberFacts.

Local Open Scope Q_scope.

Lemma gt_false_iff (a b : JS.number) : JS.gt a b = false <-> a <= b.
Proof.
  unfold JS.gt, JS.lt. rewrite negb_false_iff. apply Qle_bool_iff.
Qed.

Lemma ge_true_iff (a b : JS.number) : JS.ge a b = true <-> b <= a.
Proof. unfold JS.ge, JS.le. apply Qle_bool_iff. Qed.

Lemma le_true_iff (a b : JS.number) : JS.le a b = true <-> a <= b.
Proof. unfold JS.le. apply Qle_bool_iff. Qed.

Lemma inject_Z_nonneg (z : Z) : (0 <= z)%Z -> 0 <= inject_Z z.
Proof. intros Hz. unfold Qle. simpl. lia. Qed.

Lemma round_mono (a b : JS.number) :
  a <= b -> JS.Math_round a <= JS.Math_round b.
Proof.
  intros Hab. unfold JS.Math_round. rewrite <- Zle_Qle.
  apply Qfloor_resp_le. apply Qplus_le_compat; [exact Hab|apply Qle_refl].
Qed.

Lemma round_nonneg (a : JS.number) : 0 <= a -> 0 <= JS.Math_round a.
Proof. intros Ha. apply (round_mono 0 a Ha). Qed.

Lemma round_eq (a b : JS.number) : a == b -> JS.Math_round a = JS.Math_round b.
Proof.
  intros Hab. unfold JS.Math_round. f_equal. apply Qfloor_comp.
  rewrite Hab. reflexivity.
Qed.

Lemma floor_mono (a b : JS.number) :
  a <= b -> JS.Math_floor a <= JS.Math_floor b.
Proof.
  intros Hab. unfold JS.Math_floor. rewrite <- Zle_Qle.
  apply Qfloor_resp_le, Hab.
Qed.

Lemma floor_le (a : JS.number) : JS.Math_floor a <= a.
Proof. apply Qfloor_le. Qed.

Lemma max_zero_nonneg (a : JS.number) : 0 <= JS.Math_max 0 a.
Proof. apply Q.le_max_l. Qed.

Lemma div_nonneg (a b : JS.number) : 0 <= a -> 0 < b -> 0 <= a / b.
Proof.
  intros Ha Hb. apply Qle_shift_div_l; [exact Hb|].
  rewrite Qmult_0_l. exact Ha.
Qed.

Lemma div_by_at_least_one (a b : JS.number) : 0 <= a -> 1 <= b -> a / b <= a.
Proof.
  intros Ha Hb. apply Qle_shift_div_r.
  - apply Qlt_le_trans with 1; [reflexivity|exact Hb].
  - rewrite <- (Qmult_1_r a) at 1. rewrite (Qmult_comm a b), (Qmult_comm a 1).
    apply Qmult_le_compat_r; assumption.
Qed.

End MoreNumberFacts.

(** X7. The rates of a velocity are ordered and never negative:
    [0 <= average7d <= current], and [peakHour] is 14.  They are all zero
    when there are no hourly points or no positive token total; with 1 to 24
    hourly points the current rate is the rounded token total. *)
Theorem velocity_rates_are_ordered (modelUsage : ZaiModelUsageResponse.t) :
  let v := calculateVelocityFromModelUsage modelUsage in
  let hours :=
    ZaiModelUsageData.x_time_or_empty (ZaiModelUsageResponse.data modelUsage) in
  let total :=
    ZaiModelUsageData.totalTokensUsage_or_0
      (ZaiModelUsageResponse.data modelUsage) in
  (0 <= VelocityInfo.average7d v)%Q /\
  (VelocityInfo.average7d v <= VelocityInfo.current v)%Q /\
  VelocityInfo.peakHour v = 14%Q /\
  (hours = [] \/ (total <= 0)%Q ->
   VelocityInfo.current v = 0%Q /\ VelocityInfo.average7d v = 0%Q) /\
  ((0 < length hours <= 24)%nat -> (0 < total)%Q ->
   VelocityInfo.current v = JS.Math_round total).
Proof.
  intros v hours total. subst v.
  unfold calculateVelocityFromModelUsage. cbv zeta.
  fold hours. fold total.
  set (len := inject_Z (Z.of_nat (length hours))).
  cbn [VelocityInfo.average7d VelocityInfo.current VelocityInfo.peakHour].
  destruct (JS.gt len 0 && (JS.gt total 0 && JS.gt len 0)) eqn:Hhit.
  - apply andb_true_iff in Hhit as [Hlen Hhit].
    apply andb_true_iff in Hhit as [Htotal _].
    apply gt_true in Hlen, Htotal.
    set (c := (total / JS.Math_max 1 (len / 24))%Q).
    assert (0 <= c)%Q as Hc.
    { apply div_nonneg; [apply Qlt_le_weak, Htotal|].
      apply Qlt_le_trans with 1%Q; [reflexivity|apply Q.le_max_l]. }
    split; [|split; [|split; [|split]]].
    + apply round_nonneg. apply Qmult_le_0_compat; [exact Hc|discriminate].
    + apply round_mono. rewrite <- (Qmult_1_r c) at 2.
      rewrite (Qmult_comm c (8 # 10)), (Qmult_comm c 1).
      apply Qmult_le_compat_r; [discriminate|exact Hc].
    + reflexivity.
    + intros [Hnil|Hle].
      * exfalso. subst len. rewrite Hnil in Hlen. discriminate.
      * exfalso. exact (Qlt_not_le _ _ Htotal Hle).
    + intros [_ H24] _. apply round_eq. subst c.
      assert (JS.Math_max 1 (len / 24) == 1)%Q as ->.
      { apply Q.max_l. apply Qle_shift_div_r; [reflexivity|].
        subst len. unfold Qle. simpl. lia. }
      unfold Qdiv. change (/ 1)%Q with 1%Q. apply Qmult_1_r.
  - split; [|split; [|split; [|split]]]; try (vm_compute; discriminate).
    + reflexivity.
    + intros _. split; reflexivity.
    + intros [Hpos _] Htotal. exfalso.
      apply andb_false_iff in Hhit as [Hlen|Hhit].
      * apply gt_false_iff in Hlen. subst len.
        unfold Qle in Hlen. simpl in Hlen. lia.
      * apply andb_false_iff in Hhit as [Ht|Hlen].
        -- apply gt_false_iff in Ht. exact (Qlt_not_le _ _ Htotal Ht).
        -- apply gt_false_iff in Hlen. subst len.
           unfold Qle in Hlen. simpl in Hlen. lia.
Qed.

Lemma velocity_rates_are_ordered_witness :
  VelocityInfo.current
    (calculateVelocityFromModelUsage (Sample.usageOf 4801%Q)) = 4801%Q.
Proof.
  destruct (velocity_rates_are_ordered (Sample.usageOf 4801%Q))
    as (_ & _ & _ & _ & Hcur).
  rewrite Hcur; [reflexivity|simpl; lia|reflexivity].
Defined.

(** Where the exact rate and the code's differ: 35 tokens over 112 hourly
    points are 7.5 an hour, rounded to 8; in doubles the quotient is just
    below 7.5 and is rounded to 7. *)
Lemma velocity_rounding_of_a_quotient :
  VelocityInfo.current
    (calculateVelocityFromModelUsage
       (ZaiModelUsageResponse.mk 200%Q
          (ZaiModelUsageData.mk (Some (1%Q, 35%Q))
             (Some (repeat "2023-11-14 09:00:00" 112))) true)) = 8%Q /\
  Double.VelocityInfo.current
    (Double.calculateVelocityFromModelUsage
       (Some (repeat "2023-11-14 09:00:00" 112)) (Some (Double.ofZ 35)))
  = Double.ofZ 7.
Proof. split; vm_compute; reflexivity. Qed.

(** What [calculatePredictionInfo] does, by cases on the current rate and
    on the depletion date. *)
Lemma calculatePredictionInfo_run (env : Env) (used limit : JS.number)
    (v : VelocityInfo.t) (r : ResetTimeInfo.t) (m : Machine) :
  let rem := tokensLeft used limit in
  let untilReset := (ResetTimeInfo.timeUntilReset r / (1000 * 60 * 60))%Q in
  let rdl :=
    if JS.gt untilReset 24
    then JS.Math_floor (rem / (untilReset / 24))
    else rem in
  let result (depletionTime : option string) (days : JS.number) :=
    PredictionInfo.mk depletionTime (confidenceOf v)
      (JS.Math_round (days * 10) / 10)%Q rdl
      (JS.gt rem 0 && JS.ge days (untilReset / 24)) in
  calculatePredictionInfo env used limit v r m =
  if JS.gt (VelocityInfo.current v) 0 then
    match depletionDate (clock env (reads m)) used limit v with
    | Some t =>
        (inr (result (Some (toISOString env t))
                (rem / VelocityInfo.current v / 24)%Q), tick m)
    | None => (inl InvalidTimeValue, tick m)
    end
  else (inr (result None 0%Q), m).
Proof.
  intros rem untilReset rdl result. subst result rdl untilReset rem.
  unfold calculatePredictionInfo, depletionDate, tokensLeft, confidenceOf,
    bind, Date_now, Date_toISOString, ret, throw, tick.
  destruct (JS.gt (VelocityInfo.current v) 0) eqn:Hcur.
  - cbn [fst snd this reads draws trace].
    destruct (JS.Date_ofNumber _) as [t|]; cbn [fst snd]; [|reflexivity].
    destruct (JS.gt (VelocityInfo.average24h v) 0); cbn [andb];
      [|reflexivity].
    destruct (JS.gt (JS.Math_abs (VelocityInfo.trendPercent v)) 50);
      reflexivity.
  - cbn [fst snd andb]. reflexivity.
Qed.

(** X8. The confidence of a prediction is 50, 60 or 80: 50 unless both the
    current rate and the 24-hour average are positive, then 60 when the
    trend is above 50 percent either way and 80 otherwise.  The cap of 95
    is never reached. *)
Theorem prediction_confidence_values (env : Env) (used limit : JS.number)
    (v : VelocityInfo.t) (r : ResetTimeInfo.t) (m m' : Machine)
    (p : PredictionInfo.t) :
  calculatePredictionInfo env used limit v r m = (inr p, m') ->
  PredictionInfo.confidence p = confidenceOf v /\
  (PredictionInfo.confidence p = 50%Q \/
   PredictionInfo.confidence p = 60%Q \/
   PredictionInfo.confidence p = 80%Q) /\
  (PredictionInfo.confidence p < 95)%Q.
Proof.
  rewrite calculatePredictionInfo_run. cbv zeta.
  assert (confidenceOf v = 50%Q \/ confidenceOf v = 60%Q \/
          confidenceOf v = 80%Q) as Hc.
  { unfold confidenceOf.
    destruct (_ && _); [destruct (JS.gt _ 50)|]; auto. }
  intros Hrun.
  assert (PredictionInfo.confidence p = confidenceOf v) as Hp.
  { destruct (JS.gt (VelocityInfo.current v) 0);
      [destruct (depletionDate _ _ _ _)|];
      try discriminate; injection Hrun as <- _; reflexivity. }
  rewrite Hp. split; [reflexivity|]. split; [exact Hc|].
  destruct Hc as [-> |[-> | ->]]; reflexivity.
Qed.

Lemma prediction_confidence_values_witness :
  exists p m',
    calculatePredictionInfo Sample.online 10%Q 100%Q
      (calculateVelocityFromModelUsage (Sample.usageOf 4801%Q))
      Sample.resetInfo Sample.start = (inr p, m') /\
    PredictionInfo.confidence p = 80%Q.
Proof.
  destruct (calculatePredictionInfo Sample.online 10%Q 100%Q
              (calculateVelocityFromModelUsage (Sample.usageOf 4801%Q))
              Sample.resetInfo Sample.start) as [r m'] eqn:Hrun.
  assert (exists p, r = inr p) as [p ->].
  { vm_compute in Hrun. injection Hrun as <- _. eexists. reflexivity. }
  exists p, m'. split; [reflexivity|].
  destruct (prediction_confidence_values _ _ _ _ _ _ _ _ Hrun) as (-> & _).
  reflexivity.
Defined.

Lemma truncate_ge (n : Z) (a : JS.number) :
  (inject_Z n <= a)%Q -> n <= JS.truncate a.
Proof.
  intros H. unfold JS.truncate. destruct (Qle_bool 0 a).
  - rewrite <- (Qfloor_Z n). apply Qfloor_resp_le, H.
  - rewrite Zle_Qle. apply Qle_trans with a; [exact H|apply Qle_ceiling].
Qed.

Lemma truncate_le (n : Z) (a : JS.number) :
  (a <= inject_Z n)%Q -> JS.truncate a <= n.
Proof.
  intros H. unfold JS.truncate. destruct (Qle_bool 0 a).
  - rewrite Zle_Qle. apply Qle_trans with a; [apply Qfloor_le|exact H].
  - rewrite <- (Qceiling_Z n). apply Qceiling_resp_le, H.
Qed.

(** X9. A prediction has no depletion time exactly when the current rate is
    not positive; it then reads no clock and estimates 0 days.  With a
    positive rate the clock is read once, and the call either throws (the
    depletion date is out of the range of dates) or gives as depletion time
    the ISO form of a date that is not before the clock's reading, and is
    the clock's reading when the use has reached the limit. *)
Theorem prediction_depletion_time (env : Env) (used limit : JS.number)
    (v : VelocityInfo.t) (r : ResetTimeInfo.t) (m : Machine) :
  let run := calculatePredictionInfo env used limit v r m in
  let now := clock env (reads m) in
  ((VelocityInfo.current v <= 0)%Q ->
   exists p,
     run = (inr p, m) /\
     PredictionInfo.depletionTime p = None /\
     (PredictionInfo.daysRemaining p == 0)%Q) /\
  ((0 < VelocityInfo.current v)%Q ->
   snd run = tick m /\
   (fst run = inl InvalidTimeValue \/
    exists p t,
      fst run = inr p /\
      PredictionInfo.depletionTime p = Some (toISOString env t) /\
      now <= t /\
      ((limit <= used)%Q -> t = now))).
Proof.
  intros run now. subst run. rewrite calculatePredictionInfo_run. cbv zeta.
  split.
  - intros Hcur. apply gt_false_iff in Hcur. rewrite Hcur.
    eexists. split; [reflexivity|]. split; reflexivity.
  - intros Hcur. pose proof Hcur as Hgt. apply gt_true in Hgt. rewrite Hgt.
    destruct (depletionDate _ _ _ _) as [t|] eqn:Hdate; simpl.
    + split; [reflexivity|]. right. eexists. exists t.
      split; [reflexivity|]. split; [reflexivity|].
      unfold depletionDate, JS.Date_ofNumber in Hdate. fold now in Hdate.
      destruct (Qle_bool _ _); [|discriminate]. injection Hdate as <-.
      pose proof (max_zero_nonneg (limit - used)%Q) as Hrem.
      fold (tokensLeft used limit) in Hrem.
      pose proof (div_nonneg _ _ Hrem Hcur) as Hhours.
      split.
      * apply truncate_ge. nra.
      * intros Hover.
        assert (tokensLeft used limit == 0)%Q as Hzero.
        { unfold tokensLeft, JS.Math_max. apply Q.max_l. lra. }
        assert (tokensLeft used limit / VelocityInfo.current v == 0)%Q
          as Hnone.
        { rewrite Hzero. unfold Qdiv. apply Qmult_0_l. }
        apply Z.le_antisymm; [apply truncate_le|apply truncate_ge];
          rewrite Hnone; lra.
    + split; [reflexivity|]. left. reflexivity.
Qed.

Lemma prediction_depletion_time_witness :
  exists p,
    fst (calculatePredictionInfo Sample.online 10%Q 100%Q
           (calculateVelocityFromModelUsage (Sample.usageOf 4801%Q))
           Sample.resetInfo Sample.start) = inr p /\
    exists t,
      PredictionInfo.depletionTime p = Some (toISOString Sample.online t) /\
      clock Sample.online (reads Sample.start) <= t.
Proof.
  destruct (prediction_depletion_time Sample.online 10%Q 100%Q
              (calculateVelocityFromModelUsage (Sample.usageOf 4801%Q))
              Sample.resetInfo Sample.start) as [_ Hpos].
  destruct Hpos as [_ [Hthrow|(p & t & Hrun & Htime & Hlater & _)]];
    [reflexivity|vm_compute in Hthrow; discriminate|].
  exists p. split; [exact Hrun|]. exists t. split; assumption.
Defined.

(** *** Over the limit, in doubles *)

Section Doubles.

Import SpecFloat.

Lemma shr_1_nonneg (mrs : shr_record) :
  0 <= shr_m mrs -> 0 <= shr_m (shr_1 mrs).
Proof.
  destruct mrs as [m r s]. simpl. intros H.
  destruct m as [|[p|p|]|p]; simpl; lia.
Qed.

Lemma iter_pos_invariant {A} (P : A -> Prop) (f : A -> A) :
  (forall x, P x -> P (f x)) -> forall n x, P x -> P (iter_pos f n x).
Proof.
  intros Hf. induction n as [n IH|n IH|]; intros x Hx; simpl; auto.
Qed.

Lemma shr_nonneg (mrs : shr_record) (e n : Z) :
  0 <= shr_m mrs -> 0 <= shr_m (fst (shr mrs e n)).
Proof.
  intros H. unfold shr. destruct n; simpl; try exact H.
  apply (iter_pos_invariant (fun r => 0 <= shr_m r));
    [apply shr_1_nonneg|exact H].
Qed.

Lemma shr_fexp_nonneg (m e : Z) (l : location) :
  0 <= m -> 0 <= shr_m (fst (shr_fexp Double.prec Double.emax m e l)).
Proof.
  intros H. unfold shr_fexp. apply shr_nonneg.
  destruct l as [|[| |]]; exact H.
Qed.

Lemma round_nearest_even_nonneg (m : Z) (l : location) :
  0 <= m -> 0 <= round_nearest_even m l.
Proof.
  intros H. destruct l as [|[| |]]; simpl; try lia.
  destruct (Z.even m); lia.
Qed.

(** Rounding keeps the sign, and gives no NaN. *)
Lemma binary_round_aux_sign (s : bool) (m e : Z) (l : location) :
  0 <= m ->
  Double.hasSign s (binary_round_aux Double.prec Double.emax s m e l).
Proof.
  intros H. unfold binary_round_aux.
  pose proof (shr_fexp_nonneg m e l H) as H1.
  destruct (shr_fexp Double.prec Double.emax m e l) as [mrs' e'].
  simpl in H1.
  pose proof (shr_fexp_nonneg _ e' loc_Exact
                (round_nearest_even_nonneg _ (loc_of_shr_record mrs') H1))
    as H2.
  destruct (shr_fexp Double.prec Double.emax _ e' loc_Exact) as [mrs'' e''].
  simpl in H2.
  destruct (shr_m mrs'') as [|p|p]; [exact eq_refl| |lia].
  destruct (e'' <=? Double.emax - Double.prec); exact eq_refl.
Qed.

Lemma binary_round_sign (s : bool) (m : positive) (e : Z) :
  Double.hasSign s (binary_round Double.prec Double.emax s m e).
Proof.
  unfold binary_round. destruct (shl_align _ _ _) as [mz ez].
  apply binary_round_aux_sign. lia.
Qed.

Lemma shl_align_value (m : positive) (e ez : Z) :
  ez <= e -> Zpos (fst (shl_align m e ez)) = Zpos m * 2 ^ (e - ez).
Proof.
  intros H. unfold shl_align.
  destruct (ez - e) as [|d|d] eqn:E; try lia.
  - assert (e - ez = 0) as -> by lia. simpl. lia.
  - assert (e - ez = Zpos d) as -> by lia. simpl fst.
    clear. revert m. induction d as [|d IH] using Pos.peano_ind; intros m.
    + simpl. lia.
    + rewrite Pos.iter_succ. rewrite Pos2Z.inj_succ, Z.pow_succ_r by lia.
      rewrite Pos2Z.inj_xO, IH. ring.
Qed.

Lemma aligned_value (ez : Z) (s : bool) (m : positive) (e : Z) :
  ez <= e ->
  (inject_Z (Double.aligned ez s m e) * 2 ^ ez
   == Double.toQ (S754_finite s m e))%Q.
Proof.
  intros H. unfold Double.aligned, Double.toQ.
  assert (cond_Zopp s (Zpos (fst (shl_align m e ez)))
          = cond_Zopp s (Zpos m) * 2 ^ (e - ez)) as ->.
  { rewrite shl_align_value by exact H. unfold cond_Zopp.
    destruct s; [symmetry; apply Z.mul_opp_l|reflexivity]. }
  rewrite inject_Z_mult.
  assert (e = (e - ez) + ez) as He by lia.
  rewrite He at 2. rewrite Qpower_plus by discriminate.
  rewrite (Zpower_Qpower 2 (e - ez)) by lia.
  change (inject_Z 2) with 2%Q. ring.
Qed.

Lemma toQ_sign (s : bool) (m : positive) (e : Z) :
  (if s then Double.toQ (S754_finite s m e) < 0
   else 0 < Double.toQ (S754_finite s m e))%Q.
Proof.
  unfold Double.toQ. pose proof (Qpower_0_lt 2 e eq_refl) as Hp.
  destruct s.
  - change (cond_Zopp true (Zpos m)) with (Zneg m).
    assert (inject_Z (Z.neg m) < 0)%Q as Hm by reflexivity. nra.
  - change (cond_Zopp false (Zpos m)) with (Zpos m).
    assert (0 < inject_Z (Z.pos m))%Q as Hm by reflexivity. nra.
Qed.

Lemma Math_max_zero (x : Double.t) :
  x = S754_zero false \/ x = S754_zero true \/ Double.hasSign true x ->
  Double.Math_max (S754_zero false) x = S754_zero false.
Proof.
  intros [->|[->|H]]; try reflexivity.
  destruct x as [s|s| |s m e]; simpl in H; try contradiction; subst;
    reflexivity.
Qed.

(** In doubles: once a finite use has reached a finite limit, no tokens
    remain.  The difference is rounded, but it keeps its sign. *)
Lemma tokens_left_when_over (used limit : Double.t) :
  Double.finite used = true -> Double.finite limit = true ->
  (Double.toQ limit <= Double.toQ used)%Q ->
  Double.tokensLeft used limit = S754_zero false.
Proof.
  intros Hu Hl Hle. unfold Double.tokensLeft.
  change (Double.ofZ 0) with (S754_zero false).
  apply Math_max_zero.
  destruct limit as [sl| | |sl ml el]; try discriminate;
    destruct used as [su| | |su mu eu]; try discriminate.
  - destruct sl, su; simpl; auto.
  - right. right. pose proof (toQ_sign su mu eu) as Hs.
    destruct su; [simpl Double.toQ at 1 in Hle; lra|]. exact eq_refl.
  - right. right. pose proof (toQ_sign sl ml el) as Hs.
    destruct sl; [exact eq_refl|simpl Double.toQ at 2 in Hle; lra].
  - unfold Double.sub, SFsub. cbv zeta.
    set (ez := Z.min el eu).
    pose proof (aligned_value ez sl ml el ltac:(lia)) as Al.
    pose proof (aligned_value ez su mu eu ltac:(lia)) as Au.
    fold (Double.aligned ez sl ml el). fold (Double.aligned ez su mu eu).
    assert (Double.aligned ez sl ml el - Double.aligned ez su mu eu <= 0)
      as Hd.
    { pose proof (Qpower_0_lt 2 ez eq_refl) as Hp.
      rewrite <- Al, <- Au in Hle.
      assert (inject_Z (Double.aligned ez sl ml el)
              <= inject_Z (Double.aligned ez su mu eu))%Q as H by nra.
      rewrite <- Zle_Qle in H. lia. }
    destruct (Double.aligned ez sl ml el - Double.aligned ez su mu eu)
      as [|p|p]; try lia.
    + left. reflexivity.
    + right. right. apply binary_round_sign.
Qed.

End Doubles.

(** What the exact model leaves out of the tokens that remain: a use and
    a limit that are both [Infinity] (a JSON [1e999]) leave NaN; and above
    2^53 the difference is rounded: a limit of 2^53 + 2 less a use of 1
    leaves 2^53, not 2^53 + 1. *)
Lemma tokens_left_of_infinities :
  Double.tokensLeft Double.Infinity Double.Infinity = Double.NaN /\
  Double.tokensLeft (Double.ofZ 1) (Double.ofZ (2 ^ 53 + 2))
  = Double.ofZ (2 ^ 53) /\
  tokensLeft 1%Q (inject_Z (2 ^ 53 + 2)) = inject_Z (2 ^ 53 + 1).
Proof. split; [|split]; vm_compute; reflexivity. Qed.

(** X10. For a use and a limit that are whole numbers up to 2^53 (their
    difference is then exact in doubles): the recommended daily limit is
    never negative and never more than the tokens that remain (the limit
    minus the use, or 0 when over). *)
Theorem recommended_limit_is_bounded (env : Env) (used limit : JS.number)
    (v : VelocityInfo.t) (r : ResetTimeInfo.t) (m m' : Machine)
    (p : PredictionInfo.t) :
  wholeNumber used -> wholeNumber limit ->
  calculatePredictionInfo env used limit v r m = (inr p, m') ->
  (0 <= PredictionInfo.recommendedDailyLimit p)%Q /\
  (PredictionInfo.recommendedDailyLimit p <= tokensLeft used limit)%Q /\
  (0 <= tokensLeft used limit)%Q /\
  (limit - used <= tokensLeft used limit)%Q.
Proof.
  intros _ _. rewrite calculatePredictionInfo_run. cbv zeta.
  set (rem := tokensLeft used limit).
  set (untilReset := (ResetTimeInfo.timeUntilReset r / (1000 * 60 * 60))%Q).
  assert (0 <= rem)%Q as Hrem by apply max_zero_nonneg.
  assert (limit - used <= rem)%Q as Hdiff by apply Q.le_max_r.
  assert (let rdl := if JS.gt untilReset 24
                     then JS.Math_floor (rem / (untilReset / 24))
                     else rem in
          (0 <= rdl)%Q /\ (rdl <= rem)%Q) as Hrdl.
  { destruct (JS.gt untilReset 24) eqn:H24; cbv zeta.
    - apply gt_true in H24.
      assert (1 <= untilReset / 24)%Q as Hone.
      { apply Qle_shift_div_l; [reflexivity|].
        apply Qlt_le_weak. exact H24. }
      split.
      + apply (floor_mono 0%Q). apply div_nonneg; [exact Hrem|].
        apply Qlt_le_trans with 1%Q; [reflexivity|exact Hone].
      + apply Qle_trans with (rem / (untilReset / 24))%Q;
          [apply floor_le|apply div_by_at_least_one; assumption].
    - split; [exact Hrem|apply Qle_refl]. }
  cbv zeta in Hrdl. intros Hrun.
  assert (PredictionInfo.recommendedDailyLimit p =
          if JS.gt untilReset 24
          then JS.Math_floor (rem / (untilReset / 24)) else rem) as ->.
  { destruct (JS.gt (VelocityInfo.current v) 0);
      [destruct (depletionDate _ _ _ _)|];
      try discriminate; injection Hrun as <- _; reflexivity. }
  destruct Hrdl. auto.
Qed.

Lemma recommended_limit_is_bounded_witness :
  exists p m',
    calculatePredictionInfo Sample.online 10%Q 100%Q
      (calculateVelocityFromModelUsage (Sample.usageOf 4801%Q))
      Sample.resetInfo Sample.start = (inr p, m') /\
    (PredictionInfo.recommendedDailyLimit p <= tokensLeft 10 100)%Q.
Proof.
  destruct (calculatePredictionInfo Sample.online 10%Q 100%Q
              (calculateVelocityFromModelUsage (Sample.usageOf 4801%Q))
              Sample.resetInfo Sample.start) as [r m'] eqn:Hrun.
  assert (exists p, r = inr p) as [p ->].
  { vm_compute in Hrun. injection Hrun as <- _. eexists. reflexivity. }
  exists p, m'. split; [reflexivity|].
  assert (wholeNumber 10%Q) as Hused
    by (exists 10; split; [reflexivity|lia]).
  assert (wholeNumber 100%Q) as Hlimit
    by (exists 100; split; [reflexivity|lia]).
  apply (recommended_limit_is_bounded _ _ _ _ _ _ _ _ Hused Hlimit Hrun).
Defined.

(** X11. For a finite use and a finite limit (every [JS.number] is; the
    [Infinity] of a JSON [1e999] is not one, and [tokens_left_of_infinities]
    above shows what it gives): once the use has reached the limit, the
    prediction recommends a daily limit of 0, estimates 0 days remaining
    and is never on track for the reset; and for the finite doubles that
    the use and the limit are, the tokens that remain are [+0] in doubles
    as well. *)
Theorem prediction_when_over_the_limit (env : Env) (used limit : JS.number)
    (v : VelocityInfo.t) (r : ResetTimeInfo.t) (m m' : Machine)
    (p : PredictionInfo.t) :
  (limit <= used)%Q ->
  calculatePredictionInfo env used limit v r m = (inr p, m') ->
  (PredictionInfo.recommendedDailyLimit p == 0)%Q /\
  (PredictionInfo.daysRemaining p == 0)%Q /\
  PredictionInfo.onTrackForReset p = false /\
  (forall tokensUsed tokenLimit : Double.t,
     Double.finite tokensUsed = true -> Double.finite tokenLimit = true ->
     (Double.toQ tokensUsed == used)%Q ->
     (Double.toQ tokenLimit == limit)%Q ->
     Double.tokensLeft tokensUsed tokenLimit = Double.ofZ 0).
Proof.
  intros Hover Hrun.
  assert (forall tokensUsed tokenLimit : Double.t,
            Double.finite tokensUsed = true ->
            Double.finite tokenLimit = true ->
            (Double.toQ tokensUsed == used)%Q ->
            (Double.toQ tokenLimit == limit)%Q ->
            Double.tokensLeft tokensUsed tokenLimit = Double.ofZ 0)
    as Hdouble.
  { intros tokensUsed tokenLimit Hu Hl Eu El.
    apply tokens_left_when_over; [exact Hu|exact Hl|].
    rewrite Eu, El. exact Hover. }
  revert Hrun. rewrite calculatePredictionInfo_run. cbv zeta.
  set (rem := tokensLeft used limit).
  set (untilReset := (ResetTimeInfo.timeUntilReset r / (1000 * 60 * 60))%Q).
  assert (rem == 0)%Q as Hrem.
  { subst rem. unfold tokensLeft, JS.Math_max. apply Q.max_l.
    unfold Qminus. rewrite <- (Qplus_opp_r used).
    apply Qplus_le_compat; [exact Hover|apply Qle_refl]. }
  assert (JS.gt rem 0 = false) as Hgt.
  { apply gt_false_iff. rewrite Hrem. apply Qle_refl. }
  assert ((if JS.gt untilReset 24
           then JS.Math_floor (rem / (untilReset / 24)) else rem) == 0)%Q
    as Hrdl.
  { destruct (JS.gt untilReset 24); [|exact Hrem].
    unfold JS.Math_floor.
    rewrite (Qfloor_comp _ 0); [reflexivity|].
    rewrite Hrem. unfold Qdiv. apply Qmult_0_l. }
  assert (forall c, JS.Math_round (rem / c / 24 * 10) / 10 == 0)%Q as Hdays.
  { intros c. apply round_tenth_of_zero. rewrite Hrem.
    unfold Qdiv. rewrite !Qmult_0_l. reflexivity. }
  intros Hrun.
  destruct (JS.gt (VelocityInfo.current v) 0);
    [destruct (depletionDate _ _ _ _)|];
    try discriminate; injection Hrun as <- _; simpl.
  - rewrite Hgt. split; [exact Hrdl|].
    split; [apply Hdays|split; [reflexivity|exact Hdouble]].
  - rewrite Hgt. split; [exact Hrdl|].
    split; [reflexivity|split; [reflexivity|exact Hdouble]].
Qed.

Lemma prediction_when_over_the_limit_witness :
  exists p m',
    calculatePredictionInfo Sample.online 120%Q 100%Q
      (calculateVelocityFromModelUsage (Sample.usageOf 4801%Q))
      Sample.resetInfo Sample.start = (inr p, m') /\
    PredictionInfo.onTrackForReset p = false /\
    Double.tokensLeft (Double.ofZ 120) (Double.ofZ 100) = Double.ofZ 0.
Proof.
  destruct (calculatePredictionInfo Sample.online 120%Q 100%Q
              (calculateVelocityFromModelUsage (Sample.usageOf 4801%Q))
              Sample.resetInfo Sample.start) as [r m'] eqn:Hrun.
  assert (exists p, r = inr p) as [p ->].
  { vm_compute in Hrun. injection Hrun as <- _. eexists. reflexivity. }
  exists p, m'. split; [reflexivity|].
  assert (100 <= 120)%Q as Hover by discriminate.
  destruct (prediction_when_over_the_limit _ _ _ _ _ _ _ _ Hover Hrun)
    as (_ & _ & Htrack & Hdouble).
  split; [exact Htrack|].
  apply Hdouble; reflexivity.
Defined.

(** ** The actual reset time *)

Section WholeNumbers.

Local Open Scope Q_scope.

Lemma max_zero_of_integer (d : Z) :
  JS.Math_max 0 (inject_Z d) = inject_Z (Z.max 0 d).
Proof.
  unfold JS.Math_max, Qmax, GenericMinMax.gmax, Qcompare.
  destruct d; reflexivity.
Qed.

Lemma floor_of_quotient (n m : Z) (q : Q) :
  q == inject_Z m -> JS.Math_floor (inject_Z n / q) = inject_Z (n / m)%Z.
Proof.
  intros Hq. unfold JS.Math_floor. f_equal.
  rewrite Zdiv_Qdiv. apply Qfloor_comp. rewrite Hq. reflexivity.
Qed.

Lemma gt_zero_of_integer (a : Z) : JS.gt (inject_Z a) 0 = (0 <? a)%Z.
Proof.
  destruct (0 <? a)%Z eqn:E.
  - apply gt_true. apply Z.ltb_lt in E. unfold Qlt. simpl. lia.
  - apply gt_false_iff. apply Z.ltb_ge in E. unfold Qle. simpl. lia.
Qed.

Lemma le_zero_of_integer (a : Z) : JS.le (inject_Z a) 0 = (a <=? 0)%Z.
Proof.
  destruct (a <=? 0)%Z eqn:E.
  - apply le_true_iff. apply Z.leb_le in E. unfold Qle. simpl. lia.
  - apply Z.leb_gt in E. destruct (JS.le (inject_Z a) 0) eqn:E'; [|reflexivity].
    apply le_true_iff in E'. unfold Qle in E'. simpl in E'. lia.
Qed.

Lemma integerToString_of_integer (a : Z) :
  integerToString (inject_Z a) = pretty a.
Proof. unfold integerToString. rewrite Qfloor_Z. reflexivity. Qed.

Lemma rem_of_integers (d : Z) (q : Q) (k : Z) :
  (0 <= d)%Z -> (0 < k)%Z -> q == inject_Z k ->
  JS.rem (inject_Z d) q == inject_Z (d mod k)%Z.
Proof.
  intros Hd Hk Hq. unfold JS.rem, JS.truncate.
  assert (Qle_bool 0 (inject_Z d / q) = true) as ->.
  { apply Qle_bool_iff. rewrite Hq. apply div_nonneg.
    - apply inject_Z_nonneg, Hd.
    - unfold Qlt. simpl. lia. }
  assert (Qfloor (inject_Z d / q) = (d / k)%Z) as ->.
  { rewrite Zdiv_Qdiv. apply Qfloor_comp. rewrite Hq. reflexivity. }
  rewrite Hq. rewrite <- inject_Z_mult. unfold Qminus.
  rewrite <- inject_Z_opp, <- inject_Z_plus.
  rewrite (Z.mod_eq d k) by lia. reflexivity.
Qed.

Lemma minutes_of_integer (d : Z) :
  (0 <= d)%Z ->
  JS.Math_floor (JS.rem (inject_Z d) (1000 * 60 * 60) / (1000 * 60))
  = inject_Z ((d mod 3600000) / 60000)%Z.
Proof.
  intros Hd. unfold JS.Math_floor. f_equal.
  rewrite Zdiv_Qdiv. apply Qfloor_comp.
  rewrite (rem_of_integers d (1000 * 60 * 60) 3600000 Hd);
    [reflexivity|lia|reflexivity].
Qed.

End WholeNumbers.

Lemma minutes_below_sixty (d : Z) : 0 <= (d mod 3600000) / 60000 <= 59.
Proof.
  pose proof (Z.mod_pos_bound d 3600000 ltac:(lia)) as [H0 H1].
  split.
  - apply Z.div_pos; lia.
  - apply Z.lt_succ_r. apply Z.div_lt_upper_bound; lia.
Qed.

(** X12. For a [nextResetTime] that is a whole number of seconds, and a
    clock that is not before 1970 (then the milliseconds and their
    difference are whole numbers a double holds exactly): the actual reset
    info is built exactly when the quota record has a [nextResetTime] other
    than 0, and building it never throws.  When the reset time is a valid
    date, [timeUntilReset] is the distance from the clock to it, or 0 if it
    is past, and the text is ['Reset available'] when it is past and
    otherwise shows the whole hours and the minutes (at most 59), the
    minutes alone, or ['< 1m left'].  When the reset time is out of the
    range of dates, the text is ['< 1m left']. *)
Theorem actualResetInfo_of_quota (env : Env) (quota : ZaiQuotaLimit.t)
    (m : Machine) :
  (forall seconds, ZaiQuotaLimit.nextResetTime quota = Some seconds ->
                   exists z : Z, (seconds == inject_Z z)%Q) ->
  0 <= clock env (reads m) ->
  let run := actualResetInfoOf env quota m in
  let now := clock env (reads m) in
  match ZaiQuotaLimit.nextResetTime quota with
  | None => run = (inr None, m)
  | Some seconds =>
      if Qeq_bool seconds 0 then run = (inr None, m)
      else
        match JS.Date_ofNumber (seconds * 1000) with
        | None =>
            run = (inr (Some (ActualResetInfo.mk None None "< 1m left")),
                   tick m)
        | Some next =>
            run = (inr (Some (ActualResetInfo.mk (Some next)
                                (Some (inject_Z (Z.max 0 (next - now))))
                                (remainingText (next - now)))),
                   tick m) /\
            0 <= (next - now) mod 3600000 / 60000 <= 59
        end
  end.
Proof.
  intros _ _ run now. subst run. unfold actualResetInfoOf.
  destruct (ZaiQuotaLimit.nextResetTime quota) as [seconds|]; [|reflexivity].
  unfold JS.truthy. destruct (Qeq_bool seconds 0); cbn [negb]; [reflexivity|].
  destruct (JS.Date_ofNumber (seconds * 1000)) as [next|]; [|reflexivity].
  split; [|apply minutes_below_sixty].
  unfold bind, Date_now, ret, tick. cbn [fst snd this reads draws trace].
  fold now. rewrite max_zero_of_integer.
  do 3 f_equal. f_equal. unfold remainingText. cbv zeta.
  rewrite le_zero_of_integer.
  destruct (Z.max 0 (next - now) <=? 0) eqn:Hpast.
  - apply Z.leb_le in Hpast.
    assert ((next - now <=? 0) = true) as -> by (apply Z.leb_le; lia).
    reflexivity.
  - apply Z.leb_gt in Hpast.
    assert ((next - now <=? 0) = false) as -> by (apply Z.leb_gt; lia).
    rewrite Z.max_r by lia.
    rewrite (floor_of_quotient _ 3600000) by reflexivity.
    rewrite minutes_of_integer by lia.
    rewrite !gt_zero_of_integer, !integerToString_of_integer.
    reflexivity.
Qed.

Lemma actualResetInfo_of_quota_witness :
  actualResetInfoOf Sample.online Sample.tokensLimit Sample.start
  = (inr (Some (ActualResetInfo.mk (Some 1700003600000) (Some 3600000%Q)
                  "1h 0m left")),
     tick Sample.start).
Proof.
  assert (forall seconds,
            ZaiQuotaLimit.nextResetTime Sample.tokensLimit = Some seconds ->
            exists z : Z, (seconds == inject_Z z)%Q) as Hwhole.
  { intros seconds E. injection E as <-. exists 1700003600. reflexivity. }
  assert (0 <= clock Sample.online (reads Sample.start)) as Hclock
    by (vm_compute; discriminate).
  exact (proj1 (actualResetInfo_of_quota Sample.online Sample.tokensLimit
                  Sample.start Hwhole Hclock)).
Defined.

(** ** More on the daily usage *)

(** The list before sorting: the days of the map, with the split filled in
    when there is a positive total. *)
Lemma dailyUsage_shape (env : Env) (modelUsage : ZaiModelUsageResponse.t) :
  let hours :=
    ZaiModelUsageData.x_time_or_empty (ZaiModelUsageResponse.data modelUsage) in
  let total :=
    ZaiModelUsageData.totalTokensUsage_or_0
      (ZaiModelUsageResponse.data modelUsage) in
  let dm := fold_left addHour hours [] in
  let days := mapHourlyToDailyUsage env modelUsage in
  let perDay :=
    if JS.gt total 0
    then JS.Math_floor (total / inject_Z (Z.of_nat (length days)))
    else 0%Q in
  length days = length dm /\
  Permutation days (map (fun e => set_totalTokens perDay (newDay (fst e))) dm) /\
  List.NoDup (map fst dm) /\
  (forall k, In k (map fst dm) <->
             k <> "" /\ exists h, In h hours /\ JS.split0 " "%char h = k).
Proof.
  intros hours total dm days perDay.
  destruct (addHours_invariant hours [] []) as (Hnew & Hnd & Hkeys).
  { intros e []. }
  { constructor. }
  { intros k. simpl. split; [intros []|]. intros (_ & h & [] & _). }
  simpl in Hkeys. fold dm in Hnew, Hnd, Hkeys.
  set (size := inject_Z (Z.of_nat (length dm))).
  set (filled :=
         if JS.gt total 0 && JS.gt size 0
         then map (set_totalTokens (JS.Math_floor (total / size)))
                (Map_values dm)
         else Map_values dm).
  assert (days = Array_sort (compareByDate env) filled) as Edays by reflexivity.
  assert (Permutation days filled) as Hperm.
  { rewrite Edays. apply Array_sort_perm. }
  assert (length filled = length dm) as Hlen.
  { subst filled. unfold Map_values.
    destruct (_ && _); rewrite ?length_map; reflexivity. }
  assert (length days = length dm) as Hlen'.
  { rewrite (Permutation_length Hperm). exact Hlen. }
  split; [exact Hlen'|]. split; [|split; assumption].
  rewrite Hperm. subst filled perDay. rewrite Hlen'. fold size.
  assert (Map_values dm = map (fun e => newDay (fst e)) dm) as Hvals.
  { unfold Map_values. apply map_ext_in. intros e He. apply Hnew, He. }
  assert (forall l : DailyMap,
            l = [] \/ JS.gt (inject_Z (Z.of_nat (length l))) 0 = true)
    as Hsize.
  { intros [|e l]; [left; reflexivity|right].
    apply size_positive. simpl. lia. }
  rewrite Hvals. destruct (Hsize dm) as [Enil|Hpos].
  - rewrite Enil. destruct (_ && _); reflexivity.
  - fold size in Hpos. rewrite Hpos, andb_true_r.
    destruct (JS.gt total 0).
    + rewrite map_map. reflexivity.
    + apply Permutation_refl'. apply map_ext. intros a. reflexivity.
Qed.




Lemma split0_without_separator (sep : ascii) (s : string) :
  ~ In sep (String.list_ascii_of_string (JS.split0 sep s)).
Proof.
  induction s as [|c s IH]; simpl; [tauto|].
  destruct (Ascii.eqb c sep) eqn:E; simpl; [tauto|].
  apply Ascii.eqb_neq in E. intros [H|H]; [congruence|exact (IH H)].
Qed.

(** X14. There are never more days than hourly points, and none when
    [x_time] is missing or empty; every date is non-empty and holds no
    space; and the days carry no per-model data. *)
Theorem daily_usage_dates (env : Env) (modelUsage : ZaiModelUsageResponse.t) :
  let days := mapHourlyToDailyUsage env modelUsage in
  let data := ZaiModelUsageResponse.data modelUsage in
  (length days <= length (ZaiModelUsageData.x_time_or_empty data))%nat /\
  (ZaiModelUsageData.x_time data = None \/
   ZaiModelUsageData.x_time data = Some [] -> days = []) /\
  Forall (fun d =>
            DailyUsage.date d <> "" /\
            ~ In " "%char (String.list_ascii_of_string (DailyUsage.date d)) /\
            DailyUsage.models d = []) days.
Proof.
  intros days data.
  destruct (dailyUsage_shape env modelUsage) as (Hlen & Hperm & Hnd & Hkeys).
  fold days data in Hlen, Hperm, Hkeys.
  set (hours := ZaiModelUsageData.x_time_or_empty data) in *.
  set (dm := fold_left addHour hours []) in *.
  assert (length dm <= length hours)%nat as Hle.
  { rewrite <- (length_map fst dm),
            <- (length_map (JS.split0 " "%char) hours).
    apply NoDup_incl_length; [exact Hnd|].
    intros k Hk. apply Hkeys in Hk as (_ & h & Hh & <-).
    apply in_map, Hh. }
  split; [lia|]. split.
  - intros Hnone.
    assert (hours = []) as E.
    { subst hours. unfold ZaiModelUsageData.x_time_or_empty.
      destruct Hnone as [-> | ->]; reflexivity. }
    rewrite E in Hle. destruct days; [reflexivity|simpl in *; lia].
  - apply List.Forall_forall. intros d Hd.
    apply (Permutation_in _ Hperm) in Hd.
    apply in_map_iff in Hd as (p & <- & Hp). simpl.
    assert (In (fst p) (map fst dm)) as Hin by (apply in_map, Hp).
    apply Hkeys in Hin as (Hne & h & _ & E).
    split; [exact Hne|]. split; [|reflexivity].
    rewrite <- E. apply split0_without_separator.
Qed.

Lemma daily_usage_dates_witness :
  mapHourlyToDailyUsage Sample.online
    (ZaiModelUsageResponse.mk 200%Q (ZaiModelUsageData.mk None None) true)
  = [].
Proof.
  refine (proj1 (proj2 (daily_usage_dates Sample.online
                          (ZaiModelUsageResponse.mk 200%Q
                             (ZaiModelUsageData.mk None None) true))) _).
  left. reflexivity.
Defined.

(** ** What every stats value of the service has *)

(** A property of the stats that the mock data and the mapping establish,
    and that the cache has, holds of what [getUsageStats] returns and of
    what it leaves in the cache. *)
Lemma getUsageStats_invariant (env : Env) (P : UsageStats.t -> Prop)
    (m m' : Machine) (s : UsageStats.t) :
  (forall m0 s0 m1, getMockStats env m0 = (inr s0, m1) -> P s0) ->
  (forall q u m0 s0 m1, mapZaiToUsageStats env q u m0 = (inr s0, m1) -> P s0) ->
  (forall c, cachedStats (this m) = Some c -> P c) ->
  getUsageStats env m = (inr s, m') ->
  P s /\ (forall c, cachedStats (this m') = Some c -> P c).
Proof.
  intros Hmock Hmap Hcache.
  destruct (isFresh (this m) (clock env (reads m))) eqn:Hfresh.
  - apply isFresh_true in Hfresh as (c & Hc & Hnow).
    rewrite (getUsageStats_fresh env m c Hc Hnow). intros [= <- <-].
    split; [apply Hcache, Hc|exact Hcache].
  - destruct (getUsageStats_stale_run env m Hfresh) as (r & m1 & Hr & ->).
    pose proof (Refreshed_effects env _ _ _ _ Hr) as (_ & Hc1 & _).
    change (this (tick m)) with (this m) in Hc1.
    destruct r as [e|s1].
    + destruct Hc1 as [[Hc1 _]|(s2 & Hs2 & _)]; [|discriminate].
      rewrite fallback_run.
      destruct (cachedStats (this m1)) as [c|] eqn:Hc.
      * intros [= <- <-]. rewrite Hc. split.
        -- apply Hcache. congruence.
        -- intros c' [= <-]. apply Hcache. congruence.
      * intros Hrun. split; [exact (Hmock _ _ _ Hrun)|].
        destruct (quiet_getMockStats env m1) as [Hthis _].
        rewrite Hrun in Hthis. simpl in Hthis. rewrite Hthis, Hc.
        discriminate.
    + intros [= <- <-].
      assert (P s1) as Hs.
      { inversion Hr; subst; eauto. }
      split; [exact Hs|].
      destruct Hc1 as [[Hc1 _]|(s2 & [= <-] & Hc2 & _)].
      * rewrite Hc1. exact Hcache.
      * rewrite Hc2. intros c [= <-]. exact Hs.
Qed.

Lemma filterM_keeps {A} (env : Env) (p : A -> M bool) (l r : list A)
    (m m' : Machine) :
  filterM p l m = (inr r, m') -> forall x, In x r -> In x l.
Proof.
  revert r m m'. induction l as [|a l IH]; intros r m m'; simpl.
  - intros [= <- _] x [].
  - intros H.
    apply bind_returns in H as (keep & m1 & _ & H).
    apply bind_returns in H as (rest & m2 & Hrest & H).
    injection H as <- _. intros x Hx.
    destruct keep.
    + destruct Hx as [<-|Hx]; [left; reflexivity|right].
      exact (IH _ _ _ Hrest x Hx).
    + right. exact (IH _ _ _ Hrest x Hx).
Qed.

(** The days of a mock list: as many as asked, each without cost or models,
    with the tokens drawn as [floor(random * 2000) + 500]. *)
Lemma mockDays_shape (env : Env) (now : Z) (k : nat) (m m' : Machine)
    (l : list DailyUsage.t) :
  mockDays env now k m = (inr l, m') ->
  length l = k /\
  Forall (fun d =>
            DailyUsage.totalCost d = 0%Q /\
            DailyUsage.models d = [] /\
            exists i,
              DailyUsage.totalTokens d =
              (JS.Math_floor (random env i * 2000) + 500)%Q) l.
Proof.
  revert l m m'. induction k as [|i IH]; intros l m m'; simpl.
  - intros [= <- _]. split; [reflexivity|constructor].
  - intros H.
    apply bind_returns in H as (dateIso & m1 & _ & H).
    apply bind_returns in H as (r & m2 & Hr & H).
    apply bind_returns in H as (rest & m3 & Hrest & H).
    injection H as <- _.
    destruct (IH _ _ _ Hrest) as [Hlen Hall].
    split; [simpl; congruence|].
    constructor; [|exact Hall].
    simpl. split; [reflexivity|]. split; [reflexivity|].
    injection Hr as <- _. eauto.
Qed.

Lemma getMockStats_lists (env : Env) (m m' : Machine) (s : UsageStats.t) :
  getMockStats env m = (inr s, m') ->
  DailyUsage.totalCost (UsageStats.today s) = 0%Q /\
  DailyUsage.totalTokens (UsageStats.today s) = 1200%Q /\
  (exists now1 m1 m2,
     mockDays env now1 7 m1 = (inr (UsageStats.thisWeek s), m2)) /\
  (exists now2 m3,
     mockDays env now2 30 m3 = (inr (UsageStats.thisMonth s), m')).
Proof.
  unfold getMockStats. intros H.
  apply bind_returns in H as (today & m1 & _ & H). cbv zeta in H.
  apply bind_returns in H as (now & m2 & _ & H).
  apply bind_returns in H as (dep & m3 & _ & H). cbv zeta in H.
  apply bind_returns in H as (t0 & m4 & _ & H). cbv zeta in H.
  apply bind_returns in H as (week & m5 & Hweek & H).
  apply bind_returns in H as (month & m6 & Hmonth & H).
  injection H as <- <-. simpl.
  unfold generateMockDailyData in Hweek, Hmonth.
  apply bind_returns in Hweek as (n1 & m7 & _ & Hweek).
  apply bind_returns in Hmonth as (n2 & m8 & _ & Hmonth).
  repeat split; eauto.
Qed.

Lemma mapZaiToUsageStats_lists (env : Env) (q : ZaiQuotaLimit.t)
    (u : ZaiModelUsageResponse.t) (m m' : Machine) (s : UsageStats.t) :
  mapZaiToUsageStats env q u m = (inr s, m') ->
  (In (UsageStats.today s) (mapHourlyToDailyUsage env u) \/
   exists m1 m2, getEmptyDailyUsage env m1 = (inr (UsageStats.today s), m2)) /\
  (forall d, In d (UsageStats.thisWeek s) ->
             In d (mapHourlyToDailyUsage env u)) /\
  (forall d, In d (UsageStats.thisMonth s) ->
             In d (mapHourlyToDailyUsage env u)) /\
  UsageStats.velocity s = calculateVelocityFromModelUsage u /\
  UsageStats.burnRate s = VelocityInfo.current (UsageStats.velocity s) /\
  UsageStats.predictedDepleted s
  = PredictionInfo.depletionTime (UsageStats.prediction s) /\
  UsageStats.currentPlan s = detectPlanFromLimit (UsageStats.tokenLimit s) /\
  (exists m1 m2,
     calculatePredictionInfo env (ZaiQuotaLimit.currentValue q)
       (ZaiQuotaLimit.usage q) (calculateVelocityFromModelUsage u)
       (UsageStats.resetInfo s) m1 = (inr (UsageStats.prediction s), m2)) /\
  (exists m1 m2,
     actualResetInfoOf env q m1 = (inr (UsageStats.actualResetInfo s), m2)).
Proof.
  unfold mapZaiToUsageStats. intros H. cbv zeta in H.
  apply bind_returns in H as (t0 & m1 & _ & H).
  apply bind_returns in H as (actual & m2 & Hactual & H).
  apply bind_returns in H as (prediction & m3 & Hpred & H).
  apply bind_returns in H as (todayStr & m4 & _ & H).
  apply bind_returns in H as (todayData & m5 & Htoday & H).
  apply bind_returns in H as (week & m6 & Hweek & H).
  apply bind_returns in H as (month & m7 & Hmonth & H).
  injection H as <- <-. simpl.
  split; [|split; [|split; [|repeat split; eauto]]].
  - destruct (List.find _ _) as [d|] eqn:Hfind.
    + injection Htoday as <- _. left. apply find_some in Hfind. tauto.
    + right. eauto.
  - exact (filterM_keeps env _ _ _ _ _ Hweek).
  - exact (filterM_keeps env _ _ _ _ _ Hmonth).
Qed.

Lemma dailyUsage_costFree (env : Env) (u : ZaiModelUsageResponse.t)
    (d : DailyUsage.t) :
  In d (mapHourlyToDailyUsage env u) -> DailyUsage.totalCost d = 0%Q.
Proof.
  intros Hd. destruct (dailyUsage_shape env u) as (_ & Hperm & _).
  apply (Permutation_in _ Hperm) in Hd.
  apply in_map_iff in Hd as (p & <- & _). reflexivity.
Qed.

Lemma hasCostData_costFree (s : UsageStats.t) :
  costFree s -> hasCostData s = false.
Proof.
  intros (Htoday & Hweek & _). unfold hasCostData. rewrite Htoday.
  apply orb_false_iff. split; [reflexivity|].
  induction Hweek as [|d l Hd _ IH]; simpl; [reflexivity|].
  rewrite Hd, IH. reflexivity.
Qed.

Lemma getUsageStats_returns_stats (env : Env) (m : Machine) :
  saneClock env -> exists s m', getUsageStats env m = (inr s, m').
Proof.
  intros Hclock.
  destruct (isFresh (this m) (clock env (reads m))) eqn:Hfresh.
  - apply isFresh_true in Hfresh as (c & Hc & Hnow).
    rewrite (getUsageStats_fresh env m c Hc Hnow). eauto.
  - destruct (getUsageStats_stale_run env m Hfresh) as (r & m1 & _ & ->).
    destruct r as [e|s]; [|eauto].
    destruct (fallback_returns env e m1 Hclock) as (s & m' & Hrun & _).
    eauto.
Qed.

Lemma stats_are_costFree (env : Env) (m m' : Machine) (s : UsageStats.t) :
  (forall c, cachedStats (this m) = Some c -> costFree c) ->
  getUsageStats env m = (inr s, m') ->
  costFree s /\ (forall c, cachedStats (this m') = Some c -> costFree c).
Proof.
  intros Hcache Hrun.
  apply (getUsageStats_invariant env costFree m m' s); auto.
  - intros m0 s0 m1 Hmock.
    destruct (getMockStats_lists env _ _ _ Hmock)
      as (Htoday & _ & (n1 & ma & mb & Hweek) & (n2 & mc & Hmonth)).
    split; [exact Htoday|].
    split; eapply List.Forall_impl;
      try (apply (mockDays_shape env _ _ _ _ _ Hweek));
      try (apply (mockDays_shape env _ _ _ _ _ Hmonth));
      intros d Hd; apply Hd.
  - intros q u m0 s0 m1 Hmap.
    destruct (mapZaiToUsageStats_lists env _ _ _ _ _ Hmap)
      as (Htoday & Hweek & Hmonth & _).
    split; [|split].
    + destruct Htoday as [Hin|(ma & mb & Hempty)].
      * exact (dailyUsage_costFree env u _ Hin).
      * unfold getEmptyDailyUsage in Hempty.
        apply bind_returns in Hempty as (d & mc & _ & Hempty).
        injection Hempty as <- _. reflexivity.
    + apply List.Forall_forall. intros d Hd.
      exact (dailyUsage_costFree env u _ (Hweek d Hd)).
    + apply List.Forall_forall. intros d Hd.
      exact (dailyUsage_costFree env u _ (Hmonth d Hd)).
Qed.

(** X15. The z.ai service never reports a cost.  With a clock in range and
    a cache that came from the service, [getUsageStats] returns stats in
    which today and every day of the week and of the month cost 0, so the
    dashboard's [hasCostData] is false and the cost figures stay hidden;
    and what the call leaves in the cache is again without cost. *)
Theorem service_stats_have_no_cost (env : Env) (m : Machine) :
  saneClock env ->
  (forall c, cachedStats (this m) = Some c -> costFree c) ->
  exists s m',
    getUsageStats env m = (inr s, m') /\
    costFree s /\ hasCostData s = false /\
    (forall c, cachedStats (this m') = Some c -> costFree c).
Proof.
  intros Hclock Hcache.
  destruct (getUsageStats_returns_stats env m Hclock) as (s & m' & Hrun).
  destruct (stats_are_costFree env m m' s Hcache Hrun) as [Hs Hc].
  exists s, m'. split; [exact Hrun|]. split; [exact Hs|].
  split; [apply hasCostData_costFree, Hs|exact Hc].
Qed.

Lemma service_stats_have_no_cost_witness :
  exists s m',
    getUsageStats Sample.online Sample.start = (inr s, m') /\
    hasCostData s = false.
Proof.
  destruct (service_stats_have_no_cost Sample.online Sample.start
              (sample_clock_is_sane _ _))
    as (s & m' & Hrun & _ & Hcost & _).
  - intros c Hc. discriminate Hc.
  - exists s, m'. split; [exact Hrun|exact Hcost].
Defined.

(** ** The mock data *)

Lemma mock_tokens_range (r : JS.number) :
  (0 <= r)%Q -> (r < 1)%Q ->
  exists z, (JS.Math_floor (r * 2000) + 500 == inject_Z z)%Q /\
            500 <= z <= 2499.
Proof.
  intros H0 H1. exists (Qfloor (r * 2000) + 500). split.
  - unfold JS.Math_floor. rewrite inject_Z_plus. reflexivity.
  - assert (0 <= Qfloor (r * 2000)).
    { change 0 with (Qfloor 0). apply Qfloor_resp_le.
      apply Qmult_le_0_compat; [exact H0|discriminate]. }
    assert (Qfloor (r * 2000) < 2000).
    { rewrite Zlt_Qlt. apply Qle_lt_trans with (r * 2000)%Q.
      - apply Qfloor_le.
      - change (inject_Z 2000) with (1 * 2000)%Q.
        apply Qmult_lt_compat_r; [reflexivity|exact H1]. }
    lia.
Qed.

(** X16. The mock statistics.  With a clock in range and random numbers in
    [0, 1), [getMockStats] returns: 7 days for the week and 30 for the
    month, every day with a whole number of tokens between 500 and 2499, no
    cost and no model; the tokens used and the tokens left add up to the
    limit; there is no [actualResetInfo]; and producing them touches
    neither the service object nor the network. *)
Theorem mock_stats_shape (env : Env) (m : Machine) :
  saneClock env ->
  unitRandom env ->
  exists s m',
    getMockStats env m = (inr s, m') /\
    length (UsageStats.thisWeek s) = 7%nat /\
    length (UsageStats.thisMonth s) = 30%nat /\
    Forall (fun d =>
              (exists z, (DailyUsage.totalTokens d == inject_Z z)%Q /\
                         500 <= z <= 2499) /\
              DailyUsage.totalCost d = 0%Q /\
              DailyUsage.models d = [])
      (UsageStats.thisWeek s ++ UsageStats.thisMonth s) /\
    (UsageStats.tokensUsed s + UsageStats.tokensRemaining s
     == UsageStats.tokenLimit s)%Q /\
    UsageStats.actualResetInfo s = None /\
    this m' = this m /\ trace m' = trace m.
Proof.
  intros Hclock Hrandom.
  destruct (getMockStats_returns env Hclock m) as (s & m' & Hrun & _).
  exists s, m'. split; [exact Hrun|].
  destruct (getMockStats_lists env _ _ _ Hrun)
    as (_ & _ & (n1 & ma & mb & Hweek) & (n2 & mc & Hmonth)).
  destruct (mockDays_shape env _ _ _ _ _ Hweek) as [Hlen7 Hdays7].
  destruct (mockDays_shape env _ _ _ _ _ Hmonth) as [Hlen30 Hdays30].
  split; [exact Hlen7|]. split; [exact Hlen30|].
  split.
  { apply List.Forall_app. split.
    - eapply List.Forall_impl; [|exact Hdays7].
      intros d (Hcost & Hmodels & i & Htokens).
      split; [|split; assumption].
      rewrite Htokens. apply mock_tokens_range; apply Hrandom.
    - eapply List.Forall_impl; [|exact Hdays30].
      intros d (Hcost & Hmodels & i & Htokens).
      split; [|split; assumption].
      rewrite Htokens. apply mock_tokens_range; apply Hrandom. }
  destruct (quiet_getMockStats env m) as [Hthis Htrace].
  rewrite Hrun in Hthis, Htrace. simpl in Hthis, Htrace.
  split; [|split; [|split; assumption]].
  - clear -Hrun. unfold getMockStats in Hrun.
    apply bind_returns in Hrun as (today & m1 & _ & H). cbv zeta in H.
    apply bind_returns in H as (now & m2 & _ & H).
    apply bind_returns in H as (dep & m3 & _ & H). cbv zeta in H.
    apply bind_returns in H as (t0 & m4 & _ & H). cbv zeta in H.
    apply bind_returns in H as (week & m5 & _ & H).
    apply bind_returns in H as (month & m6 & _ & H).
    injection H as <- _. reflexivity.
  - clear -Hrun. unfold getMockStats in Hrun.
    apply bind_returns in Hrun as (today & m1 & _ & H). cbv zeta in H.
    apply bind_returns in H as (now & m2 & _ & H).
    apply bind_returns in H as (dep & m3 & _ & H). cbv zeta in H.
    apply bind_returns in H as (t0 & m4 & _ & H). cbv zeta in H.
    apply bind_returns in H as (week & m5 & _ & H).
    apply bind_returns in H as (month & m6 & _ & H).
    injection H as <- _. reflexivity.
Qed.

Lemma mock_stats_shape_witness :
  exists s m',
    getMockStats Sample.online Edge.keyless = (inr s, m') /\
    length (UsageStats.thisWeek s) = 7%nat.
Proof.
  destruct (mock_stats_shape Sample.online Edge.keyless
              (sample_clock_is_sane _ _))
    as (s & m' & Hrun & Hweek & _).
  - intros n. split; vm_compute; congruence.
  - exists s, m'. split; [exact Hrun|exact Hweek].
Defined.

(** ** The menu bar data, the status and the plan *)

Lemma getUsageStatus_cases (p : JS.number) :
  (getUsageStatus p = critical <-> (90 <= p)%Q) /\
  (getUsageStatus p = warning <-> (70 <= p)%Q /\ (p < 90)%Q) /\
  (getUsageStatus p = safe <-> (p < 70)%Q).
Proof.
  unfold getUsageStatus.
  destruct (JS.ge p 90) eqn:H90; [|destruct (JS.ge p 70) eqn:H70].
  - apply ge_true_iff in H90.
    assert (70 <= p)%Q by (eapply Qle_trans; [|exact H90]; discriminate).
    repeat split; try discriminate; try tauto.
    + intros [_ Hlt]. exfalso. exact (Qlt_not_le _ _ Hlt H90).
    + intros Hlt. exfalso. apply (Qlt_not_le _ _ Hlt). assumption.
  - apply ge_true_iff in H70.
    assert (p < 90)%Q.
    { apply Qnot_le_lt. intros Hle. apply ge_true_iff in Hle. congruence. }
    repeat split; try discriminate; try tauto.
    + intros Hle. exfalso. exact (Qlt_not_le _ _ H Hle).
    + intros Hlt. exfalso. exact (Qlt_not_le _ _ Hlt H70).
  - assert (p < 70)%Q.
    { apply Qnot_le_lt. intros Hle. apply ge_true_iff in Hle. congruence. }
    assert (p < 90)%Q by (eapply Qlt_trans; [exact H|reflexivity]).
    repeat split; try discriminate; try tauto.
    + intros Hle. exfalso. exact (Qlt_not_le _ _ H0 Hle).
    + intros [Hle _]. exfalso. exact (Qlt_not_le _ _ H Hle).
Qed.

(** X17. With a clock in range, [getMenuBarData] always returns: it is one
    call of [getUsageStats] (same final state, so at most one pair of
    requests), whose stats give the three token figures; the status is
    'critical' from 90 percent, 'warning' from 70 and 'safe' below; the cost
    is 0; and the time until the reset is the text of [actualResetInfo],
    undefined without one. *)
Theorem menu_bar_data_follows_the_stats (env : Env) (m : Machine) :
  saneClock env ->
  exists s d m',
    getUsageStats env m = (inr s, m') /\
    getMenuBarData env m = (inr d, m') /\
    MenuBarData.tokensUsed d = UsageStats.tokensUsed s /\
    MenuBarData.tokenLimit d = UsageStats.tokenLimit s /\
    MenuBarData.percentageUsed d = UsageStats.percentageUsed s /\
    (MenuBarData.status d = critical <-> (90 <= UsageStats.percentageUsed s)%Q) /\
    (MenuBarData.status d = warning <->
     (70 <= UsageStats.percentageUsed s)%Q /\
     (UsageStats.percentageUsed s < 90)%Q) /\
    (MenuBarData.status d = safe <-> (UsageStats.percentageUsed s < 70)%Q) /\
    MenuBarData.cost d = 0%Q /\
    MenuBarData.timeUntilReset d
    = match UsageStats.actualResetInfo s with
      | Some info => Some (ActualResetInfo.formattedTimeRemaining info)
      | None => None
      end.
Proof.
  intros Hclock.
  destruct (getUsageStats_returns_stats env m Hclock) as (s & m' & Hrun).
  exists s. eexists. exists m'.
  split; [exact Hrun|].
  split; [unfold getMenuBarData; rewrite bind_run, Hrun; reflexivity|].
  cbn [MenuBarData.tokensUsed MenuBarData.tokenLimit MenuBarData.percentageUsed
       MenuBarData.status MenuBarData.cost MenuBarData.timeUntilReset].
  destruct (getUsageStatus_cases (UsageStats.percentageUsed s))
    as (Hcritical & Hwarning & Hsafe).
  repeat split; try apply Hcritical; try apply Hwarning; try apply Hsafe;
    try tauto.
Qed.

Lemma menu_bar_data_follows_the_stats_witness :
  exists d m',
    getMenuBarData Sample.online Sample.start = (inr d, m') /\
    MenuBarData.cost d = 0%Q.
Proof.
  destruct (menu_bar_data_follows_the_stats Sample.online Sample.start
              (sample_clock_is_sane _ _))
    as (s & d & m' & _ & Hrun & _ & _ & _ & _ & _ & _ & Hcost & _).
  exists d, m'. split; [exact Hrun|exact Hcost].
Defined.

Lemma detectPlanFromLimit_cases (l : JS.number) :
  (detectPlanFromLimit l = Pro <-> (l <= 7000)%Q) /\
  (detectPlanFromLimit l = Max5 <-> (7000 < l)%Q /\ (l <= 35000)%Q) /\
  (detectPlanFromLimit l = Max20 <-> (35000 < l)%Q /\ (l <= 140000)%Q) /\
  (detectPlanFromLimit l = Custom <-> (140000 < l)%Q).
Proof.
  assert (forall a b, JS.le a b = false -> (b < a)%Q) as Hlt.
  { intros a b H. apply Qnot_le_lt. intros Hle. apply le_true_iff in Hle.
    congruence. }
  unfold detectPlanFromLimit.
  destruct (JS.le l 7000) eqn:H1;
    [|destruct (JS.le l 35000) eqn:H2; [|destruct (JS.le l 140000) eqn:H3]].
  - apply le_true_iff in H1.
    repeat split; try discriminate; try tauto; intros; exfalso; lra.
  - apply Hlt in H1. apply le_true_iff in H2.
    repeat split; try discriminate; try tauto; intros; exfalso; lra.
  - apply Hlt in H1, H2. apply le_true_iff in H3.
    repeat split; try discriminate; try tauto; intros; exfalso; lra.
  - apply Hlt in H1, H2, H3.
    repeat split; try discriminate; try tauto; intros; exfalso; lra.
Qed.

(** X18. The status and the plan grow with their argument: a higher
    percentage never gives a milder status (safe, warning, critical), and a
    higher token limit never gives a smaller plan (Pro, Max5, Max20,
    Custom); the plan is 'Custom' exactly above 140000 tokens and 'Pro'
    exactly up to 7000. *)
Theorem status_and_plan_are_monotone (a b : JS.number) :
  (a <= b)%Q ->
  (severity (getUsageStatus a) <= severity (getUsageStatus b))%nat /\
  (planRank (detectPlanFromLimit a) <= planRank (detectPlanFromLimit b))%nat /\
  (detectPlanFromLimit a = Custom <-> (140000 < a)%Q) /\
  (detectPlanFromLimit a = Pro <-> (a <= 7000)%Q).
Proof.
  intros Hab.
  destruct (getUsageStatus_cases a) as (Ha1 & Ha2 & Ha3).
  destruct (getUsageStatus_cases b) as (Hb1 & Hb2 & Hb3).
  destruct (detectPlanFromLimit_cases a) as (Hpa1 & Hpa2 & Hpa3 & Hpa4).
  destruct (detectPlanFromLimit_cases b) as (Hpb1 & Hpb2 & Hpb3 & Hpb4).
  split; [|split; [|split; assumption]].
  - clear Hpa1 Hpa2 Hpa3 Hpa4 Hpb1 Hpb2 Hpb3 Hpb4.
    destruct (getUsageStatus a), (getUsageStatus b); simpl; try lia; exfalso;
      pose proof (proj1 Ha1); pose proof (proj1 Ha2); pose proof (proj1 Ha3);
      pose proof (proj1 Hb1); pose proof (proj1 Hb2); pose proof (proj1 Hb3);
      intuition lra.
  - clear Ha1 Ha2 Ha3 Hb1 Hb2 Hb3.
    destruct (detectPlanFromLimit a), (detectPlanFromLimit b);
      simpl; try lia; exfalso;
      pose proof (proj1 Hpa1); pose proof (proj1 Hpa2);
      pose proof (proj1 Hpa3); pose proof (proj1 Hpa4);
      pose proof (proj1 Hpb1); pose proof (proj1 Hpb2);
      pose proof (proj1 Hpb3); pose proof (proj1 Hpb4);
      intuition lra.
Qed.

Lemma status_and_plan_are_monotone_witness :
  (severity (getUsageStatus 75%Q) <= severity (getUsageStatus 95%Q))%nat.
Proof.
  refine (proj1 (status_and_plan_are_monotone 75%Q 95%Q _)).
  discriminate.
Defined.

(** ** What [initialize] takes from the settings file *)

(** X19. After [initialize] the three fields of the application are what
    the settings file itself gives for them, whatever its type, when that
    is truthy, and otherwise 'ccusage', 'alternate' and 'today'; so the
    z.ai service is the active one exactly when the file can be read and
    parsed and its [dataSource] is the string 'zai'.  What the fields held
    before plays no part. *)
Theorem initialize_reads_the_file (detectedTimezone : string)
    (JSON_parse : string -> option json) (file : SettingsFile)
    (app : CCSevaApp) :
  dataSource (initialize detectedTimezone JSON_parse file app)
  = value_or (fileProperty JSON_parse file "dataSource")
      (Some (JString "ccusage")) /\
  menuBarDisplayMode (initialize detectedTimezone JSON_parse file app)
  = value_or (fileProperty JSON_parse file "menuBarDisplayMode")
      (Some (JString "alternate")) /\
  menuBarCostSource (initialize detectedTimezone JSON_parse file app)
  = value_or (fileProperty JSON_parse file "menuBarCostSource")
      (Some (JString "today")) /\
  (getActiveService (initialize detectedTimezone JSON_parse file app)
   = zaiService <->
   fileProperty JSON_parse file "dataSource" = Some (JString "zai")).
Proof.
  assert (exists settings,
            loadSettings detectedTimezone JSON_parse file = inr settings)
    as [settings Hload].
  { unfold loadSettings. destruct (loadSettings_try _ _ _) as [e|[s|]]; eauto. }
  assert (dataSource (initialize detectedTimezone JSON_parse file app)
          = value_or (fileProperty JSON_parse file "dataSource")
              (Some (JString "ccusage"))) as Hsource.
  { unfold initialize. rewrite Hload. simpl.
    apply (initialize_field _ _ _ _ _ _ Hload).
    unfold getProp, defaultSettings. simplify_map_eq. reflexivity. }
  split; [exact Hsource|]. split; [|split].
  - unfold initialize. rewrite Hload. simpl.
    apply (initialize_field _ _ _ _ _ _ Hload).
    unfold getProp, defaultSettings. simplify_map_eq. reflexivity.
  - unfold initialize. rewrite Hload. simpl.
    apply (initialize_field _ _ _ _ _ _ Hload).
    unfold getProp, defaultSettings. simplify_map_eq. reflexivity.
  - rewrite getActiveService_zai, Hsource. unfold value_or.
    destruct (fileProperty JSON_parse file "dataSource") as [j|] eqn:Hj.
    + destruct (truthy (Some j)) eqn:Htruthy; [reflexivity|].
      split; [discriminate|]. intros [= ->]. discriminate Htruthy.
    + simpl. split; discriminate.
Qed.

(** ** What the [save-settings] handler does to the active service *)

Lemma isString_true (s : string) (v : value) :
  isString s v = true <-> v = Some (JString s).
Proof.
  unfold isString. destruct v as [[| | |s'| |]|]; try (split; discriminate).
  destruct (String.eqb s' s) eqn:E.
  - apply String.eqb_eq in E as ->. split; reflexivity.
  - apply String.eqb_neq in E. split; [discriminate|]. intros [= ->]. congruence.
Qed.

Lemma strictEq_string (s : string) (v : value) :
  strictEq (Some (JString s)) v = true -> v = Some (JString s).
Proof.
  destruct v as [[| | |s'| |]|]; simpl; try discriminate.
  intros E. apply String.eqb_eq in E as ->. reflexivity.
Qed.

(** X20. The [save-settings] handler.  When [saveSettings] throws, no field
    changes and no service is called.  When it succeeds, the handler first
    passes the plan settings to both services ([updateConfiguration] on the
    ccusage service, then on the z.ai service, whichever is active), and
    then makes at most two more calls, all for the menu bar data.  A
    non-empty string given as [dataSource] becomes the field, so the
    service it names is the active one from then on; without a truthy
    [dataSource] the field stays; and whenever the active service changes,
    the last call of the handler asks the new service for the menu bar
    data. *)
Theorem save_settings_switches_the_service (settings : gmap string value)
    (app : CCSevaApp) :
  handle (Ipc_save_settings settings false) app = (app, []) /\
  (forall s,
     getProp settings "dataSource" = Some (JString s) -> s <> "" ->
     dataSource (fst (handle (Ipc_save_settings settings true) app))
     = Some (JString s)) /\
  (truthy (getProp settings "dataSource") = false ->
   dataSource (fst (handle (Ipc_save_settings settings true) app))
   = dataSource app) /\
  exists dataCalls,
    snd (handle (Ipc_save_settings settings true) app)
    = [mkCall (dataSource app) ccusageService call_updateConfiguration;
       mkCall (dataSource app) zaiService call_updateConfiguration]
      ++ dataCalls /\
    Forall (fun c => method c = call_getMenuBarData) dataCalls /\
    (length dataCalls <= 2)%nat /\
    (getActiveService (fst (handle (Ipc_save_settings settings true) app))
     <> getActiveService app ->
     exists before,
       dataCalls
       = before ++
         [mkCall (getProp settings "dataSource")
            (getActiveService
               (fst (handle (Ipc_save_settings settings true) app)))
            call_getMenuBarData]).
Proof.
  split; [reflexivity|].
  cbn [handle]. rewrite afterSave_fields. cbn [fst snd dataSource].
  set (ds := getProp settings "dataSource").
  split; [|split].
  - intros s Hs Hne. rewrite Hs.
    destruct (strictEq (Some (JString s)) (dataSource app)) eqn:Heq.
    + apply strictEq_string in Heq. rewrite Heq, andb_false_r. reflexivity.
    + assert (truthy (Some (JString s)) = true) as ->.
      { simpl. destruct s; [congruence|reflexivity]. }
      reflexivity.
  - intros ->. reflexivity.
  - eexists. split; [reflexivity|]. split; [|split].
    + apply List.Forall_app. split.
      * destruct (truthy _ && _); repeat constructor.
      * destruct (truthy ds && _); repeat constructor.
    + rewrite length_app.
      destruct (truthy (getProp settings "menuBarCostSource") && _),
        (truthy ds && _); simpl; lia.
    + intros Hchanged.
      destruct (truthy ds && negb (strictEq ds (dataSource app))) eqn:Hds.
      * eexists. reflexivity.
      * exfalso. apply Hchanged. reflexivity.
Qed.

Lemma save_settings_switches_the_service_witness :
  dataSource
    (fst (handle
            (Ipc_save_settings {[ "dataSource" := Some (JString "zai") ]} true)
            newApp))
  = Some (JString "zai").
Proof.
  refine (proj1 (proj2 (save_settings_switches_the_service
                          {[ "dataSource" := Some (JString "zai") ]} newApp))
            "zai" _ _).
  - reflexivity.
  - discriminate.
Defined.

(** ** The timer that alternates the display *)

Lemma initializeDisplay_invariants (detectedTimezone : string)
    (JSON_parse : string -> option json) (file : SettingsFile) :
  noStrayTimer (initializeDisplay detectedTimezone JSON_parse file) /\
  timerMatchesMode (initializeDisplay detectedTimezone JSON_parse file).
Proof.
  unfold initializeDisplay. cbv zeta. cbn [displayMode].
  destruct (isString "alternate" _) eqn:Hmode.
  - apply isString_true in Hmode.
    unfold noStrayTimer, timerMatchesMode, startDisplayToggle.
    cbn [displayMode displayInterval running created].
    split; [|split].
    + intros h Hh. apply elem_of_union in Hh as [Hh|Hh].
      * apply elem_of_singleton in Hh as ->. reflexivity.
      * apply elem_of_empty in Hh as [].
    + intros h [= <-]. apply elem_of_union_l, elem_of_singleton. reflexivity.
    + split; [intros _; exact Hmode|eauto].
  - unfold noStrayTimer, timerMatchesMode.
    cbn [displayMode displayInterval running created].
    split; [|split].
    + intros h Hh. set_solver.
    + discriminate.
    + split; [intros [h Hh]; discriminate|].
      intros Hmode'. apply isString_true in Hmode'. congruence.
Qed.

Lemma handleDisplay_noStrayTimer (req : AppRequest) (d : Display) :
  noStrayTimer d -> noStrayTimer (handleDisplay req d).
Proof.
  intros Htidy.
  destruct req as [| | |settings saved| | |]; cbn [handleDisplay];
    try exact Htidy.
  - destruct saved; [|exact Htidy]. unfold saveDisplayMode. cbv zeta.
    destruct (truthy _ && _); [|exact Htidy].
    cbn [displayMode displayInterval running created].
    destruct (isString "alternate" _).
    + destruct (displayInterval d) as [h0|] eqn:Hh0.
      * intros h Hh. cbn [displayInterval running] in *.
        apply Htidy in Hh. congruence.
      * intros h Hh. unfold startDisplayToggle in *.
        cbn [displayMode displayInterval running created] in *.
        apply elem_of_union in Hh as [Hh|Hh].
        -- apply elem_of_singleton in Hh as ->. reflexivity.
        -- apply Htidy in Hh. congruence.
    + destruct (displayInterval d) as [h0|] eqn:Hh0.
      * intros h Hh. unfold clearInterval in Hh.
        cbn [displayMode displayInterval running created] in *.
        apply elem_of_difference in Hh as [Hh Hne].
        apply Htidy in Hh. exfalso. apply Hne.
        apply elem_of_singleton. congruence.
      * intros h Hh. cbn [displayMode displayInterval running created] in *.
        apply Htidy in Hh. congruence.
  - unfold quitDisplay. destruct (displayInterval d) as [h0|] eqn:Hh0;
      [|exact Htidy].
    intros h Hh. unfold clearInterval in Hh.
    cbn [displayMode displayInterval running created] in *.
    apply elem_of_difference in Hh as [Hh _].
    apply Htidy in Hh. congruence.
Qed.

Lemma handleDisplay_timerMatchesMode (req : AppRequest) (d : Display) :
  req <> Ipc_quit_app ->
  timerMatchesMode d -> timerMatchesMode (handleDisplay req d).
Proof.
  intros Hreq Hexact.
  destruct req as [| | |settings saved| | |]; cbn [handleDisplay];
    try exact Hexact; [|congruence].
  destruct saved; [|exact Hexact]. unfold saveDisplayMode. cbv zeta.
  destruct (truthy _ && _); [|exact Hexact].
  cbn [displayMode displayInterval running created].
  destruct Hexact as [Hruns Hmode].
  destruct (isString "alternate" _) eqn:Hnew.
  - apply isString_true in Hnew.
    destruct (displayInterval d) as [h0|] eqn:Hh0.
    + split; cbn [displayMode displayInterval running created].
      * intros h Hh. apply Hruns. congruence.
      * split; [intros _; exact Hnew|eauto].
    + split; unfold startDisplayToggle;
        cbn [displayMode displayInterval running created].
      * intros h [= <-]. apply elem_of_union_l, elem_of_singleton.
        reflexivity.
      * split; [intros _; exact Hnew|eauto].
  - assert (getProp settings "menuBarDisplayMode"
            <> Some (JString "alternate")) as Hne.
    { intros Heq. apply isString_true in Heq. congruence. }
    destruct (displayInterval d) as [h0|] eqn:Hh0.
    + split; cbn [displayMode displayInterval running created].
      * discriminate.
      * split; [intros [h Hh]; discriminate|intros Heq; contradiction].
    + split; cbn [displayMode displayInterval running created].
      * intros h Hh. congruence.
      * split; [intros [h Hh]; congruence|intros Heq; contradiction].
Qed.

Lemma handleDisplay_mode (req : AppRequest) (d : Display) (app : CCSevaApp) :
  displayMode d = menuBarDisplayMode app ->
  displayMode (handleDisplay req d) = menuBarDisplayMode (fst (handle req app)).
Proof.
  intros Hmode.
  destruct req as [| | |settings saved| | |]; cbn [handleDisplay handle fst];
    try exact Hmode.
  - destruct saved; [|exact Hmode].
    rewrite afterSave_fields. cbn [fst menuBarDisplayMode].
    unfold saveDisplayMode. cbv zeta. rewrite Hmode.
    destruct (truthy _ && _); [|exact Hmode].
    cbn [displayMode displayInterval running created].
    destruct (isString "alternate" _), (displayInterval d); reflexivity.
  - unfold quitDisplay. destruct (displayInterval d); exact Hmode.
Qed.

Lemma runDisplay_invariants (reqs : list AppRequest) (d : Display)
    (app : CCSevaApp) :
  noStrayTimer d -> displayMode d = menuBarDisplayMode app ->
  noStrayTimer (runDisplay reqs d) /\
  displayMode (runDisplay reqs d) = menuBarDisplayMode (runApp reqs app) /\
  (~ In Ipc_quit_app reqs ->
   timerMatchesMode d -> timerMatchesMode (runDisplay reqs d)).
Proof.
  revert d app. induction reqs as [|req reqs IH]; intros d app Htidy Hmode.
  - auto.
  - cbn [runDisplay runApp fold_left].
    destruct (IH (handleDisplay req d) (fst (handle req app))
                (handleDisplay_noStrayTimer req d Htidy)
                (handleDisplay_mode req d app Hmode)) as (H1 & H2 & H3).
    split; [exact H1|]. split; [exact H2|].
    intros Hquit Hexact. apply H3.
    + intros Hin. apply Hquit. right. exact Hin.
    + apply handleDisplay_timerMatchesMode; [|exact Hexact].
      intros ->. apply Hquit. left. reflexivity.
Qed.

(** X21. The timer that alternates the menu bar between percentage and cost.
    After [initialize] and any requests, at most one such timer runs, and it
    is the one [displayInterval] holds (none is started twice or lost); the
    mode of the display is the [menuBarDisplayMode] of the application; and
    until [quit-app], a timer runs exactly when the mode is 'alternate'. *)
Theorem at_most_one_display_timer (detectedTimezone : string)
    (JSON_parse : string -> option json) (file : SettingsFile)
    (reqs : list AppRequest) :
  (size (running (runDisplay reqs
                    (initializeDisplay detectedTimezone JSON_parse file)))
   <= 1)%nat /\
  (forall h,
     h ∈ running (runDisplay reqs
                    (initializeDisplay detectedTimezone JSON_parse file)) ->
     displayInterval (runDisplay reqs
                        (initializeDisplay detectedTimezone JSON_parse file))
     = Some h) /\
  displayMode (runDisplay reqs
                 (initializeDisplay detectedTimezone JSON_parse file))
  = menuBarDisplayMode
      (runApp reqs (initialize detectedTimezone JSON_parse file newApp)) /\
  (~ In Ipc_quit_app reqs ->
   (running (runDisplay reqs
               (initializeDisplay detectedTimezone JSON_parse file)) <> ∅ <->
    displayMode (runDisplay reqs
                   (initializeDisplay detectedTimezone JSON_parse file))
    = Some (JString "alternate"))).
Proof.
  destruct (initializeDisplay_invariants detectedTimezone JSON_parse file)
    as [Htidy Hexact].
  assert (displayMode (initializeDisplay detectedTimezone JSON_parse file)
          = menuBarDisplayMode
              (initialize detectedTimezone JSON_parse file newApp)) as Hmode.
  { unfold initializeDisplay. cbv zeta. cbn [displayMode].
    destruct (isString "alternate" _); reflexivity. }
  destruct (runDisplay_invariants reqs _ _ Htidy Hmode) as (H1 & H2 & H3).
  set (d := runDisplay reqs _) in *.
  split; [|split; [exact H1|split; [exact H2|]]].
  - destruct (displayInterval d) as [h0|] eqn:Hh0.
    + transitivity (size ({[ h0 ]} : gset nat)).
      * apply subseteq_size. intros h Hh. apply H1 in Hh.
        apply elem_of_singleton. congruence.
      * rewrite size_singleton. lia.
    + assert (running d = ∅) as ->.
      { apply set_eq. intros h. split; [|set_solver].
        intros Hh. apply H1 in Hh. congruence. }
      rewrite size_empty. lia.
  - intros Hquit. destruct (H3 Hquit Hexact) as [Hruns Hiff].
    rewrite <- Hiff. split.
    + intros Hne. destruct (displayInterval d) as [h0|] eqn:Hh0; [eauto|].
      exfalso. apply Hne. apply set_eq. intros h. split; [|set_solver].
      intros Hh. apply H1 in Hh. congruence.
    + intros [h0 Hh0] Hempty. apply Hruns in Hh0. rewrite Hempty in Hh0.
      set_solver.
Qed.

Lemma at_most_one_display_timer_witness :
  running (runDisplay
             [Ipc_save_settings
                {[ "menuBarDisplayMode" := Some (JString "cost") ]} true;
              PollTick;
              Ipc_save_settings
                {[ "menuBarDisplayMode" := Some (JString "alternate") ]} true]
             (initializeDisplay "UTC" (fun _ => None) Absent)) <> ∅.
Proof.
  refine (proj2 (proj2 (proj2 (proj2 (at_most_one_display_timer
                                        "UTC" (fun _ => None) Absent _))) _) _).
  - intros [H|[H|[H|[]]]]; discriminate H.
  - reflexivity.
Defined.

(** ** Saving and loading the settings *)

Lemma stringified_lookup (o : gmap string value) (k : string) :
  stringified o !! k
  = match o !! k with
    | Some (Some j) => Some (Some j)
    | _ => None
    end.
Proof.
  unfold stringified. apply option_eq. intros v.
  rewrite map_lookup_filter_Some. cbn [snd].
  destruct (o !! k) as [[j|]|] eqn:E.
  - split.
    + intros [Hv _]. exact (eq_trans (eq_sym E) Hv).
    + intros [= <-]. split; [exact E|eauto].
  - split; [|discriminate].
    intros [Hv [j Hj]]. pose proof (eq_trans (eq_sym E) Hv) as Heq.
    injection Heq as <-. discriminate.
  - split; [|discriminate].
    intros [Hv _]. pose proof (eq_trans (eq_sym E) Hv) as Heq.
    discriminate.
Qed.

Lemma loadSettings_returns (tz : string) (parse : string -> option json)
    (file : SettingsFile) :
  exists settings, loadSettings tz parse file = inr settings.
Proof.
  unfold loadSettings. destruct (loadSettings_try _ _ _) as [e|[s|]]; eauto.
Qed.

(** X22. [saveSettings] followed by [loadSettings].  The save loads the
    current settings, lays the given ones over them and, when the write
    succeeds, leaves that text as the file; when the write throws, the save
    rejects.  If the text is read back as written, the settings loaded next
    hold every value given; keep, for a key that was not given, what was
    loaded before the save; and hold the default for a key given as
    [undefined] (the value before the save is lost). *)
Theorem saved_settings_are_loaded_back (detectedTimezone : string)
    (JSON_parse : string -> option json)
    (JSON_stringify : gmap string value -> string)
    (settings current : gmap string value) (file : SettingsFile) :
  loadSettings detectedTimezone JSON_parse file = inr current ->
  readsBack JSON_parse JSON_stringify (spread2 current settings) ->
  (forall remains,
     saveSettings detectedTimezone JSON_parse JSON_stringify settings file
       (NotWritten remains) = (inl WriteFailed, remains)) /\
  exists file' loaded,
    saveSettings detectedTimezone JSON_parse JSON_stringify settings file
      Written = (inr (), file') /\
    loadSettings detectedTimezone JSON_parse file' = inr loaded /\
    (forall k j, getProp settings k = Some j -> getProp loaded k = Some j) /\
    (forall k, settings !! k = None -> getProp loaded k = getProp current k) /\
    (forall k,
       settings !! k = Some None ->
       getProp loaded k = getProp (defaultSettings detectedTimezone) k).
Proof.
  intros Hcurrent (parsed & Hparse & Hprops).
  split.
  { intros remains. unfold saveSettings. rewrite Hcurrent. reflexivity. }
  destruct (loadSettings_returns detectedTimezone JSON_parse
              (Contents (JSON_stringify (spread2 current settings))))
    as [loaded Hloaded].
  exists (Contents (JSON_stringify (spread2 current settings))), loaded.
  split; [unfold saveSettings; rewrite Hcurrent; reflexivity|].
  split; [exact Hloaded|].
  assert (forall k,
            getProp loaded k
            = match spread2 current settings !! k with
              | Some (Some j) => Some j
              | _ => getProp (defaultSettings detectedTimezone) k
              end) as Hk.
  { intros k. rewrite (loaded_property _ _ _ _ k Hloaded).
    unfold fileProperty. rewrite Hparse. unfold getProp at 1.
    rewrite Hprops, stringified_lookup.
    destruct (spread2 current settings !! k) as [[j|]|]; reflexivity. }
  assert (forall k,
            getProp current k
            = match fileProperty JSON_parse file k with
              | Some j => Some j
              | None => getProp (defaultSettings detectedTimezone) k
              end) as Hc by (intros k; apply loaded_property, Hcurrent).
  clear Hcurrent Hloaded Hparse Hprops.
  split; [|split].
  - intros k j Hj. rewrite Hk.
    pose proof (spread2_lookup current settings k) as Hs.
    unfold getProp in Hj. unfold value in *.
    destruct (settings !! k) as [v|]; [|discriminate].
    rewrite Hs, Hj. reflexivity.
  - intros k Hnone. rewrite Hk.
    pose proof (spread2_lookup current settings k) as Hs.
    specialize (Hc k).
    assert (getProp current k
            = match current !! k with Some v => v | None => None end)
      as Hcur by reflexivity.
    rewrite Hcur in Hc. rewrite Hcur. clear Hcur.
    unfold value in *. rewrite Hnone in Hs. rewrite Hs.
    destruct (current !! k) as [[j|]|]; [reflexivity| |].
    + destruct (fileProperty JSON_parse file k); [discriminate|].
      symmetry. exact Hc.
    + destruct (fileProperty JSON_parse file k); [discriminate|].
      symmetry. exact Hc.
  - intros k Hundef. rewrite Hk.
    pose proof (spread2_lookup current settings k) as Hs.
    unfold value in *. rewrite Hundef in Hs. rewrite Hs. reflexivity.
Qed.

Lemma saved_settings_are_loaded_back_witness :
  exists file' loaded,
    saveSettings "UTC"
      (fun _ => Some (JObject [("timezone", JString "UTC");
                               ("resetHour", JNumber 0%Q);
                               ("plan", JString "auto");
                               ("menuBarDisplayMode", JString "alternate");
                               ("menuBarCostSource", JString "today");
                               ("dataSource", JString "zai")]))
      (fun _ => "{}") {[ "dataSource" := Some (JString "zai") ]} Absent Written
    = (inr (), file') /\
    loadSettings "UTC"
      (fun _ => Some (JObject [("timezone", JString "UTC");
                               ("resetHour", JNumber 0%Q);
                               ("plan", JString "auto");
                               ("menuBarDisplayMode", JString "alternate");
                               ("menuBarCostSource", JString "today");
                               ("dataSource", JString "zai")]))
      file' = inr loaded /\
    getProp loaded "dataSource" = Some (JString "zai").
Proof.
  destruct (saved_settings_are_loaded_back "UTC"
              (fun _ => Some (JObject [("timezone", JString "UTC");
                                       ("resetHour", JNumber 0%Q);
                                       ("plan", JString "auto");
                                       ("menuBarDisplayMode", JString "alternate");
                                       ("menuBarCostSource", JString "today");
                                       ("dataSource", JString "zai")]))
              (fun _ => "{}") {[ "dataSource" := Some (JString "zai") ]}
              (defaultSettings "UTC") Absent)
    as (_ & file' & loaded & Hsave & Hload & Hgiven & _).
  - reflexivity.
  - eexists. split; [reflexivity|]. vm_compute. reflexivity.
  - exists file', loaded. split; [exact Hsave|]. split; [exact Hload|].
    apply Hgiven. reflexivity.
Defined.

(** ** The days of the week and of the month *)

Section RecentDays.

Variable env : Env.

Lemma advances_ret {A} (a : A) : advances (@ret A a).
Proof. intros m. reflexivity. Qed.

Lemma advances_throw {A} (e : Error) : advances (@throw A e).
Proof. intros m. reflexivity. Qed.

Lemma advances_bind {A B} (c : M A) (k : A -> M B) :
  advances c -> (forall a, advances (k a)) -> advances (bind c k).
Proof.
  intros Hc Hk m. rewrite bind_run. specialize (Hc m).
  destruct (c m) as [[e|a] m1]; cbn [snd] in *; [exact Hc|].
  specialize (Hk a m1). lia.
Qed.

Lemma advances_Date_now : advances (Date_now env).
Proof. intros m. simpl. lia. Qed.

Lemma advances_Date_toISOString (d : JS.Date) :
  advances (Date_toISOString env d).
Proof. destruct d; [apply advances_ret|apply advances_throw]. Qed.

Ltac advances_step :=
  match goal with
  | |- advances (bind _ _) => apply advances_bind; [|intros ?]
  | |- advances (if ?b then _ else _) => destruct b
  | |- advances (match ?x with _ => _ end) => destruct x
  | |- _ =>
      first [apply advances_ret | apply advances_throw
            | apply advances_Date_now | apply advances_Date_toISOString]
  end.

Lemma advances_todayString : advances (todayString env).
Proof. unfold todayString. repeat advances_step. Qed.

Lemma advances_getEmptyDailyUsage : advances (getEmptyDailyUsage env).
Proof.
  unfold getEmptyDailyUsage.
  apply advances_bind; [apply advances_todayString|intros d].
  apply advances_ret.
Qed.

Lemma advances_actualResetInfoOf (q : ZaiQuotaLimit.t) :
  advances (actualResetInfoOf env q).
Proof. unfold actualResetInfoOf. repeat advances_step. Qed.

Lemma advances_calculatePredictionInfo (used limit : JS.number)
    (v : VelocityInfo.t) (r : ResetTimeInfo.t) :
  advances (calculatePredictionInfo env used limit v r).
Proof. unfold calculatePredictionInfo. repeat advances_step. Qed.

Lemma advanced {A} (c : M A) (m m' : Machine) (r : Error + A) :
  advances c -> c m = (r, m') -> (reads m <= reads m')%nat.
Proof. intros Hc Hrun. specialize (Hc m). rewrite Hrun in Hc. exact Hc. Qed.

Lemma Date_ge_true (a : JS.Date) (b : Z) :
  JS.Date_ge a (Some b) = true <-> exists t, a = Some t /\ b <= t.
Proof.
  destruct a as [t|]; simpl.
  - rewrite Z.leb_le. split; [eauto|]. intros (t' & [= <-] & H). exact H.
  - split; [discriminate|]. intros (t' & H & _). discriminate.
Qed.

(** What the filter of [thisWeek] and [thisMonth] keeps. *)
Lemma filterM_notOlderThan (days : Z) (l : list DailyUsage.t) :
  forall m r m',
    filterM (notOlderThan env days) l m = (inr r, m') ->
    sublist r l /\
    reads m' = (reads m + length l)%nat /\
    (forall d, In d r ->
               exists n, (reads m <= n < reads m')%nat /\
                         recentAt env days n d) /\
    (forall d, In d l ->
               (forall n, (reads m <= n < reads m')%nat ->
                          recentAt env days n d) ->
               In d r).
Proof.
  induction l as [|x l IH]; intros m r m' Hrun.
  - injection Hrun as <- <-. split; [constructor|]. split; [simpl; lia|].
    split; intros d [].
  - cbn [filterM] in Hrun.
    apply bind_returns in Hrun as (keep & m1 & Hkeep & Hrun).
    apply bind_returns in Hrun as (rest & m2 & Hrest & Hrun).
    injection Hrun as <- <-.
    unfold notOlderThan in Hkeep. cbv zeta in Hkeep.
    apply bind_returns in Hkeep as (now & m0 & Hnow & Hkeep).
    injection Hnow as <- <-. injection Hkeep as <- <-.
    destruct (IH _ _ _ Hrest) as (Hsub & Hreads & Hsound & Hcomplete).
    cbn [reads] in Hreads, Hsound, Hcomplete.
    split; [|split; [|split]].
    + destruct (JS.Date_ge _ _); [apply sublist_skip|apply sublist_cons];
        exact Hsub.
    + cbn [length]. lia.
    + intros d Hd.
      destruct (JS.Date_ge _ _) eqn:Hge.
      * destruct Hd as [<-|Hd].
        -- exists (reads m). split; [lia|]. apply Date_ge_true, Hge.
        -- destruct (Hsound d Hd) as (n & Hn & Hrecent).
           exists n. split; [lia|exact Hrecent].
      * destruct (Hsound d Hd) as (n & Hn & Hrecent).
        exists n. split; [lia|exact Hrecent].
    + intros d Hd Hall.
      assert (In d l -> In d rest) as Hrest'.
      { intros Hin. apply (Hcomplete d Hin). intros n Hn. apply Hall. lia. }
      destruct Hd as [<-|Hd].
      * assert (recentAt env days (reads m) x) as Hx by (apply Hall; lia).
        apply Date_ge_true in Hx. rewrite Hx. left. reflexivity.
      * destruct (JS.Date_ge _ _); [right|]; exact (Hrest' Hd).
Qed.

End RecentDays.

(** X23. The lists of mapped stats.  [thisWeek] and [thisMonth] are the
    daily list with days left out, in the same order; a day that is kept
    has a date that parses and is, by a clock read made during the call,
    not older than 7 (30) days; a day that passes this test at every clock
    read of the call is kept; and [today] is a day of the daily list, or
    an empty day without tokens. *)
Theorem recent_days_of_mapped_stats (env : Env) (q : ZaiQuotaLimit.t)
    (u : ZaiModelUsageResponse.t) (m m' : Machine) (s : UsageStats.t) :
  mapZaiToUsageStats env q u m = (inr s, m') ->
  sublist (UsageStats.thisWeek s) (mapHourlyToDailyUsage env u) /\
  sublist (UsageStats.thisMonth s) (mapHourlyToDailyUsage env u) /\
  (forall d, In d (UsageStats.thisWeek s) ->
             exists n, (reads m <= n < reads m')%nat /\ recentAt env 7 n d) /\
  (forall d, In d (UsageStats.thisMonth s) ->
             exists n, (reads m <= n < reads m')%nat /\ recentAt env 30 n d) /\
  (forall d, In d (mapHourlyToDailyUsage env u) ->
             (forall n, (reads m <= n < reads m')%nat -> recentAt env 7 n d) ->
             In d (UsageStats.thisWeek s)) /\
  (forall d, In d (mapHourlyToDailyUsage env u) ->
             (forall n, (reads m <= n < reads m')%nat -> recentAt env 30 n d) ->
             In d (UsageStats.thisMonth s)) /\
  (In (UsageStats.today s) (mapHourlyToDailyUsage env u) \/
   DailyUsage.totalTokens (UsageStats.today s) = 0%Q /\
   DailyUsage.models (UsageStats.today s) = []).
Proof.
  unfold mapZaiToUsageStats. intros H. cbv zeta in H.
  apply bind_returns in H as (t0 & m1 & H1 & H).
  apply bind_returns in H as (actual & m2 & H2 & H).
  apply bind_returns in H as (prediction & m3 & H3 & H).
  apply bind_returns in H as (todayStr & m4 & H4 & H).
  apply bind_returns in H as (todayData & m5 & H5 & H).
  apply bind_returns in H as (week & m6 & Hweek & H).
  apply bind_returns in H as (month & m7 & Hmonth & H).
  injection H as <- <-.
  cbn [UsageStats.thisWeek UsageStats.thisMonth UsageStats.today].
  apply (advanced _ _ _ _ (advances_Date_now env)) in H1.
  apply (advanced _ _ _ _ (advances_actualResetInfoOf env q)) in H2.
  apply (advanced _ _ _ _ (advances_calculatePredictionInfo env _ _ _ _)) in H3.
  apply (advanced _ _ _ _ (advances_todayString env)) in H4.
  assert (reads m4 <= reads m5)%nat as H5'.
  { destruct (List.find _ _).
    - injection H5 as _ <-. lia.
    - exact (advanced _ _ _ _ (advances_getEmptyDailyUsage env) H5). }
  destruct (filterM_notOlderThan env 7 _ _ _ _ Hweek)
    as (Hsub7 & Hreads7 & Hsound7 & Hcomplete7).
  destruct (filterM_notOlderThan env 30 _ _ _ _ Hmonth)
    as (Hsub30 & Hreads30 & Hsound30 & Hcomplete30).
  split; [exact Hsub7|]. split; [exact Hsub30|].
  split; [|split; [|split; [|split]]].
  - intros d Hd. destruct (Hsound7 d Hd) as (n & Hn & Hrecent).
    exists n. split; [lia|exact Hrecent].
  - intros d Hd. destruct (Hsound30 d Hd) as (n & Hn & Hrecent).
    exists n. split; [lia|exact Hrecent].
  - intros d Hd Hall. apply (Hcomplete7 d Hd). intros n Hn. apply Hall. lia.
  - intros d Hd Hall. apply (Hcomplete30 d Hd). intros n Hn. apply Hall. lia.
  - destruct (List.find _ _) as [d|] eqn:Hfind.
    + injection H5 as <- _. left. apply find_some in Hfind. tauto.
    + right. unfold getEmptyDailyUsage in H5.
      apply bind_returns in H5 as (date & mc & _ & H5).
      injection H5 as <- _. split; reflexivity.
Qed.

Lemma recent_days_of_mapped_stats_witness :
  exists s m',
    mapZaiToUsageStats Sample.online Sample.tokensLimit
      (Sample.usageOf 4801%Q) Sample.start = (inr s, m') /\
    sublist (UsageStats.thisWeek s)
      (mapHourlyToDailyUsage Sample.online (Sample.usageOf 4801%Q)).
Proof.
  destruct (mapZaiToUsageStats Sample.online Sample.tokensLimit
              (Sample.usageOf 4801%Q) Sample.start) as [r m'] eqn:Hrun.
  assert (exists s, r = inr s) as [s ->].
  { vm_compute in Hrun. injection Hrun as <- _. eexists. reflexivity. }
  exists s, m'. split; [reflexivity|].
  exact (proj1 (recent_days_of_mapped_stats _ _ _ _ _ _ Hrun)).
Defined.

(** ** The time range of the model-usage request *)

Lemma padStart2_twoDigits (n : Z) :
  0 <= n <= 99 -> twoDigits (JS.padStart2 n) = true.
Proof.
  intros Hn.
  assert (forallb (fun k => twoDigits (JS.padStart2 (Z.of_nat k)))
            (seq 0 100) = true) as Hall by (vm_compute; reflexivity).
  rewrite forallb_forall in Hall.
  specialize (Hall (Z.to_nat n)). rewrite Z2Nat.id in Hall by lia.
  apply Hall, in_seq. lia.
Qed.

Lemma pretty_fourDigits (n : Z) :
  1000 <= n <= 9999 -> fourDigits (pretty n) = true.
Proof.
  intros Hn.
  assert (forallb (fun k => fourDigits (pretty (1000 + Z.of_nat k)))
            (seq 0 (Z.to_nat 9000)) = true) as Hall
    by (vm_compute; reflexivity).
  rewrite forallb_forall in Hall.
  specialize (Hall (Z.to_nat (n - 1000))).
  rewrite Z2Nat.id in Hall by lia.
  replace (1000 + (n - 1000)) with n in Hall by lia.
  apply Hall, in_seq. lia.
Qed.

(** X24. For a date of the years 1000 to 9999, [formatDateTime] gives a
    text of the form [YYYY-MM-DD HH:MM:SS]: 19 characters, digits but for
    the separators, month and day and the time padded to two digits. *)
Theorem formatDateTime_shape (env : Env) (t : Z) :
  calendarFields (localFields env t) ->
  timestampShape (formatDateTime env (Some t)) = true /\
  String.length (formatDateTime env (Some t)) = 19%nat.
Proof.
  intros (Hy & Hmo & Hd & Hh & Hmi & Hs).
  unfold formatDateTime. cbv zeta.
  pose proof (pretty_fourDigits _ Hy) as Hyear.
  assert (0 <= JS.getMonth (localFields env t) + 1 <= 99) as Hmo' by lia.
  pose proof (padStart2_twoDigits _ Hmo') as Hmonth.
  assert (twoDigits (JS.padStart2 (JS.getDate (localFields env t))) = true)
    as Hday by (apply padStart2_twoDigits; lia).
  assert (twoDigits (JS.padStart2 (JS.getHours (localFields env t))) = true)
    as Hhours by (apply padStart2_twoDigits; lia).
  assert (twoDigits (JS.padStart2 (JS.getMinutes (localFields env t))) = true)
    as Hminutes by (apply padStart2_twoDigits; lia).
  assert (twoDigits (JS.padStart2 (JS.getSeconds (localFields env t))) = true)
    as Hseconds by (apply padStart2_twoDigits; lia).
  destruct (pretty (JS.getFullYear (localFields env t)))
    as [|y1 [|y2 [|y3 [|y4 [|]]]]]; try discriminate Hyear.
  destruct (JS.padStart2 (JS.getMonth (localFields env t) + 1))
    as [|m1 [|m2 [|]]]; try discriminate Hmonth.
  destruct (JS.padStart2 (JS.getDate (localFields env t)))
    as [|d1 [|d2 [|]]]; try discriminate Hday.
  destruct (JS.padStart2 (JS.getHours (localFields env t)))
    as [|h1 [|h2 [|]]]; try discriminate Hhours.
  destruct (JS.padStart2 (JS.getMinutes (localFields env t)))
    as [|i1 [|i2 [|]]]; try discriminate Hminutes.
  destruct (JS.padStart2 (JS.getSeconds (localFields env t)))
    as [|s1 [|s2 [|]]]; try discriminate Hseconds.
  cbn [fourDigits twoDigits] in *.
  repeat match goal with
         | H : _ && _ = true |- _ => apply andb_prop in H as [? ?]
         end.
  split; [|reflexivity].
  cbv -[isDigit].
  repeat match goal with
         | H : isDigit _ = true |- _ => rewrite H; clear H
         end.
  reflexivity.
Qed.

Lemma formatDateTime_shape_witness :
  timestampShape (formatDateTime Sample.online (Some 1700000000000)) = true.
Proof.
  refine (proj1 (formatDateTime_shape Sample.online 1700000000000 _)).
  vm_compute. repeat split; congruence.
Defined.
